(** * Student Management System: request handlers, validators and models

    A shallow embedding of [routes/studentRoutes.js], [routes/authRoutes.js],
    [models/Student.js], [models/User.js] and the dashboard and the error
    handlers of [server.js], with the properties of the specification that
    concern them and further properties of the routes and models.

    Conventions of the embedding.
    - A JavaScript string is a [string] that carries the UTF-8 encoding of
      the text (a well-formed text: no lone surrogate).  The white space of
      [trim], of [\s] and of [parseInt] is the white space of the language:
      tab, line feed, vertical tab, form feed, carriage return, space,
      U+00A0, U+1680, U+2000 to U+200A, U+2028, U+2029, U+202F, U+205F,
      U+3000 and U+FEFF.  The [length] of a string is its number of UTF-16
      code units: one for a character of one to three bytes, two for a
      character of four bytes.
    - A JavaScript object used as a record of form fields ([req.body],
      [req.query], the result of [toObject]) is a [gmap string _]; an absent
      key is [undefined].
    - The result of [parseInt] is the double nearest to the integer that
      was read, or an infinity beyond the largest double.  The page and
      the limit the list route takes from it are doubles that are
      integers, so they are [Z], and so are the counts of documents.  The
      skip is the exact product: the product the runtime computes in
      doubles is the same number below 2^53 and beyond that still at
      least 2^53, so that it gives the same page in every collection of
      fewer than 2^53 documents ([doubleSkip_page] below).  The ceiling of
      [total / limit] is the exact one, which is the one the runtime
      computes for every collection below 2^46 documents.
    - Other numbers are [number]: not-a-number, the two infinities, or a
      finite value carried as a rational.  Comparison of doubles is
      comparison of their values, so [<=] on [Q] is exact; rounding lives in
      [parseFloat], which is an operation of the runtime ([JsRuntime]).
    - The packages the code calls (validator.js, bcryptjs, the MongoDB
      server) are interfaces: type classes whose operations the handlers
      call. *)

From Stdlib Require Import ZArith QArith Ascii String List Bool Lia Permutation.
From Stdlib Require OrderedTypeEx.
From stdpp Require Import base option gmap strings list sorting pretty.

Local Open Scope string_scope.
Local Open Scope Z_scope.
Local Open Scope list_scope.

(** ** JavaScript primitives *)

Module JS.

Definition code (c : ascii) : N := N_of_ascii c.

(** *** White space

    The white-space characters, by the bytes of their encoding. *)

(** U+0009 to U+000D and U+0020 *)
Definition isWhiteSpace1 (c : ascii) : bool :=
  let n := code c in
  ((9 <=? n) && (n <=? 13) || (n =? 32))%N.

(** U+00A0 *)
Definition isWhiteSpace2 (c c1 : ascii) : bool :=
  ((code c =? 194) && (code c1 =? 160))%N.

(** U+1680; U+2000 to U+200A, U+2028, U+2029 and U+202F; U+205F; U+3000;
    U+FEFF *)
Definition isWhiteSpace3 (c c1 c2 : ascii) : bool :=
  let n := code c in
  let n1 := code c1 in
  let n2 := code c2 in
  ((n =? 225) && (n1 =? 154) && (n2 =? 128)
   || (n =? 226) && (n1 =? 128)
      && ((128 <=? n2) && (n2 <=? 138) || (n2 =? 168) || (n2 =? 169) || (n2 =? 175))
   || (n =? 226) && (n1 =? 129) && (n2 =? 159)
   || (n =? 227) && (n1 =? 128) && (n2 =? 128)
   || (n =? 239) && (n1 =? 187) && (n2 =? 191))%N.

(** What follows the white-space character at the head of [s], when there
    is one. *)
Definition whiteSpaceHead (s : string) : option string :=
  match s with
  | String c r =>
      if isWhiteSpace1 c then Some r
      else
        match r with
        | String c1 r1 =>
            if isWhiteSpace2 c c1 then Some r1
            else
              match r1 with
              | String c2 r2 => if isWhiteSpace3 c c1 c2 then Some r2 else None
              | EmptyString => None
              end
        | EmptyString => None
        end
  | EmptyString => None
  end.

Definition isDigit (c : ascii) : bool :=
  let n := code c in ((48 <=? n) && (n <=? 57))%N.

Definition isLower (c : ascii) : bool :=
  let n := code c in ((97 <=? n) && (n <=? 122))%N.

Definition isUpper (c : ascii) : bool :=
  let n := code c in ((65 <=? n) && (n <=? 90))%N.

Definition digitVal (c : ascii) : Z := Z.of_N (code c) - 48.

(** [String.prototype.trimStart] *)
Fixpoint trimStart (s : string) : string :=
  match s with
  | String c r =>
      if isWhiteSpace1 c then trimStart r
      else
        match r with
        | String c1 r1 =>
            if isWhiteSpace2 c c1 then trimStart r1
            else
              match r1 with
              | String c2 r2 => if isWhiteSpace3 c c1 c2 then trimStart r2 else s
              | EmptyString => s
              end
        | EmptyString => s
        end
  | EmptyString => s
  end.

(** Nothing but white space. *)
Definition isBlank (s : string) : bool := bool_decide (trimStart s = EmptyString).

(** [String.prototype.trimEnd]: the text up to the white space that ends
    it. *)
Fixpoint trimEnd (s : string) : string :=
  match s with
  | EmptyString => EmptyString
  | String c r => if isBlank s then EmptyString else String c (trimEnd r)
  end.

(** [String.prototype.trim] *)
Definition trim (s : string) : string := trimEnd (trimStart s).

(** A white-space character somewhere in [s]: what [\s] finds. *)
Fixpoint hasWhiteSpace (s : string) : bool :=
  match s with
  | EmptyString => false
  | String _ r =>
      match whiteSpaceHead s with
      | Some _ => true
      | None => hasWhiteSpace r
      end
  end.

(** [s.length]: the number of UTF-16 code units.  A byte that continues a
    character counts for nothing, the first byte of a character of four
    bytes counts for the two units of a surrogate pair. *)
Definition units (c : ascii) : nat :=
  let n := code c in
  if ((128 <=? n) && (n <=? 191))%N then 0%nat
  else if (240 <=? n)%N then 2%nat
  else 1%nat.

Fixpoint length (s : string) : nat :=
  match s with
  | EmptyString => 0%nat
  | String c r => (units c + length r)%nat
  end.

Definition toLowerChar (c : ascii) : ascii :=
  if isUpper c then ascii_of_N (code c + 32) else c.

(** [String.prototype.toLowerCase] on the texts the models give it: ids
    and roll numbers, which are ASCII when they are stored, and emails out
    of [normalizeEmail], which has lowered their letters already.  The
    letters A to Z are lowered, every other byte is left as it is. *)
Fixpoint toLowerCase (s : string) : string :=
  match s with
  | EmptyString => EmptyString
  | String c s' => String (toLowerChar c) (toLowerCase s')
  end.

Fixpoint forallb_string (p : ascii -> bool) (s : string) : bool :=
  match s with
  | EmptyString => true
  | String c s' => p c && forallb_string p s'
  end.

Definition isAscii (c : ascii) : bool := (code c <? 128)%N.

(** The result of [parseInt]: [NaN], an integer that is a double, or an
    infinity. *)
Inductive intnum := INaN | Int (z : Z) | IPosInfinity | INegInfinity.

(** The double nearest to an integer, the one with the even significand
    when two are as near; an infinity when that is beyond the largest
    double.  An integer below 2^53 in absolute value is a double. *)
Definition nearestDouble (z : Z) : intnum :=
  let a := Z.abs z in
  if a <? 2 ^ 53 then Int z
  else
    let e := Z.log2 a - 52 in
    let q := a / 2 ^ e in
    let r := a mod 2 ^ e in
    let half := 2 ^ (e - 1) in
    let q' := if (half <? r) || ((r =? half) && Z.odd q) then q + 1 else q in
    let m := q' * 2 ^ e in
    if 2 ^ 1024 <=? m then (if z <? 0 then INegInfinity else IPosInfinity)
    else Int (if z <? 0 then - m else m).

(** Longest prefix of decimal digits, as a number; [None] when the first
    character is not a digit. *)
Fixpoint digitsPrefix (s : string) (acc : option Z) : option Z :=
  match s with
  | String c s' =>
      if isDigit c then digitsPrefix s' (Some (10 * default 0 acc + digitVal c))
      else acc
  | EmptyString => acc
  end.

(** [parseInt(s, 10)] *)
Definition parseInt (s : string) : intnum :=
  let s := trimStart s in
  let '(neg, rest) :=
    match s with
    | String "-" r => (true, r)
    | String "+" r => (false, r)
    | _ => (false, s)
    end in
  match digitsPrefix rest None with
  | None => INaN
  | Some n => nearestDouble (if neg then - n else n)
  end.

(** A JavaScript number that need not be an integer. *)
Inductive number :=
| NaN
| PosInfinity
| NegInfinity
| Finite (q : Q).

(** [Number.isFinite] on a number *)
Definition isFinite (n : number) : bool :=
  match n with Finite _ => true | _ => false end.

Definition isNaN (n : number) : bool :=
  match n with NaN => true | _ => false end.

(** [a >= b] and [a <= b]; every comparison with [NaN] is false. *)
Definition geq (a b : number) : bool :=
  match a, b with
  | NaN, _ | _, NaN => false
  | PosInfinity, _ => true
  | _, NegInfinity => true
  | NegInfinity, _ => false
  | _, PosInfinity => false
  | Finite x, Finite y => Qle_bool y x
  end.

Definition leq (a b : number) : bool := geq b a.

End JS.

(** The operations of the runtime that turn text into a double. *)
Class JsRuntime := {
  (** global [parseFloat] *)
  parseFloat : string -> JS.number;
  (** [Number(s)] on a string *)
  toNumber : string -> JS.number
}.

(** validator.js functions whose definition is the package's own: the
    syntax of an email address, its normal form (lower case, and the
    provider-specific rewriting of the local part), and the length that
    [isLength] compares with its bounds (the code units of the string less
    its surrogate pairs and, in later versions of the package, less its
    variation selectors).  On a text of ASCII characters that length is
    the number of characters. *)
Class Validatorjs := {
  isEmail : string -> bool;
  normalizeEmail : string -> string;
  lengthOf : string -> nat;
  lengthOf_ascii :
    forall s, JS.forallb_string JS.isAscii s = true -> lengthOf s = String.length s
}.

(** ** express-validator: validation chains over the fields of a request *)

Module ExpressValidator.

(** An entry of [errors.array()], or of the error list a handler builds
    itself ([{ msg }], no path). *)
Record ErrorItem := { msg : string; path : option string }.

(** The package's [toString]: [undefined] becomes the empty string. *)
Definition toString (v : option string) : string := default "" v.

(** The parts of a request that carry fields. *)
Inductive Location := Body | Query | Params.

Record Request := {
  body : gmap string string;
  query : gmap string string;
  params : gmap string string
}.

Definition fieldsAt (l : Location) (req : Request) : gmap string string :=
  match l with Body => body req | Query => query req | Params => params req end.

Definition setFieldsAt (l : Location) (m : gmap string string) (req : Request) : Request :=
  match l with
  | Body => {| body := m; query := query req; params := params req |}
  | Query => {| body := body req; query := m; params := params req |}
  | Params => {| body := body req; query := query req; params := m |}
  end.

(** An item of a chain.  A standard validator carries the message of its
    [withMessage] (['Invalid value'] without one); a custom validator
    receives the value and the request and returns the message of the
    error it throws, or [None] when it returns [true]. *)
Inductive ContextItem :=
| Sanitization (sanitizer : string -> string)
| StandardValidation (validator : string -> bool) (message : string)
| CustomValidation (validator : option string -> Request -> option string).

Record ValidationChain := {
  location : Location;
  field : string;
  optional : bool;
  stack : list ContextItem
}.

Definition fieldError (f m : string) : ErrorItem := {| msg := m; path := Some f |}.

(** One item, on the request as it stands: a sanitizer writes its result
    back to the request, a failing validator appends an error. *)
Definition runItem (l : Location) (f : string) (st : Request * list ErrorItem)
    (it : ContextItem) : Request * list ErrorItem :=
  let '(req, errs) := st in
  let value := fieldsAt l req !! f in
  match it with
  | Sanitization san =>
      (setFieldsAt l (<[f := san (toString value)]> (fieldsAt l req)) req, errs)
  | StandardValidation v m =>
      if v (toString value) then st else (req, errs ++ [fieldError f m])
  | CustomValidation v =>
      match v value req with
      | None => st
      | Some m => (req, errs ++ [fieldError f m])
      end
  end.

(** A chain; an [optional()] chain is skipped when its field is
    [undefined]. *)
Definition runChain (st : Request * list ErrorItem) (c : ValidationChain)
    : Request * list ErrorItem :=
  if optional c && bool_decide (fieldsAt (location c) st.1 !! field c = None) then st
  else fold_left (runItem (location c) (field c)) (stack c) st.

(** The chains of a route run in order, as middleware, each on the request
    as the previous ones left it.  The result is the request after
    sanitization and what [validationResult(req)] holds. *)
Definition run (chains : list ValidationChain) (req : Request)
    : Request * list ErrorItem :=
  fold_left runChain chains (req, []).

(** The writes of an item and of a chain, without the validators: only
    sanitizers change the request. *)
Definition sanitizeItem (l : Location) (f : string) (req : Request) (it : ContextItem)
    : Request :=
  match it with
  | Sanitization san =>
      setFieldsAt l (<[f := san (toString (fieldsAt l req !! f))]> (fieldsAt l req)) req
  | _ => req
  end.

Definition sanitizeChain (req : Request) (c : ValidationChain) : Request :=
  if optional c && bool_decide (fieldsAt (location c) req !! field c = None) then req
  else fold_left (sanitizeItem (location c) (field c)) (stack c) req.

(** The entries of [errors.array()] for one field. *)
Definition errorsAt (f : string) (errs : list ErrorItem) : list ErrorItem :=
  List.filter (fun e => bool_decide (path e = Some f)) errs.

(** [body(f)] and [param(f)] with the items that follow. *)
Definition bodyChain (f : string) (items : list ContextItem) : ValidationChain :=
  {| location := Body; field := f; optional := false; stack := items |}.

Definition paramChain (f : string) (items : list ContextItem) : ValidationChain :=
  {| location := Params; field := f; optional := false; stack := items |}.

Definition invalidValue : string := "Invalid value".

(** *** validator.js validators with a fixed definition *)

(** [notEmpty()] *)
Definition notEmpty (s : string) : bool := negb (String.length s =? 0)%nat.

(** [isLength({ min, max })] *)
Definition isLength `{Validatorjs} (min : nat) (max : option nat) (s : string) : bool :=
  (min <=? lengthOf s)%nat
  && match max with Some m => (lengthOf s <=? m)%nat | None => true end.

Definition nonEmptyAll (p : ascii -> bool) (s : string) : bool :=
  match s with
  | EmptyString => false
  | _ => JS.forallb_string p s
  end.

Definition isHyphen (c : ascii) : bool := (JS.code c =? 45)%N.
Definition isUnderscore (c : ascii) : bool := (JS.code c =? 95)%N.

(** [matches(/^[a-z0-9-]+$/i)] *)
Definition matchesRollNumber : string -> bool :=
  nonEmptyAll (fun c => JS.isLower c || JS.isUpper c || JS.isDigit c || isHyphen c).

(** [matches(/^[a-zA-Z0-9_]+$/)] *)
Definition matchesUsername : string -> bool :=
  nonEmptyAll (fun c => JS.isLower c || JS.isUpper c || JS.isDigit c || isUnderscore c).

Definition isHexDigit (c : ascii) : bool :=
  let n := JS.code c in
  (JS.isDigit c || ((97 <=? n) && (n <=? 102)) || ((65 <=? n) && (n <=? 70)))%N.

(** [isHexadecimal]: hexadecimal digits, one or more, after an optional
    [0x] or [0h] in either case. *)
Definition isHexadecimal (s : string) : bool :=
  nonEmptyAll isHexDigit s
  || match s with
     | String "0" (String c r) =>
         (bool_decide (c = "x"%char) || bool_decide (c = "X"%char)
          || bool_decide (c = "h"%char) || bool_decide (c = "H"%char))
         && nonEmptyAll isHexDigit r
     | _ => false
     end.

(** [isMongoId()] *)
Definition isMongoId (s : string) : bool :=
  isHexadecimal s && (String.length s =? 24)%nat.

(** The float pattern of [isFloat], as a scanner: an optional sign, digits
    (possibly none), an optional point followed by digits (possibly none),
    an optional exponent ([e] or [E], an optional sign, one digit or
    more), and nothing else. *)
Fixpoint skipDigits (s : string) : string :=
  match s with
  | String c s' => if JS.isDigit c then skipDigits s' else s
  | EmptyString => EmptyString
  end.

Definition skipSign (s : string) : string :=
  match s with
  | String "+" r | String "-" r => r
  | _ => s
  end.

Definition floatPattern (s : string) : bool :=
  let s1 := skipDigits (skipSign s) in
  let s2 := match s1 with String "." r => skipDigits r | _ => s1 end in
  match s2 with
  | EmptyString => true
  | String c r =>
      if bool_decide (c = "e"%char) || bool_decide (c = "E"%char) then
        match skipSign r with
        | EmptyString => false
        | String d _ as ds => JS.isDigit d && bool_decide (skipDigits ds = EmptyString)
        end
      else false
  end.

(** [isFloat({ min, max })]: the pattern, and the parsed value within the
    bounds; the strings [''], ['.'], [','], ['-'] and ['+'] are refused
    first.  (The package parses the text with a first comma turned into a
    point; a text with a comma does not have the pattern, so the value of
    the conjunction is the same without that step.) *)
Definition isFloat `{JsRuntime} (min max : JS.number) (s : string) : bool :=
  if bool_decide (s = "") || bool_decide (s = ".") || bool_decide (s = ",")
     || bool_decide (s = "-") || bool_decide (s = "+") then false
  else
    let value := parseFloat s in
    floatPattern s && JS.geq value min && JS.leq value max.

End ExpressValidator.

(** ** Mongoose: errors and identifiers *)

Module Mongoose.

(** What a model operation throws. *)
Inductive Error :=
| ValidationError (messages : list string)
| CastError (path : string)
(** a write refused by a unique index: code 11000, with the first key of
    [keyValue] *)
| DuplicateKey (key : string)
| QueryError (message : string)
(** an error of another package, raised inside a hook *)
| HookError (message : string).

(** The text of an ObjectId: 24 hexadecimal characters. *)
Definition isObjectIdString (s : string) : bool :=
  (String.length s =? 24)%nat && JS.forallb_string ExpressValidator.isHexDigit s.

(** Casting the id of [findById...]: the id in lower case, or a cast
    error. *)
Definition castObjectId (s : string) : Error + string :=
  if isObjectIdString s then inr (JS.toLowerCase s) else inl (CastError "_id").

(** The first validator of a path that fails gives the path's message. *)
Fixpoint firstFailure {A} (checks : list ((A -> bool) * string)) (v : A) : option string :=
  match checks with
  | [] => None
  | (ok, m) :: rest => if ok v then firstFailure rest v else Some m
  end.

(** [required] on a String path *)
Definition requiredString (v : option string) : bool :=
  match v with Some s => negb (String.length s =? 0)%nat | None => false end.

(** [minlength], [maxlength] and [match] pass on [undefined]; [match] also
    passes on the empty string. *)
Definition minlength (n : nat) (v : option string) : bool :=
  match v with Some s => (n <=? JS.length s)%nat | None => true end.

Definition maxlength (n : nat) (v : option string) : bool :=
  match v with Some s => (JS.length s <=? n)%nat | None => true end.

Definition matchOf (re : string -> bool) (v : option string) : bool :=
  match v with
  | Some s => if (String.length s =? 0)%nat then true else re s
  | None => true
  end.

(** The pattern of both schemas' [email]: no white space and no [@] but
    the one separator, something before it, and after it a dot with
    something on either side. *)
Definition emailChar (c : ascii) : bool := negb (bool_decide (c = "@"%char)).

Fixpoint hasInnerDot (s : string) (seen : bool) : bool :=
  match s with
  | EmptyString => false
  | String c r =>
      if bool_decide (c = "."%char) && seen && negb (bool_decide (r = EmptyString))
      then true else hasInnerDot r true
  end.

Fixpoint emailFrom (s : string) (seen : bool) : bool :=
  match s with
  | EmptyString => false
  | String c r =>
      if bool_decide (c = "@"%char)
      then seen && JS.forallb_string emailChar r && hasInnerDot r false
      else emailChar c && emailFrom r true
  end.

Definition emailRegex (s : string) : bool :=
  negb (JS.hasWhiteSpace s) && emailFrom s false.

End Mongoose.

(** ** models/Student.js *)

Module Student.

(** A stored student document. *)
Record Doc := {
  _id : string;
  name : string;
  rollNumber : string;
  email : string;
  department : string;
  gpa : JS.number;
  createdAt : Z;
  updatedAt : Z
}.

(** The paths given to [new Student({...})] or to [$set]. *)
Record Paths := {
  p_name : option string;
  p_rollNumber : option string;
  p_email : option string;
  p_department : option string;
  p_gpa : JS.number
}.

(** The setters of the schema: [trim] everywhere, [lowercase] on
    [rollNumber] and [email]. *)
Definition applySetters (p : Paths) : Paths :=
  {| p_name := JS.trim <$> p_name p;
     p_rollNumber := JS.trim <$> (JS.toLowerCase <$> p_rollNumber p);
     p_email := JS.trim <$> (JS.toLowerCase <$> p_email p);
     p_department := JS.trim <$> p_department p;
     p_gpa := p_gpa p |}.

Definition nameValidators : list ((option string -> bool) * string) :=
  [ (Mongoose.requiredString, "Name is required");
    (Mongoose.minlength 2, "Name must be at least 2 characters");
    (Mongoose.maxlength 100, "Name must be at most 100 characters") ].

Definition rollNumberValidators : list ((option string -> bool) * string) :=
  [ (Mongoose.requiredString, "Roll number is required");
    (Mongoose.matchOf ExpressValidator.matchesRollNumber, "Roll number must be alphanumeric") ].

Definition emailValidators : list ((option string -> bool) * string) :=
  [ (Mongoose.requiredString, "Email is required");
    (Mongoose.matchOf Mongoose.emailRegex, "Invalid email address") ].

Definition departmentValidators : list ((option string -> bool) * string) :=
  [ (Mongoose.requiredString, "Department is required");
    (Mongoose.maxlength 100, "Department must be at most 100 characters") ].

(** [gpa]: a [NaN] does not cast to Number; then [min: 0] and [max: 4.0]. *)
Definition gpaValidators : list ((JS.number -> bool) * string) :=
  [ (fun v => negb (JS.isNaN v), "Cast to Number failed for path gpa");
    (fun v => JS.geq v (JS.Finite 0), "GPA cannot be less than 0.0");
    (fun v => JS.leq v (JS.Finite 4), "GPA cannot be greater than 4.0") ].

Definition pathErrors (p : Paths) : list string :=
  omap id
    [ Mongoose.firstFailure nameValidators (p_name p);
      Mongoose.firstFailure rollNumberValidators (p_rollNumber p);
      Mongoose.firstFailure emailValidators (p_email p);
      Mongoose.firstFailure departmentValidators (p_department p);
      Mongoose.firstFailure gpaValidators (p_gpa p) ].

(** Schema validation of the paths, after the setters. *)
Definition validate (p : Paths) : Mongoose.Error + Paths :=
  let p' := applySetters p in
  match pathErrors p' with
  | [] => inr p'
  | msgs => inl (Mongoose.ValidationError msgs)
  end.

(** The collection, in insertion order. *)
Definition Store := list Doc.

(** What the server supplies on a write. *)
Record Env := { freshId : string; now : Z }.

(** The unique indexes on [rollNumber] and [email], checked against the
    documents other than [self]. *)
Definition duplicate (store : Store) (self : option string) (p : Paths) : option string :=
  let others := filter (fun d => Some (_id d) ≠ self) store in
  if bool_decide (Exists (fun d => Some (rollNumber d) = p_rollNumber p) others)
  then Some "rollNumber"
  else if bool_decide (Exists (fun d => Some (email d) = p_email p) others)
  then Some "email"
  else None.

Definition ofPaths (id : string) (created updated : Z) (p : Paths) : Doc :=
  {| _id := id;
     name := default "" (p_name p);
     rollNumber := default "" (p_rollNumber p);
     email := default "" (p_email p);
     department := default "" (p_department p);
     gpa := p_gpa p;
     createdAt := created;
     updatedAt := updated |}.

(** [new Student(p).save()] *)
Definition save (env : Env) (store : Store) (p : Paths) : Mongoose.Error + (Store * Doc) :=
  match validate p with
  | inl e => inl e
  | inr p' =>
      match duplicate store None p' with
      | Some k => inl (Mongoose.DuplicateKey k)
      | None =>
          let d := ofPaths (freshId env) (now env) (now env) p' in
          inr (store ++ [d], d)
      end
  end.

(** [Student.findById(id)] *)
Definition findById (store : Store) (id : string) : Mongoose.Error + option Doc :=
  match Mongoose.castObjectId id with
  | inl e => inl e
  | inr oid => inr (List.find (fun d => bool_decide (_id d = oid)) store)
  end.

(** [Student.findByIdAndUpdate(id, { $set: p }, { new: true, runValidators: true })]:
    the new store and the updated document, or [None] when no document
    has the id. *)
Definition findByIdAndUpdate (env : Env) (store : Store) (id : string) (p : Paths)
    : Mongoose.Error + (Store * option Doc) :=
  match Mongoose.castObjectId id with
  | inl e => inl e
  | inr oid =>
      match validate p with
      | inl e => inl e
      | inr p' =>
          match List.find (fun d => bool_decide (_id d = oid)) store with
          | None => inr (store, None)
          | Some old =>
              match duplicate store (Some oid) p' with
              | Some k => inl (Mongoose.DuplicateKey k)
              | None =>
                  let d := ofPaths oid (createdAt old) (now env) p' in
                  inr (map (fun x => if bool_decide (_id x = oid) then d else x) store,
                       Some d)
              end
          end
      end
  end.

(** [Student.findByIdAndDelete(id)]: the new store and the document that
    was removed, if there was one. *)
Definition findByIdAndDelete (store : Store) (id : string)
    : Mongoose.Error + (Store * option Doc) :=
  match Mongoose.castObjectId id with
  | inl e => inl e
  | inr oid =>
      inr (filter (fun d => _id d ≠ oid) store,
           List.find (fun d => bool_decide (_id d = oid)) store)
  end.

(** *** Queries *)

(** The part of query evaluation that is the server's own: which
    documents a [$text] search selects. *)
Class MongoServer := {
  textSearch : string -> Doc -> bool
}.

(** [{ $gte, $lte }], each bound present or not. *)
Record GpaRange := { gte : option JS.number; lte : option JS.number }.

(** The filter object of the list route: [$text.$search], [department],
    [gpa]; an absent key is [None]. *)
Record Filter := {
  f_text : option string;
  f_department : option string;
  f_gpa : option GpaRange
}.

Definition inRange (r : GpaRange) (v : JS.number) : bool :=
  match gte r, lte r with
  | None, None => false  (* [gpa: {}] is equality with the empty document *)
  | lo, hi =>
      match lo with Some b => JS.geq v b | None => true end
      && match hi with Some b => JS.leq v b | None => true end
  end.

Definition matches `{MongoServer} (f : Filter) (d : Doc) : bool :=
  match f_text f with Some q => textSearch q d | None => true end
  && match f_department f with
     | Some dep => bool_decide (department d = dep)
     | None => true
     end
  && match f_gpa f with Some r => inRange r (gpa d) | None => true end.

(** The sort object [{ [key]: dir }]. *)
Record Sort := { key : string; dir : Z }.

(** Order of numbers in an index: [NaN] first, then by value. *)
Definition compareNumber (a b : JS.number) : comparison :=
  let rank n := match n with
                | JS.NaN => 0 | JS.NegInfinity => 1 | JS.Finite _ => 2 | JS.PosInfinity => 3
                end in
  match a, b with
  | JS.Finite x, JS.Finite y => Qcompare x y
  | _, _ => Z.compare (rank a) (rank b)
  end.

Definition compareBy (k : string) (a b : Doc) : comparison :=
  if bool_decide (k = "name") then String.compare (name a) (name b)
  else if bool_decide (k = "rollNumber") then String.compare (rollNumber a) (rollNumber b)
  else if bool_decide (k = "email") then String.compare (email a) (email b)
  else if bool_decide (k = "department") then String.compare (department a) (department b)
  else if bool_decide (k = "gpa") then compareNumber (gpa a) (gpa b)
  else if bool_decide (k = "createdAt") then Z.compare (createdAt a) (createdAt b)
  else if bool_decide (k = "updatedAt") then Z.compare (updatedAt a) (updatedAt b)
  else if bool_decide (k = "_id") then String.compare (_id a) (_id b)
  else Eq.

Definition before (s : Sort) (a b : Doc) : bool :=
  match compareBy (key s) a b with
  | Eq => true
  | Lt => bool_decide (0 <= dir s)
  | Gt => bool_decide (dir s < 0)
  end.

Fixpoint insertSorted (s : Sort) (x : Doc) (l : list Doc) : list Doc :=
  match l with
  | [] => [x]
  | y :: r => if before s x y then x :: l else y :: insertSorted s x r
  end.

Definition sortDocs (s : Sort) (l : list Doc) : list Doc :=
  foldr (insertSorted s) [] l.

(** [Student.countDocuments(filter)] *)
Definition countDocuments `{MongoServer} (store : Store) (f : Filter) : Z :=
  Z.of_nat (length (List.filter (matches f) store)).

(** [Student.find(filter).sort(sort).skip(skip).limit(limit).lean()];
    the server refuses a negative skip, and a limit of 0 is no limit. *)
Definition find `{MongoServer} (store : Store) (f : Filter) (s : Sort) (skip limit : Z)
    : Mongoose.Error + list Doc :=
  if bool_decide (skip < 0) then inl (Mongoose.QueryError "Skip value must be non-negative")
  else
    let skipped := drop (Z.to_nat skip) (sortDocs s (List.filter (matches f) store)) in
    inr (if bool_decide (limit = 0) then skipped else take (Z.to_nat (Z.abs limit)) skipped).

End Student.

(** ** Express: what a handler answers *)

Module Express.

Import ExpressValidator.

(** [pagination] of the list view. *)
Record Pagination := { page : Z; limit : Z; total : Z; totalPages : Z }.

(** [filters] of the list view: the values echoed into the form; a gpa
    bound that is falsy (absent, [NaN] or zero) is echoed as ['']. *)
Record Filters := {
  e_q : string;
  e_department : string;
  e_minGpa : option JS.number;
  e_maxGpa : option JS.number;
  e_sortBy : string;
  e_order : string;
  e_limit : Z
}.

(** The locals given to [res.render]. *)
Inductive Locals :=
| FormLocals (title : string) (errors : list ErrorItem) (values : gmap string string)
| ListLocals (title : string) (students : list Student.Doc)
    (pagination : Pagination) (filters : Filters) (flashMsg : string)
| ErrorLocals (title message : string) (status : Z).

Inductive Response :=
| Redirect (url : string)
| Render (status : Z) (view : string) (locals : Locals)
(** the handler threw, and [asyncHandler] passed the error to [next] *)
| Next (err : Mongoose.Error).

Definition statusOf (r : Response) : option Z :=
  match r with Render st _ _ => Some st | _ => None end.

Definition errorsOf (r : Response) : list ErrorItem :=
  match r with Render _ _ (FormLocals _ errs _) => errs | _ => [] end.

Definition valuesOf (r : Response) : option (gmap string string) :=
  match r with Render _ _ (FormLocals _ _ vs) => Some vs | _ => None end.

(** A value used as a condition: a string is truthy unless empty. *)
Definition truthy (v : option string) : bool :=
  match v with Some s => negb (String.length s =? 0)%nat | None => false end.

End Express.

(** ** routes/studentRoutes.js *)

Module StudentRoutes.

Import ExpressValidator Express.

Definition buildSort (sortBy order : option string) : Student.Sort :=
  let allowed := ["name"; "rollNumber"; "email"; "department"; "gpa"; "createdAt"] in
  let key :=
    match sortBy with
    | Some s => if bool_decide (s ∈ allowed) then s else "createdAt"
    | None => "createdAt"
    end in
  let dir := if bool_decide (order = Some "asc") then 1 else -1 in
  {| Student.key := key; Student.dir := dir |}.

Definition sanitizeString (s : option string) : option string := JS.trim <$> s.

Definition quote : string := String "034"%char EmptyString.

Definition customRequired : string :=
  "Custom department name is required when selecting " +:+ quote
    +:+ "Custom Department" +:+ quote.
Definition customTooShort : string :=
  "Custom department name must be at least 2 characters long".
Definition customTooLong : string :=
  "Custom department name must be at most 100 characters long".

(** Custom department validation *)
Definition validateDepartment (value : option string) (req : Request) : option string :=
  if bool_decide (value = Some "custom") then
    match body req !! "customDepartment" with
    | None => Some customRequired
    | Some customDepartment =>
        if bool_decide (customDepartment = "") || bool_decide (JS.trim customDepartment = "")
        then Some customRequired
        else if (JS.length (JS.trim customDepartment) <? 2)%nat
        then Some customTooShort
        else if (100 <? JS.length (JS.trim customDepartment))%nat
        then Some customTooLong
        else None
    end
  else None.

Section Handlers.

Context {RT : JsRuntime} {VJ : Validatorjs} {MS : Student.MongoServer}.

Definition studentValidators : list ValidationChain :=
  [ bodyChain "name"
      [ Sanitization JS.trim;
        StandardValidation notEmpty "Name is required";
        StandardValidation (isLength 2 (Some 100%nat)) invalidValue ];
    bodyChain "rollNumber"
      [ Sanitization JS.trim;
        StandardValidation notEmpty "Roll number is required";
        StandardValidation matchesRollNumber "Roll number must be alphanumeric" ];
    bodyChain "email"
      [ Sanitization JS.trim;
        StandardValidation isEmail "Valid email is required";
        Sanitization normalizeEmail ];
    bodyChain "department"
      [ Sanitization JS.trim;
        StandardValidation notEmpty "Department is required";
        CustomValidation validateDepartment ];
    bodyChain "gpa"
      [ StandardValidation (isFloat (JS.Finite 0) (JS.Finite 4))
          "GPA must be between 0.0 and 4.0" ] ].

(** *** List with pagination, search, sort *)

(** The query after the route's chains: [page] and [limit] through
    [optional().toInt()], the others through [optional().trim()];
    [msg] has no chain. *)
Record ListQuery := {
  q_page : option JS.intnum;
  q_limit : option JS.intnum;
  q_q : option string;
  q_department : option string;
  q_minGpa : option string;
  q_maxGpa : option string;
  q_sortBy : option string;
  q_order : option string;
  q_msg : option string
}.

Definition listValidators (query : gmap string string) : ListQuery :=
  {| q_page := JS.parseInt <$> query !! "page";
     q_limit := JS.parseInt <$> query !! "limit";
     q_q := JS.trim <$> query !! "q";
     q_department := JS.trim <$> query !! "department";
     q_minGpa := JS.trim <$> query !! "minGpa";
     q_maxGpa := JS.trim <$> query !! "maxGpa";
     q_sortBy := JS.trim <$> query !! "sortBy";
     q_order := JS.trim <$> query !! "order";
     q_msg := query !! "msg" |}.

(** [Number.isFinite(v) ? v : d] *)
Definition finiteOr (v : option JS.intnum) (d : Z) : Z :=
  match v with Some (JS.Int z) => z | _ => d end.

Definition listPage (rq : ListQuery) : Z := Z.max 1 (finiteOr (q_page rq) 1).

Definition listLimit (rq : ListQuery) : Z :=
  let limitRaw := finiteOr (q_limit rq) 10 in
  Z.min 100 (Z.max 1 limitRaw).

(** [(page - 1) * limit], the exact product.  The runtime computes it in
    doubles ([doubleSkip]); the two are the same number below 2^53, and
    beyond it both are at least 2^53, more than the documents of any
    collection, so that the page is the same ([doubleSkip_page]). *)
Definition listSkip (rq : ListQuery) : Z := (listPage rq - 1) * listLimit rq.

Definition doubleSkip (rq : ListQuery) : JS.intnum :=
  match JS.nearestDouble (listPage rq - 1) with
  | JS.Int d => JS.nearestDouble (d * listLimit rq)
  | other => other
  end.

(** [v !== undefined && v !== '' ? parseFloat(v) : undefined] *)
Definition gpaBound (v : option string) : option JS.number :=
  match v with
  | Some s => if bool_decide (s = "") then None else Some (parseFloat s)
  | None => None
  end.

(** [typeof v === 'number' && Number.isFinite(v)] *)
Definition hasBound (v : option JS.number) : bool :=
  match v with Some n => JS.isFinite n | None => false end.

Definition listFilter (rq : ListQuery) : Student.Filter :=
  let minGpa := gpaBound (q_minGpa rq) in
  let maxGpa := gpaBound (q_maxGpa rq) in
  let hasMin := hasBound minGpa in
  let hasMax := hasBound maxGpa in
  {| Student.f_text := if truthy (q_q rq) then sanitizeString (q_q rq) else None;
     Student.f_department :=
       if truthy (q_department rq) then sanitizeString (q_department rq) else None;
     Student.f_gpa :=
       if hasMin || hasMax
       then Some {| Student.gte := if hasMin then minGpa else None;
                    Student.lte := if hasMax then maxGpa else None |}
       else None |}.

(** [Math.ceil(a / b)] for a positive divisor *)
Definition ceilDiv (a b : Z) : Z := - ((- a) / b).

(** [v || ''] on a number: [NaN] and zero are falsy. *)
Definition echoNumber (v : option JS.number) : option JS.number :=
  match v with
  | Some (JS.Finite x) => if Qeq_bool x 0 then None else v
  | Some JS.NaN | None => None
  | _ => v
  end.

Definition orElse (v : option string) (d : string) : string :=
  if truthy v then toString v else d.

Definition listStudents (store : Student.Store) (query : gmap string string) : Response :=
  let rq := listValidators query in
  let page := listPage rq in
  let limit := listLimit rq in
  let skip := listSkip rq in
  let filter := listFilter rq in
  let sort := buildSort (q_sortBy rq) (q_order rq) in
  let total := Student.countDocuments store filter in
  match Student.find store filter sort skip limit with
  | inl err => Next err
  | inr students =>
      let totalPages := Z.max 1 (ceilDiv total limit) in
      Render 200 "students"
        (ListLocals "Students" students
           {| page := page; limit := limit; total := total; totalPages := totalPages |}
           {| e_q := orElse (q_q rq) "";
              e_department := orElse (q_department rq) "";
              e_minGpa := echoNumber (gpaBound (q_minGpa rq));
              e_maxGpa := echoNumber (gpaBound (q_maxGpa rq));
              e_sortBy := orElse (q_sortBy rq) "createdAt";
              e_order := orElse (q_order rq) "desc";
              e_limit := limit |}
           (orElse (q_msg rq) ""))
  end.

(** The documents of the page, as the query computes them. *)
Definition pageOf (store : Student.Store) (rq : ListQuery) : list Student.Doc :=
  take (Z.to_nat (listLimit rq))
    (drop (Z.to_nat (listSkip rq))
       (Student.sortDocs (buildSort (q_sortBy rq) (q_order rq))
          (List.filter (Student.matches (listFilter rq)) store))).

(** *** Create and update *)

(** Handle custom department *)
Definition departmentValue (b : gmap string string) : option string :=
  let departmentValue := sanitizeString (b !! "department") in
  if bool_decide (departmentValue = Some "custom") && truthy (b !! "customDepartment")
  then sanitizeString (b !! "customDepartment")
  else departmentValue.

(** [Number(v)]; [Number(undefined)] is [NaN]. *)
Definition Number_ (v : option string) : JS.number :=
  match v with Some s => toNumber s | None => JS.NaN end.

Definition studentPaths (b : gmap string string) : Student.Paths :=
  {| Student.p_name := sanitizeString (b !! "name");
     Student.p_rollNumber := sanitizeString (b !! "rollNumber");
     Student.p_email := sanitizeString (b !! "email");
     Student.p_department := departmentValue b;
     Student.p_gpa := Number_ (b !! "gpa") |}.

Definition uniqueError (dupField : string) : list ErrorItem :=
  [ {| msg := dupField +:+ " must be unique"; path := None |} ].

Definition isEmpty (errors : list ErrorItem) : bool :=
  match errors with [] => true | _ => false end.

Definition createStudent (env : Student.Env) (store : Student.Store) (req : Request)
    : Student.Store * Response :=
  let '(req, errors) := run studentValidators req in
  if negb (isEmpty errors) then
    (store, Render 422 "addStudent" (FormLocals "Add Student" errors (body req)))
  else
    match Student.save env store (studentPaths (body req)) with
    | inr (store', _) => (store', Redirect "/students?msg=created")
    | inl (Mongoose.DuplicateKey dupField) =>
        (store, Render 409 "addStudent"
                  (FormLocals "Add Student" (uniqueError dupField) (body req)))
    | inl err => (store, Next err)
    end.

(** The route [/:id] binds the path segment to [req.params.id]. *)
Definition withId (id : string) (req : Request) : Request :=
  setFieldsAt Params {[ "id" := id ]} req.

Definition notFound : Response :=
  Render 404 "error" (ErrorLocals "Not Found" "Student not found" 404).

Definition updateStudent (env : Student.Env) (store : Student.Store)
    (id : string) (req : Request) : Student.Store * Response :=
  let '(req, errors) :=
    run (paramChain "id" [StandardValidation isMongoId invalidValue] :: studentValidators)
        (withId id req) in
  let id := toString (params req !! "id") in
  if negb (isEmpty errors) then
    (store, Render 422 "editStudent"
              (FormLocals "Edit Student" errors (<["_id" := id]> (body req))))
  else
    match Student.findByIdAndUpdate env store id (studentPaths (body req)) with
    | inr (_, None) => (store, notFound)
    | inr (store', Some updated) =>
        (store', Redirect ("/students/" +:+ Student._id updated +:+ "?msg=updated"))
    | inl (Mongoose.DuplicateKey dupField) =>
        (store, Render 409 "editStudent"
                  (FormLocals "Edit Student" (uniqueError dupField)
                     (<["_id" := id]> (body req))))
    | inl err => (store, Next err)
    end.

(** *** Delete *)

(** The route's [param('id').isMongoId()] records an error that the
    handler never reads; the id goes to the model as it is. *)
Definition deleteStudent (store : Student.Store) (id : string)
    : Student.Store * Response :=
  match Student.findByIdAndDelete store id with
  | inl err => (store, Next err)
  | inr (store', _) => (store', Redirect "/students?msg=deleted")
  end.

End Handlers.

End StudentRoutes.

(** ** bcryptjs *)

(** The package's three functions.  [genSalt] draws on a source of
    randomness, which the caller of the model supplies as [entropy];
    [genSalt] and [hash] can fail. *)
Class Bcryptjs := {
  genSalt : nat -> Z -> Mongoose.Error + string;
  hash : string -> string -> Mongoose.Error + string;
  compare : string -> string -> bool
}.

(** ** models/User.js *)

Module User.

Inductive Role := admin | user.

(** A stored user document. *)
Record Doc := {
  _id : string;
  username : string;
  email : string;
  password : string;
  role : Role;
  isActive : bool;
  createdAt : Z;
  updatedAt : Z
}.

(** A document in memory: its paths, whether it is new, and the paths
    modified since it was loaded or created. *)
Record Document := {
  doc : Doc;
  isNew : bool;
  modifiedPaths : gset string
}.

Definition isModified (p : string) (this : Document) : bool :=
  bool_decide (p ∈ modifiedPaths this).

Definition setPassword (v : string) (this : Document) : Document :=
  {| doc := {| _id := _id (doc this); username := username (doc this);
               email := email (doc this); password := v;
               role := role (doc this); isActive := isActive (doc this);
               createdAt := createdAt (doc this); updatedAt := updatedAt (doc this) |};
     isNew := isNew this;
     modifiedPaths := {[ "password" ]} ∪ modifiedPaths this |}.

Definition setUsername (v : string) (this : Document) : Document :=
  {| doc := {| _id := _id (doc this); username := JS.trim v;
               email := email (doc this); password := password (doc this);
               role := role (doc this); isActive := isActive (doc this);
               createdAt := createdAt (doc this); updatedAt := updatedAt (doc this) |};
     isNew := isNew this;
     modifiedPaths := {[ "username" ]} ∪ modifiedPaths this |}.

Definition setEmail (v : string) (this : Document) : Document :=
  {| doc := {| _id := _id (doc this); username := username (doc this);
               email := JS.trim (JS.toLowerCase v); password := password (doc this);
               role := role (doc this); isActive := isActive (doc this);
               createdAt := createdAt (doc this); updatedAt := updatedAt (doc this) |};
     isNew := isNew this;
     modifiedPaths := {[ "email" ]} ∪ modifiedPaths this |}.

Definition setIsActive (v : bool) (this : Document) : Document :=
  {| doc := {| _id := _id (doc this); username := username (doc this);
               email := email (doc this); password := password (doc this);
               role := role (doc this); isActive := v;
               createdAt := createdAt (doc this); updatedAt := updatedAt (doc this) |};
     isNew := isNew this;
     modifiedPaths := {[ "isActive" ]} ∪ modifiedPaths this |}.

Definition setRole (v : Role) (this : Document) : Document :=
  {| doc := {| _id := _id (doc this); username := username (doc this);
               email := email (doc this); password := password (doc this);
               role := v; isActive := isActive (doc this);
               createdAt := createdAt (doc this); updatedAt := updatedAt (doc this) |};
     isNew := isNew this;
     modifiedPaths := {[ "role" ]} ∪ modifiedPaths this |}.

(** An assignment to a path other than [password]. *)
Inductive Update :=
| SetUsername (v : string)
| SetEmail (v : string)
| SetIsActive (v : bool)
| SetRole (v : Role).

Definition applyUpdate (this : Document) (u : Update) : Document :=
  match u with
  | SetUsername v => setUsername v this
  | SetEmail v => setEmail v this
  | SetIsActive v => setIsActive v this
  | SetRole v => setRole v this
  end.

(** A document read from the collection: nothing modified. *)
Definition hydrate (d : Doc) : Document :=
  {| doc := d; isNew := false; modifiedPaths := ∅ |}.

Record Env := { freshId : string; now : Z; entropy : Z }.

(** [new User({ username, email, password })]: the three paths through
    their setters, the defaults of [role] and [isActive]. *)
Definition new (env : Env) (u e p : string) : Document :=
  {| doc := {| _id := freshId env; username := JS.trim u;
               email := JS.trim (JS.toLowerCase e); password := p;
               role := user; isActive := true;
               createdAt := now env; updatedAt := now env |};
     isNew := true;
     modifiedPaths := {[ "username"; "email"; "password" ]} |}.

(** The calls a hook makes to bcryptjs, in order. *)
Inductive BcryptCall :=
| GenSalt (rounds : nat)
| Hash (data salt : string).

Section Hooks.

Context {BC : Bcryptjs}.

(** Hash password before saving *)
Definition preSave (env : Env) (this : Document)
    : (Mongoose.Error + Document) * list BcryptCall :=
  if negb (isModified "password" this) then (inr this, [])
  else
    match genSalt 12 (entropy env) with
    | inl error => (inl error, [GenSalt 12])
    | inr salt =>
        match hash (password (doc this)) salt with
        | inl error => (inl error, [GenSalt 12; Hash (password (doc this)) salt])
        | inr hashed =>
            (inr (setPassword hashed this),
             [GenSalt 12; Hash (password (doc this)) salt])
        end
    end.

(** Method to compare passwords *)
Definition comparePassword (this : Doc) (candidatePassword : string) : bool :=
  compare candidatePassword (password this).

End Hooks.

(** *** Serialization *)

Inductive Value := VString (s : string) | VBool (b : bool) | VDate (t : Z).

Definition roleName (r : Role) : string :=
  match r with admin => "admin" | user => "user" end.

(** [this.toObject()]: a fresh plain object with every path of the
    document. *)
Definition toObject (this : Doc) : gmap string Value :=
  <["_id" := VString (_id this)]>
  (<["username" := VString (username this)]>
  (<["email" := VString (email this)]>
  (<["password" := VString (password this)]>
  (<["role" := VString (roleName (role this))]>
  (<["isActive" := VBool (isActive this)]>
  (<["createdAt" := VDate (createdAt this)]>
  (<["updatedAt" := VDate (updatedAt this)]> ∅))))))).

(** Method to get user without password *)
Definition toJSON (this : Doc) : gmap string Value :=
  let user := toObject this in
  delete "password" user.

(** *** The collection *)

Definition Store := list Doc.

Definition usernameValidators : list ((option string -> bool) * string) :=
  [ (Mongoose.requiredString, "Username is required");
    (Mongoose.minlength 3, "Username must be at least 3 characters");
    (Mongoose.maxlength 30, "Username must be at most 30 characters");
    (Mongoose.matchOf ExpressValidator.matchesUsername,
     "Username can only contain letters, numbers, and underscores") ].

Definition emailValidators : list ((option string -> bool) * string) :=
  [ (Mongoose.requiredString, "Email is required");
    (Mongoose.matchOf Mongoose.emailRegex, "Invalid email address") ].

Definition passwordValidators : list ((option string -> bool) * string) :=
  [ (Mongoose.requiredString, "Password is required");
    (Mongoose.minlength 6, "Password must be at least 6 characters") ].

(** Validation before save: the validators of the modified paths. *)
Definition validate (this : Document) : list string :=
  let check (p : string) (vs : list ((option string -> bool) * string)) (v : string) :=
    if isModified p this then Mongoose.firstFailure vs (Some v) else None in
  omap id
    [ check "username" usernameValidators (username (doc this));
      check "email" emailValidators (email (doc this));
      check "password" passwordValidators (password (doc this)) ].

(** The unique indexes on [username] and [email]. *)
Definition duplicate (store : Store) (d : Doc) : option string :=
  let others := filter (fun x => _id x ≠ _id d) store in
  if bool_decide (Exists (fun x => username x = username d) others) then Some "username"
  else if bool_decide (Exists (fun x => email x = email d) others) then Some "email"
  else None.

Definition touch (t : Z) (d : Doc) : Doc :=
  {| _id := _id d; username := username d; email := email d; password := password d;
     role := role d; isActive := isActive d; createdAt := createdAt d; updatedAt := t |}.

(** The write of [save]: an insert for a new document, otherwise a
    replacement of the stored document of the same id. *)
Definition write (store : Store) (this : Document) : Store :=
  if isNew this then store ++ [doc this]
  else map (fun x => if bool_decide (_id x = _id (doc this)) then doc this else x) store.

Section Save.

Context {BC : Bcryptjs}.

(** [this.save()]: validation, the pre-save hook, the write.  The
    result carries the bcryptjs calls that were made. *)
Definition save (env : Env) (store : Store) (this : Document)
    : (Mongoose.Error + (Store * Doc)) * list BcryptCall :=
  match validate this with
  | _ :: _ as msgs => (inl (Mongoose.ValidationError msgs), [])
  | [] =>
      match preSave env this with
      | (inl e, calls) => (inl e, calls)
      | (inr this', calls) =>
          let stored :=
            {| doc := if isNew this' then doc this' else touch (now env) (doc this');
               isNew := isNew this';
               modifiedPaths := modifiedPaths this' |} in
          match duplicate store (doc stored) with
          | Some k => (inl (Mongoose.DuplicateKey k), calls)
          | None => (inr (write store stored, doc stored), calls)
          end
      end
  end.

End Save.

(** [User.findOne({ email })], the filter through the path's setters. *)
Definition findByEmail (store : Store) (e : string) : option Doc :=
  List.find (fun d => bool_decide (email d = JS.trim (JS.toLowerCase e))) store.

(** [User.findOne({ $or: [{ email }, { username }] })] *)
Definition findByEmailOrUsername (store : Store) (e u : string) : option Doc :=
  List.find (fun d => bool_decide (email d = JS.trim (JS.toLowerCase e))
                      || bool_decide (username d = JS.trim u)) store.

End User.

(** ** routes/authRoutes.js *)

Module AuthRoutes.

Import ExpressValidator Express.

(** What login stores in the session. *)
Record Session := {
  userId : string;
  username : string;
  role : User.Role
}.

Definition invalidCredentials : string := "Invalid email or password".
Definition deactivated : string := "Account is deactivated. Please contact administrator.".

Definition confirmMismatch (value : option string) (req : Request) : option string :=
  if bool_decide (value ≠ body req !! "password")
  then Some "Password confirmation does not match password"
  else None.

Definition only (m : string) : list ErrorItem := [ {| msg := m; path := None |} ].

Section Handlers.

Context {VJ : Validatorjs} {BC : Bcryptjs}.

Definition signupValidators : list ValidationChain :=
  [ bodyChain "username"
      [ Sanitization JS.trim;
        StandardValidation (isLength 3 (Some 30%nat))
          "Username must be between 3 and 30 characters";
        StandardValidation matchesUsername
          "Username can only contain letters, numbers, and underscores" ];
    bodyChain "email"
      [ Sanitization JS.trim;
        StandardValidation isEmail "Please enter a valid email address";
        Sanitization normalizeEmail ];
    bodyChain "password"
      [ StandardValidation (isLength 6 None)
          "Password must be at least 6 characters long" ];
    bodyChain "confirmPassword" [ CustomValidation confirmMismatch ] ].

Definition loginValidators : list ValidationChain :=
  [ bodyChain "email"
      [ Sanitization JS.trim;
        StandardValidation isEmail "Please enter a valid email address";
        Sanitization normalizeEmail ];
    bodyChain "password"
      [ StandardValidation notEmpty "Password is required" ] ].

(** Signup process *)
Definition signup (env : User.Env) (store : User.Store) (req : Request)
    : User.Store * Response :=
  let '(req, errors) := run signupValidators req in
  if negb (StudentRoutes.isEmpty errors) then
    (store, Render 422 "signup" (FormLocals "Sign Up" errors (body req)))
  else
    let email := toString (body req !! "email") in
    let username := toString (body req !! "username") in
    let password := toString (body req !! "password") in
    match User.findByEmailOrUsername store email username with
    | Some existingUser =>
        if bool_decide (User.email existingUser = email) then
          (store, Render 409 "signup"
                    (FormLocals "Sign Up" (only "Email already registered") (body req)))
        else
          (store, Render 409 "signup"
                    (FormLocals "Sign Up" (only "Username already taken") (body req)))
    | None =>
        match User.save env store (User.new env username email password) with
        | (inr (store', _), _) => (store', Redirect "/login?msg=signup_success")
        | (inl _, _) =>
            (store, Render 500 "signup"
                      (FormLocals "Sign Up"
                         (only "An error occurred during signup. Please try again.")
                         (body req)))
        end
    end.

(** Login process: the session data set on success, and the answer. *)
Definition login (store : User.Store) (req : Request) : option Session * Response :=
  let '(req, errors) := run loginValidators req in
  if negb (StudentRoutes.isEmpty errors) then
    (None, Render 422 "login" (FormLocals "Login" errors (body req)))
  else
    match User.findByEmail store (toString (body req !! "email")) with
    | None =>
        (None, Render 401 "login" (FormLocals "Login" (only invalidCredentials) (body req)))
    | Some user =>
        if negb (User.isActive user) then
          (None, Render 401 "login" (FormLocals "Login" (only deactivated) (body req)))
        else
          let isValidPassword :=
            User.comparePassword user (toString (body req !! "password")) in
          if negb isValidPassword then
            (None, Render 401 "login"
                     (FormLocals "Login" (only invalidCredentials) (body req)))
          else
            (Some {| userId := User._id user;
                     username := User.username user;
                     role := User.role user |},
             Redirect "/?msg=login_success")
    end.

End Handlers.

End AuthRoutes.

(** ** routes/studentRoutes.js: the form and detail routes *)

Module StudentPages.

Import ExpressValidator Express.

(** What the routes that show one student answer: the detail view or the
    edit form with the stored document, or an answer of the other kinds. *)
Inductive Page :=
(** [res.render('studentDetails', { title: 'Student Details', student, flashMsg })] *)
| Details (student : Student.Doc) (flashMsg : string)
(** [res.render('editStudent', { title: 'Edit Student', errors: [], values: student })] *)
| EditForm (student : Student.Doc)
| Other (r : Response).

(** New form *)
Definition newStudent : Response :=
  Render 200 "addStudent" (FormLocals "Add Student" [] ∅).

(** Show one.  The route's [param('id').isMongoId()] is not read here
    either. *)
Definition showStudent (store : Student.Store) (id : string) (query : gmap string string)
    : Page :=
  match Student.findById store id with
  | inl err => Other (Next err)
  | inr None => Other StudentRoutes.notFound
  | inr (Some student) => Details student (StudentRoutes.orElse (query !! "msg") "")
  end.

(** Edit form *)
Definition editStudent (store : Student.Store) (id : string) : Page :=
  match Student.findById store id with
  | inl err => Other (Next err)
  | inr None => Other StudentRoutes.notFound
  | inr (Some student) => EditForm student
  end.

End StudentPages.

(** ** server.js *)

Module Server.

Import Express.

(** What reaches the error handler: the [status] property of the error,
    when it has one, and its message. *)
Record Thrown := { status : option Z; message : string }.

(** An error of Mongoose or of the MongoDB driver has no [status]
    property; [describe] gives its message. *)
Definition thrown (describe : Mongoose.Error -> string) (err : Mongoose.Error) : Thrown :=
  {| status := None; message := describe err |}.

(** What the last two middlewares send. *)
Inductive Answer :=
| Html (status : Z) (view : string) (locals : Locals)
| Json (status : Z) (error : string).

(** 404 handler *)
Definition notFoundHandler : Answer :=
  Html 404 "error" (ErrorLocals "Not Found" "The page you requested was not found." 404).

(** Global error handler; [err.status || 500] takes 500 for an absent
    status and for 0. *)
Definition errorHandler (err : Thrown) (acceptsHtml : bool) : Answer :=
  let status :=
    match status err with
    | Some s => if bool_decide (s = 0) then 500 else s
    | None => 500
    end in
  let message :=
    if bool_decide (status = 500) then "An unexpected error occurred." else message err in
  if acceptsHtml then Html status "error" (ErrorLocals "Error" message status)
  else Json status message.

(** A route's answer as the client gets it: an error passed to [next]
    goes through the error handler. *)
Inductive Final :=
| Sent (r : Response)
| Handled (a : Answer).

Definition finish (describe : Mongoose.Error -> string) (acceptsHtml : bool) (r : Response)
    : Final :=
  match r with
  | Next err => Handled (errorHandler (thrown describe err) acceptsHtml)
  | _ => Sent r
  end.

(** The departments of the dashboard: [$group] by department with a count,
    [$sort] by count descending, [$limit] 5, then [d._id || 'Unknown'].
    Groups appear in the order of their first student, and the sort keeps
    that order among equal counts. *)
Fixpoint countInto (dep : string) (groups : list (string * Z)) : list (string * Z) :=
  match groups with
  | [] => [(dep, 1)]
  | (k, n) :: rest =>
      if bool_decide (k = dep) then (k, n + 1) :: rest else (k, n) :: countInto dep rest
  end.

Definition groupByDepartment (store : Student.Store) : list (string * Z) :=
  fold_left (fun groups d => countInto (Student.department d) groups) store [].

Fixpoint insertByCount (g : string * Z) (l : list (string * Z)) : list (string * Z) :=
  match l with
  | [] => [g]
  | h :: rest => if bool_decide (h.2 <= g.2) then g :: l else h :: insertByCount g rest
  end.

Definition sortByCount (l : list (string * Z)) : list (string * Z) :=
  foldr insertByCount [] l.

Definition byDept (store : Student.Store) : list (string * Z) :=
  take 5 (sortByCount (groupByDepartment store)).

Definition topDepartments (store : Student.Store) : list (string * Z) :=
  map (fun d => (if Express.truthy (Some d.1) then d.1 else "Unknown", d.2)) (byDept store).

End Server.

(** ** Conditions and invariants used in the properties *)

Module Conditions.

Import ExpressValidator.

(** What it takes for an item, a chain and a list of chains to add no
    error, on the request as each finds it. *)
Definition itemPasses (l : Location) (f : string) (req : Request) (it : ContextItem) : Prop :=
  match it with
  | Sanitization _ => True
  | StandardValidation v _ => v (toString (fieldsAt l req !! f)) = true
  | CustomValidation v => v (fieldsAt l req !! f) req = None
  end.

Fixpoint itemsPass (l : Location) (f : string) (req : Request) (items : list ContextItem)
    : Prop :=
  match items with
  | [] => True
  | it :: rest => itemPasses l f req it /\ itemsPass l f (sanitizeItem l f req it) rest
  end.

Definition chainPasses (req : Request) (c : ValidationChain) : Prop :=
  if optional c && bool_decide (fieldsAt (location c) req !! field c = None) then True
  else itemsPass (location c) (field c) req (stack c).

Fixpoint chainsPass (req : Request) (chains : list ValidationChain) : Prop :=
  match chains with
  | [] => True
  | c :: rest => chainPasses req c /\ chainsPass (sanitizeChain req c) rest
  end.

(** The students of a collection have distinct ids, roll numbers and
    emails. *)
Definition uniqueStudents (store : Student.Store) : Prop :=
  NoDup (Student._id <$> store)
  /\ NoDup (Student.rollNumber <$> store)
  /\ NoDup (Student.email <$> store).

(** A student that meets the rules of the schema. *)
Definition meetsSchema (d : Student.Doc) : Prop :=
  (2 <= JS.length (Student.name d) <= 100)%nat
  /\ JS.trim (Student.name d) = Student.name d
  /\ ExpressValidator.matchesRollNumber (Student.rollNumber d) = true
  /\ JS.toLowerCase (Student.rollNumber d) = Student.rollNumber d
  /\ Mongoose.emailRegex (Student.email d) = true
  /\ Student.department d <> ""
  /\ (JS.length (Student.department d) <= 100)%nat
  /\ JS.trim (Student.department d) = Student.department d
  /\ exists q, Student.gpa d = JS.Finite q /\ (0 <= q <= 4)%Q.

(** The users of a collection have distinct ids, usernames and emails. *)
Definition uniqueUsers (store : User.Store) : Prop :=
  NoDup (User._id <$> store)
  /\ NoDup (User.username <$> store)
  /\ NoDup (User.email <$> store).

(** How many students of the collection are in a department. *)
Definition studentsIn (dep : string) (store : list Student.Doc) : Z :=
  Z.of_nat (length (filter (fun d => Student.department d = dep) store)).

(** A student that meets what a list request asks for: the text search,
    the department and the finite gpa bounds, each when the parameter is
    there and not blank. *)
Definition meetsQuery `{JsRuntime} `{Student.MongoServer}
    (query : gmap string string) (d : Student.Doc) : Prop :=
  (forall q, query !! "q" = Some q -> JS.trim q <> "" ->
             Student.textSearch (JS.trim q) d = true)
  /\ (forall dep, query !! "department" = Some dep -> JS.trim dep <> "" ->
                  Student.department d = JS.trim dep)
  /\ (forall s x, query !! "minGpa" = Some s -> JS.trim s <> "" ->
                  parseFloat (JS.trim s) = JS.Finite x ->
                  JS.geq (Student.gpa d) (JS.Finite x) = true)
  /\ (forall s x, query !! "maxGpa" = Some s -> JS.trim s <> "" ->
                  parseFloat (JS.trim s) = JS.Finite x ->
                  JS.leq (Student.gpa d) (JS.Finite x) = true).

End Conditions.

(** ** Executable stand-ins for the interfaces

    Small instances on which the handlers run by computation.  They are
    used for examples only; every general theorem below holds for all
    instances. *)

Module Sample.

(** Digits at the head of [s]: their value after [acc], how many there
    are, and what follows. *)
Fixpoint digits (s : string) (acc : Z) (n : nat) : Z * nat * string :=
  match s with
  | String c r =>
      if JS.isDigit c then digits r (10 * acc + JS.digitVal c) (S n) else (acc, n, s)
  | EmptyString => (acc, n, s)
  end.

Definition signOf (s : string) : Z * string :=
  match s with
  | String "-" r => (-1, r)
  | String "+" r => (1, r)
  | _ => (1, s)
  end.

(** The exponent part at the head of [s], when there is one. *)
Definition exponent (s : string) : Z * string :=
  match s with
  | String c r =>
      if bool_decide (c = "e"%char) || bool_decide (c = "E"%char) then
        let '(sg, r1) := signOf r in
        let '(v, n, r2) := digits r1 0 0%nat in
        match n with O => (0, s) | _ => (sg * v, r2) end
      else (0, s)
  | EmptyString => (0, s)
  end.

(** A decimal literal at the head of [s], read exactly, and the rest. *)
Definition decimal (s : string) : JS.number * string :=
  let '(sg, r0) := signOf s in
  let '(ip, ni, r1) := digits r0 0 0%nat in
  let '(fp, nf, r2) :=
    match r1 with
    | String "." r => digits r 0 0%nat
    | _ => (0, 0%nat, r1)
    end in
  match ni, nf with
  | O, O => (JS.NaN, s)
  | _, _ =>
      let '(e, r3) := exponent r2 in
      let mant := sg * (ip * 10 ^ Z.of_nat nf + fp) in
      let scale := Z.of_nat nf - e in
      (JS.Finite (if bool_decide (0 <= scale)
                  then Qred (Qmake mant (Z.to_pos (10 ^ scale)))
                  else Qred (inject_Z (mant * 10 ^ (- scale)))),
       r3)
  end.

Definition decimalParseFloat (s : string) : JS.number := (decimal (JS.trimStart s)).1.

Definition decimalToNumber (s : string) : JS.number :=
  match JS.trim s with
  | EmptyString => JS.Finite 0
  | t => match decimal t with
         | (v, EmptyString) => v
         | _ => JS.NaN
         end
  end.

#[export] Instance runtime : JsRuntime :=
  {| parseFloat := decimalParseFloat; toNumber := decimalToNumber |}.

(** The length of [isLength] as the code units less the surrogate pairs:
    the number of characters. *)
Fixpoint characters (s : string) : nat :=
  match s with
  | EmptyString => 0%nat
  | String c r => ((if (JS.units c =? 0)%nat then 0 else 1) + characters r)%nat
  end.

Lemma characters_ascii s :
  JS.forallb_string JS.isAscii s = true -> characters s = String.length s.
Proof.
  induction s as [|c s IH]; [done|]. cbn [JS.forallb_string characters String.length].
  intros [Hc Hs]%andb_true_iff. rewrite (IH Hs).
  unfold JS.isAscii in Hc. apply N.ltb_lt in Hc. unfold JS.units.
  destruct (N.leb_spec 128 (JS.code c)); [lia|]. cbn [andb].
  destruct (N.leb_spec 240 (JS.code c)); [lia|]. done.
Qed.

#[export] Instance validatorjs : Validatorjs :=
  {| isEmail := Mongoose.emailRegex; normalizeEmail := JS.toLowerCase;
     lengthOf := characters; lengthOf_ascii := characters_ascii |}.

#[export] Instance server : Student.MongoServer :=
  {| Student.textSearch := fun q d =>
       bool_decide (Student.name d = q) || bool_decide (Student.email d = q)
       || bool_decide (Student.department d = q) |}.

Definition sampleSalt : string := "$2a$12$sample".

#[export] Instance bcryptjs : Bcryptjs :=
  {| genSalt := fun _ _ => inr sampleSalt;
     hash := fun data salt => inr (salt +:+ data);
     compare := fun candidate hashed => bool_decide (hashed = sampleSalt +:+ candidate) |}.

Definition request (fields : list (string * string)) : ExpressValidator.Request :=
  {| ExpressValidator.body := list_to_map fields;
     ExpressValidator.query := ∅;
     ExpressValidator.params := ∅ |}.

Definition studentEnv : Student.Env := {| Student.freshId := "64b000000000000000000001"; Student.now := 1000 |}.

Definition userEnv : User.Env :=
  {| User.freshId := "64c000000000000000000001"; User.now := 1000; User.entropy := 7 |}.

(** [n] students that differ in roll number and email. *)
Fixpoint students (n : nat) : Student.Store :=
  match n with
  | O => []
  | S k =>
      students k ++
      [ {| Student._id := "id" +:+ pretty k;
           Student.name := "Student " +:+ pretty k;
           Student.rollNumber := "r-" +:+ pretty k;
           Student.email := "s" +:+ pretty k +:+ "@example.org";
           Student.department := "Physics";
           Student.gpa := JS.Finite 3;
           Student.createdAt := Z.of_nat k;
           Student.updatedAt := Z.of_nat k |} ]
  end.

(** The request of the specification's example: department ["custom"] with
  custom department ["Physics"]. *)
Definition physicsRequest : ExpressValidator.Request :=
request
  [ ("name", "Ada Lovelace"); ("rollNumber", "CS-101"); ("email", "ada@example.org");
    ("department", "custom"); ("customDepartment", " Physics "); ("gpa", "3.5") ].

(** A create request with spaces around the name and no gpa. *)
Definition paddedRequest : ExpressValidator.Request :=
  request
    [ ("name", "  Ada Lovelace  "); ("rollNumber", "CS-101"); ("email", "ada@example.org");
      ("department", "Physics"); ("gpa", "") ].

(** One active and one deactivated account; both passwords are "secret12". *)
Definition ada : User.Doc :=
  {| User._id := "64c0000000000000000000a1"; User.username := "ada";
     User.email := "ada@example.org"; User.password := sampleSalt +:+ "secret12";
     User.role := User.user; User.isActive := true;
     User.createdAt := 10; User.updatedAt := 10 |}.

Definition bob : User.Doc :=
  {| User._id := "64c0000000000000000000a2"; User.username := "bob";
     User.email := "bob@example.org"; User.password := sampleSalt +:+ "secret12";
     User.role := User.user; User.isActive := false;
     User.createdAt := 20; User.updatedAt := 20 |}.

Definition accounts : User.Store := [ada; bob].

Definition loginRequest (email password : string) : ExpressValidator.Request :=
  request [ ("email", email); ("password", password) ].

Definition signupRequest : ExpressValidator.Request :=
  request [ ("username", " grace_h "); ("email", "Grace@Example.org");
            ("password", "secret12"); ("confirmPassword", "secret12") ].

(** The same request with ["custom"] typed as the custom department. *)
Definition customCustomRequest : ExpressValidator.Request :=
  request
    [ ("name", "Ada Lovelace"); ("rollNumber", "CS-101"); ("email", "ada@example.org");
      ("department", "custom"); ("customDepartment", "custom"); ("gpa", "3.5") ].

(** A login with a wrong password, the email typed with capitals and a
    trailing space. *)
Definition wrongPasswordRequest : ExpressValidator.Request :=
  loginRequest "Ada@Example.org " "wrong".

(** The text of an ObjectId that no sample student has. *)
Definition absentId : string := "64B0000000000000000000AA".

(** The fourth page of the students in Physics, ten to a page, and the
    second page of seven. *)
Definition fourthPageQuery : gmap string string :=
  list_to_map [("department", "Physics"); ("limit", "10"); ("page", "4")].

Definition secondOfSevenQuery : gmap string string :=
  list_to_map [("limit", "7"); ("page", "2")].

(** A page of 2^53 + 1, which is not a double, and a limit of 400 digits,
    beyond every double. *)
Definition hugePageQuery : gmap string string :=
  list_to_map [("page", "9007199254740993")].

Fixpoint nines (n : nat) : string :=
  match n with
  | O => EmptyString
  | S k => String "9" (nines k)
  end.

Definition hugeLimitQuery : gmap string string :=
  list_to_map [("limit", nines 400)].

(** A lower bound with spaces around it, and an upper bound that is not a
    number. *)
Definition boundsQuery : gmap string string :=
  list_to_map [("minGpa", " 2.5 "); ("maxGpa", "abc")].

(** One enrolled student, stored under the text of an ObjectId. *)
Definition adaStudent : Student.Doc :=
  {| Student._id := "64b000000000000000000001";
     Student.name := "Ada Lovelace";
     Student.rollNumber := "cs-101";
     Student.email := "ada@example.org";
     Student.department := "Physics";
     Student.gpa := JS.Finite (7 # 2);
     Student.createdAt := 1000;
     Student.updatedAt := 1000 |}.

Definition alanStudent : Student.Doc :=
  {| Student._id := "64b000000000000000000003";
     Student.name := "Alan Turing";
     Student.rollNumber := "cs-102";
     Student.email := "alan@example.org";
     Student.department := "Mathematics";
     Student.gpa := JS.Finite (39 # 10);
     Student.createdAt := 1500;
     Student.updatedAt := 1500 |}.

(** Two enrolled students. *)
Definition enrolled : Student.Store := [adaStudent; alanStudent].

(** A later write, with another fresh id. *)
Definition laterEnv : Student.Env :=
  {| Student.freshId := "64b000000000000000000002"; Student.now := 2000 |}.

(** Another student with the roll number of the enrolled one, in capitals. *)
Definition sameRollRequest : ExpressValidator.Request :=
  request
    [ ("name", "Grace Hopper"); ("rollNumber", "CS-101"); ("email", "grace@example.org");
      ("department", "Mathematics"); ("gpa", "3.9") ].

(** A third student, with a roll number and an email of their own. *)
Definition graceRequest : ExpressValidator.Request :=
  request
    [ ("name", "Grace Hopper"); ("rollNumber", "CS-103"); ("email", "grace@example.org");
      ("department", "Mathematics"); ("gpa", "3.9") ].

(** New values for the first student that take the roll number of the
    second. *)
Definition takenRollRequest : ExpressValidator.Request :=
  request
    [ ("name", "Ada Lovelace"); ("rollNumber", "CS-102"); ("email", "ada@example.org");
      ("department", "Physics"); ("gpa", "3.5") ].

(** U+00A0, a white-space character of two bytes; U+4E2D, a character of
    three bytes and one code unit; U+1F600, a character of four bytes and
    two code units. *)
Definition noBreakSpace : string := String "194"%char (String "160"%char EmptyString).
Definition zhong : string :=
  String "228"%char (String "184"%char (String "173"%char EmptyString)).
Definition grinning : string :=
  String "240"%char (String "159"%char (String "152"%char (String "128"%char EmptyString))).

Fixpoint repeated (n : nat) (s : string) : string :=
  match n with
  | O => EmptyString
  | S k => s +:+ repeated k s
  end.

(** New values for the enrolled student. *)
Definition promotedRequest : ExpressValidator.Request :=
  request
    [ ("name", "Ada King"); ("rollNumber", "CS-101"); ("email", "ada@example.org");
      ("department", "Mathematics"); ("gpa", "4") ].

Fixpoint letters (n : nat) : string :=
  match n with
  | O => EmptyString
  | S k => String "x" (letters k)
  end.

(** A department of 101 characters. *)
Definition longDepartmentRequest : ExpressValidator.Request :=
  request
    [ ("name", "Ada Lovelace"); ("rollNumber", "CS-101"); ("email", "ada@example.org");
      ("department", letters 101); ("gpa", "3.5") ].

(** The login of the user of [signupRequest], typed as at signup. *)
Definition graceLogin : ExpressValidator.Request :=
  loginRequest "Grace@Example.org" "secret12".

End Sample.

(** * Properties *)

(** ** Strings *)

Section StringFacts.

Lemma trimStart_unfold s :
  JS.trimStart s
  = match JS.whiteSpaceHead s with Some r => JS.trimStart r | None => s end.
Proof.
  destruct s as [|c [|c1 [|c2 r2]]]; cbn [JS.trimStart JS.whiteSpaceHead]; try done.
  - by destruct (JS.isWhiteSpace1 c).
  - destruct (JS.isWhiteSpace1 c); [done|]. by destruct (JS.isWhiteSpace2 c c1).
  - destruct (JS.isWhiteSpace1 c); [done|]. destruct (JS.isWhiteSpace2 c c1); [done|].
    by destruct (JS.isWhiteSpace3 c c1 c2).
Qed.

Lemma append_nil b : "" +:+ b = b.
Proof. reflexivity. Qed.

Lemma append_cons c a b : String c a +:+ b = String c (a +:+ b).
Proof. reflexivity. Qed.

(** A white-space character at the head of a text is at the head of every
    text that goes on from it. *)
Lemma whiteSpaceHead_app a r b :
  JS.whiteSpaceHead a = Some r -> JS.whiteSpaceHead (a +:+ b) = Some (r +:+ b).
Proof.
  destruct a as [|c [|c1 [|c2 r2]]]; rewrite ?append_cons, ?append_nil;
    cbn [JS.whiteSpaceHead]; try done.
  - destruct (JS.isWhiteSpace1 c); [|done]. by intros [= <-].
  - destruct (JS.isWhiteSpace1 c); [by intros [= <-]|].
    destruct (JS.isWhiteSpace2 c c1); [|done]. by intros [= <-].
  - destruct (JS.isWhiteSpace1 c); [by intros [= <-]|].
    destruct (JS.isWhiteSpace2 c c1); [by intros [= <-]|].
    destruct (JS.isWhiteSpace3 c c1 c2); [|done]. by intros [= <-].
Qed.

Lemma whiteSpaceHead_suffix s r :
  JS.whiteSpaceHead s = Some r -> exists a, s = a +:+ r /\ a <> "".
Proof.
  destruct s as [|c [|c1 [|c2 r2]]]; cbn [JS.whiteSpaceHead]; try done.
  - destruct (JS.isWhiteSpace1 c); [|done]. intros [= <-]. by exists (String c "").
  - destruct (JS.isWhiteSpace1 c); [intros [= <-]; by exists (String c "")|].
    destruct (JS.isWhiteSpace2 c c1); [|done]. intros [= <-].
    by exists (String c (String c1 "")).
  - destruct (JS.isWhiteSpace1 c); [intros [= <-]; by exists (String c "")|].
    destruct (JS.isWhiteSpace2 c c1); [intros [= <-]; by exists (String c (String c1 ""))|].
    destruct (JS.isWhiteSpace3 c c1 c2); [|done]. intros [= <-].
    by exists (String c (String c1 (String c2 ""))).
Qed.

Lemma length_append a b :
  String.length (a +:+ b) = (String.length a + String.length b)%nat.
Proof.
  induction a as [|c a IH]; rewrite ?append_cons, ?append_nil; cbn; [done|].
  by rewrite IH.
Qed.

Lemma whiteSpaceHead_length s r :
  JS.whiteSpaceHead s = Some r -> (String.length r < String.length s)%nat.
Proof.
  intros (a & -> & Ha)%whiteSpaceHead_suffix. rewrite length_append.
  destruct a; [done|]. cbn. lia.
Qed.

(** Induction along the white space at the head of a text. *)
Lemma whiteSpace_ind (P : string -> Prop) :
  (forall s, (forall r, JS.whiteSpaceHead s = Some r -> P r) -> P s) ->
  forall s, P s.
Proof.
  intros Hstep s.
  assert (forall n s, (String.length s < n)%nat -> P s) as Hall.
  { induction n as [|n IH]; intros t Ht; [lia|].
    apply Hstep. intros r Hr%whiteSpaceHead_length. apply IH. lia. }
  apply (Hall (S (String.length s))). lia.
Qed.

(** What [trimStart] returns does not start with white space. *)
Lemma trimStart_shape s : JS.whiteSpaceHead (JS.trimStart s) = None.
Proof.
  induction s as [s IH] using whiteSpace_ind. rewrite trimStart_unfold.
  destruct (JS.whiteSpaceHead s) as [r|] eqn:Hs; [by apply IH|done].
Qed.

Lemma trimStart_fixed s : JS.whiteSpaceHead s = None -> JS.trimStart s = s.
Proof. intros H. by rewrite trimStart_unfold, H. Qed.

Lemma trimStart_idemp s : JS.trimStart (JS.trimStart s) = JS.trimStart s.
Proof. apply trimStart_fixed, trimStart_shape. Qed.

(** White space before a text does not change what [trimStart] returns. *)
Lemma trimStart_app_blank a w :
  JS.isBlank a = true -> JS.trimStart (a +:+ w) = JS.trimStart w.
Proof.
  unfold JS.isBlank. induction a as [a IH] using whiteSpace_ind.
  intros Ha%bool_decide_eq_true. rewrite trimStart_unfold in Ha.
  destruct (JS.whiteSpaceHead a) as [r|] eqn:Hr.
  - rewrite trimStart_unfold, (whiteSpaceHead_app _ _ w Hr).
    apply IH; [done|]. by apply bool_decide_eq_true_2.
  - by subst a.
Qed.

(** [trimEnd] takes white space away from the end, and nothing else. *)
Lemma trimEnd_split s :
  exists w, s = JS.trimEnd s +:+ w /\ JS.isBlank w = true.
Proof.
  induction s as [|c s (w & IH & Hw)]; [by exists ""|].
  cbn [JS.trimEnd]. destruct (JS.isBlank (String c s)) eqn:Hb.
  - by exists (String c s).
  - exists w. rewrite append_cons. by rewrite <- IH.
Qed.

Lemma isBlank_trimEnd s : JS.isBlank (JS.trimEnd s) = JS.isBlank s.
Proof.
  destruct (trimEnd_split s) as (w & Hs & Hw).
  destruct (JS.isBlank (JS.trimEnd s)) eqn:Hb.
  - symmetry. rewrite Hs. unfold JS.isBlank in *.
    rewrite (trimStart_app_blank _ w Hb). exact Hw.
  - destruct s as [|c s]; [done|]. cbn [JS.trimEnd] in Hb.
    destruct (JS.isBlank (String c s)); [done|done].
Qed.

Lemma trimEnd_idemp s : JS.trimEnd (JS.trimEnd s) = JS.trimEnd s.
Proof.
  induction s as [|c s IH]; [done|]. cbn [JS.trimEnd].
  destruct (JS.isBlank (String c s)) eqn:Hb; [done|].
  pose proof (isBlank_trimEnd (String c s)) as Hb'. cbn [JS.trimEnd] in Hb'.
  rewrite Hb in Hb'. cbn [JS.trimEnd]. by rewrite Hb', IH.
Qed.

(** Taking white space from the end puts none at the head. *)
Lemma trimEnd_head s :
  JS.whiteSpaceHead s = None -> JS.whiteSpaceHead (JS.trimEnd s) = None.
Proof.
  intros Hs. destruct (trimEnd_split s) as (w & Hsplit & _).
  destruct (JS.whiteSpaceHead (JS.trimEnd s)) as [r|] eqn:Hr; [|done].
  apply (whiteSpaceHead_app _ _ w) in Hr. rewrite <- Hsplit in Hr. congruence.
Qed.

(** What [trim] returns has no white space at either end. *)
Lemma trim_shape s :
  JS.whiteSpaceHead (JS.trim s) = None /\ JS.trimEnd (JS.trim s) = JS.trim s.
Proof.
  unfold JS.trim. split; [apply trimEnd_head, trimStart_shape|apply trimEnd_idemp].
Qed.

Lemma trim_idemp s : JS.trim (JS.trim s) = JS.trim s.
Proof.
  destruct (trim_shape s) as [Hhead Hend].
  unfold JS.trim at 1. by rewrite (trimStart_fixed _ Hhead).
Qed.

Lemma trim_fmap_idemp (v : option string) : JS.trim <$> (JS.trim <$> v) = JS.trim <$> v.
Proof. destruct v; simpl; [by rewrite trim_idemp|done]. Qed.

End StringFacts.

(** ** Validation chains *)

Section ChainFacts.

Import ExpressValidator.

Lemma runItem_request l f st it : (runItem l f st it).1 = sanitizeItem l f st.1 it.
Proof.
  destruct st as [req errs], it as [san|v m|v]; simpl; [done| |].
  - by destruct (v _).
  - by destruct (v _ _).
Qed.

Lemma runItems_request l f items st :
  (fold_left (runItem l f) items st).1 = fold_left (sanitizeItem l f) items st.1.
Proof.
  revert st. induction items as [|it items IH]; intros st; simpl; [done|].
  by rewrite IH, runItem_request.
Qed.

Lemma runChain_request st c : (runChain st c).1 = sanitizeChain st.1 c.
Proof.
  unfold runChain, sanitizeChain.
  destruct (optional c && _); [done|]. apply runItems_request.
Qed.

Lemma run_request_from chains st :
  (fold_left runChain chains st).1 = fold_left sanitizeChain chains st.1.
Proof.
  revert st. induction chains as [|c chains IH]; intros st; simpl; [done|].
  by rewrite IH, runChain_request.
Qed.

Lemma run_request chains req : (run chains req).1 = fold_left sanitizeChain chains req.
Proof. apply run_request_from. Qed.

(** Errors are only ever appended. *)
Lemma runItem_errors l f st it : exists more, (runItem l f st it).2 = st.2 ++ more.
Proof.
  destruct st as [req errs], it as [san|v m|v]; simpl.
  - exists []. by rewrite app_nil_r.
  - destruct (v _); simpl; [exists []; by rewrite app_nil_r|eauto].
  - destruct (v _ _); simpl; [eauto|exists []; by rewrite app_nil_r].
Qed.

Lemma runItems_errors l f items st :
  exists more, (fold_left (runItem l f) items st).2 = st.2 ++ more.
Proof.
  revert st. induction items as [|it items IH]; intros st; simpl.
  - exists []. by rewrite app_nil_r.
  - destruct (IH (runItem l f st it)) as [m1 ->].
    destruct (runItem_errors l f st it) as [m0 ->].
    exists (m0 ++ m1). by rewrite app_assoc.
Qed.

Lemma runChain_errors st c : exists more, (runChain st c).2 = st.2 ++ more.
Proof.
  unfold runChain. destruct (optional c && _).
  - exists []. by rewrite app_nil_r.
  - apply runItems_errors.
Qed.

Lemma runChains_errors chains st :
  exists more, (fold_left runChain chains st).2 = st.2 ++ more.
Proof.
  revert st. induction chains as [|c chains IH]; intros st; simpl.
  - exists []. by rewrite app_nil_r.
  - destruct (IH (runChain st c)) as [m1 ->].
    destruct (runChain_errors st c) as [m0 ->].
    exists (m0 ++ m1). by rewrite app_assoc.
Qed.

(** So a run without errors had none at any point. *)
Lemma runChains_nil chains st : (fold_left runChain chains st).2 = [] -> st.2 = [].
Proof.
  intros Hnil. destruct (runChains_errors chains st) as [more Hm].
  rewrite Hnil in Hm. symmetry in Hm. by apply app_eq_nil in Hm as [? _].
Qed.

Lemma runItems_nil l f items st :
  (fold_left (runItem l f) items st).2 = [] -> st.2 = [].
Proof.
  intros Hnil. destruct (runItems_errors l f items st) as [more Hm].
  rewrite Hnil in Hm. symmetry in Hm. by apply app_eq_nil in Hm as [? _].
Qed.

(** A validator that fails leaves an error. *)
Lemma standard_passes l f req errs v m :
  (runItem l f (req, errs) (StandardValidation v m)).2 = [] ->
  v (toString (fieldsAt l req !! f)) = true.
Proof.
  simpl. destruct (v _); [done|]. simpl. intros Hnil.
  by apply app_eq_nil in Hnil as [_ ?].
Qed.

Lemma custom_passes l f req errs v :
  (runItem l f (req, errs) (CustomValidation v)).2 = [] ->
  v (fieldsAt l req !! f) req = None.
Proof.
  simpl. destruct (v _ _); [|done]. simpl. intros Hnil.
  by apply app_eq_nil in Hnil as [_ ?].
Qed.

(** A chain on the body writes its own field only. *)
Lemma sanitizeItem_body_other f g req it :
  f <> g -> body (sanitizeItem Body f req it) !! g = body req !! g.
Proof.
  intros Hfg. destruct it; simpl; [|done|done]. by rewrite lookup_insert_ne.
Qed.

Lemma sanitizeItems_body_other f g items req :
  f <> g -> body (fold_left (sanitizeItem Body f) items req) !! g = body req !! g.
Proof.
  intros Hfg. revert req. induction items as [|it items IH]; intros req; simpl; [done|].
  by rewrite IH, sanitizeItem_body_other.
Qed.

Lemma sanitizeChain_body_other req c g :
  location c = Body -> field c <> g ->
  body (sanitizeChain req c) !! g = body req !! g.
Proof.
  intros Hl Hfg. unfold sanitizeChain. destruct (optional c && _); [done|].
  rewrite Hl. by apply sanitizeItems_body_other.
Qed.

End ChainFacts.

(** ** Student routes: validation and the custom department *)

Section StudentValidation.

Import ExpressValidator Express StudentRoutes.

Context {RT : JsRuntime} {VJ : Validatorjs} {MS : Student.MongoServer}.

(** The custom validator passes on the sentinel only with a companion
    field of trimmed length 2 to 100. *)
Lemma validateDepartment_custom req :
  validateDepartment (Some "custom") req = None ->
  exists cd, body req !! "customDepartment" = Some cd
             /\ cd <> ""
             /\ (2 <= JS.length (JS.trim cd) <= 100)%nat.
Proof.
  unfold validateDepartment. rewrite bool_decide_eq_true_2 by done.
  destruct (body req !! "customDepartment") as [cd|]; [|done].
  destruct (bool_decide (cd = "")) eqn:He; [done|].
  destruct (bool_decide (JS.trim cd = "")); [done|]. simpl.
  destruct (JS.length (JS.trim cd) <? 2)%nat eqn:Hlo; [done|].
  destruct (100 <? JS.length (JS.trim cd))%nat eqn:Hhi; [done|].
  intros _. exists cd. apply bool_decide_eq_false in He.
  apply Nat.ltb_ge in Hlo, Hhi. done.
Qed.

(** The body after the student chains: four fields rewritten, the rest as
    submitted. *)
Lemma studentValidators_body st :
  body (fold_left runChain studentValidators st).1
  = <["department" := JS.trim (toString (body st.1 !! "department"))]>
    (<["email" := normalizeEmail (JS.trim (toString (body st.1 !! "email")))]>
    (<["rollNumber" := JS.trim (toString (body st.1 !! "rollNumber"))]>
    (<["name" := JS.trim (toString (body st.1 !! "name"))]> (body st.1)))).
Proof.
  rewrite run_request_from. destruct st as [req errs]. simpl.
  unfold sanitizeChain. simpl.
  rewrite !lookup_insert_eq.
  rewrite (lookup_insert_ne _ "name" "rollNumber") by done.
  rewrite insert_insert_eq.
  rewrite !(lookup_insert_ne _ _ "email") by done.
  rewrite !(lookup_insert_ne _ _ "department") by done.
  done.
Qed.

(** When the student chains leave no error, the department validator has
    passed on the trimmed department, with the companion field as
    submitted. *)
Lemma studentValidators_department st :
  (fold_left runChain studentValidators st).2 = [] ->
  exists r, body r !! "customDepartment" = body st.1 !! "customDepartment"
            /\ validateDepartment
                 (Some (JS.trim (toString (body st.1 !! "department")))) r = None.
Proof.
  unfold studentValidators.
  change (fold_left runChain [?c1; ?c2; ?c3; ?c4; ?c5] st)
    with (runChain (runChain (fold_left runChain [c1; c2; c3] st) c4) c5).
  set (st3 := fold_left runChain _ st).
  intros Hnil.
  destruct (runChain_errors (runChain st3 (bodyChain "department"
    [Sanitization JS.trim; StandardValidation notEmpty "Department is required";
     CustomValidation validateDepartment])) (bodyChain "gpa"
    [StandardValidation (isFloat (JS.Finite 0) (JS.Finite 4))
       "GPA must be between 0.0 and 4.0"])) as [more Hmore].
  rewrite Hnil in Hmore. symmetry in Hmore. apply app_eq_nil in Hmore as [H4 _].
  clear Hnil. unfold runChain at 1 in H4. simpl in H4.
  set (stA := runItem Body "department" (runItem Body "department" st3 _) _) in H4.
  assert (HA : stA.1 = sanitizeItem Body "department" st3.1 (Sanitization JS.trim)).
  { unfold stA. by rewrite !runItem_request. }
  destruct stA as [rA eA]. apply custom_passes in H4. simpl in HA, H4. subst rA.
  assert (H3 : forall g, g <> "name" -> g <> "rollNumber" -> g <> "email" ->
                         body st3.1 !! g = body st.1 !! g).
  { intros g ? ? ?. unfold st3. rewrite run_request_from. cbn [fold_left].
    rewrite !sanitizeChain_body_other by done. done. }
  cbn [body] in H4. rewrite lookup_insert_eq, H3 in H4 by done.
  eexists. split; [|exact H4].
  cbn [body]. rewrite lookup_insert_ne by done. by apply H3.
Qed.

End StudentValidation.

Section CustomDepartment.

Import ExpressValidator Express StudentRoutes.

Context {RT : JsRuntime} {VJ : Validatorjs} {MS : Student.MongoServer}.

(** With the sentinel submitted and no validation error, the companion
    field is present within its bounds and is what the handler takes as
    the department. *)
Lemma departmentValue_custom st :
  body st.1 !! "department" = Some "custom" ->
  (fold_left runChain studentValidators st).2 = [] ->
  exists cd, body st.1 !! "customDepartment" = Some cd
             /\ (2 <= JS.length (JS.trim cd) <= 100)%nat
             /\ departmentValue (body (fold_left runChain studentValidators st).1)
                = Some (JS.trim cd).
Proof.
  intros Hdep Hnil.
  destruct (studentValidators_department st Hnil) as (r & Hr & Hv).
  rewrite Hdep in Hv. change (JS.trim (toString (Some "custom"))) with "custom" in Hv.
  destruct (validateDepartment_custom r Hv) as (cd & Hcd & Hne & Hlen).
  rewrite Hr in Hcd. exists cd. split; [done|]. split; [done|].
  rewrite studentValidators_body. unfold departmentValue.
  rewrite lookup_insert_eq, !(lookup_insert_ne _ _ "customDepartment") by done.
  rewrite Hdep, Hcd. change (JS.trim (toString (Some "custom"))) with "custom".
  cbn [sanitizeString fmap option_fmap option_map].
  change (JS.trim "custom") with "custom".
  rewrite bool_decide_eq_true_2 by done.
  destruct cd; [done|]. done.
Qed.

(** What [save] stores is the paths after the setters. *)
Lemma save_stored env store p store' d :
  Student.save env store p = inr (store', d) ->
  store' = store ++ [d]
  /\ Student.department d = default "" (JS.trim <$> Student.p_department p).
Proof.
  unfold Student.save, Student.validate.
  destruct (Student.pathErrors _); [|done].
  destruct (Student.duplicate _ _ _); [done|].
  intros [= <- <-]. done.
Qed.

Lemma findByIdAndUpdate_stored env store id p store' d :
  Student.findByIdAndUpdate env store id p = inr (store', Some d) ->
  d ∈ store'
  /\ Student.department d = default "" (JS.trim <$> Student.p_department p).
Proof.
  unfold Student.findByIdAndUpdate, Student.validate.
  destruct (Mongoose.castObjectId id) as [|oid]; [done|].
  destruct (Student.pathErrors _); [|done].
  destruct (List.find _ store) as [old|] eqn:Hfind; [|done].
  destruct (Student.duplicate _ _ _); [done|].
  intros [= <- <-]. split; [|done].
  apply find_some in Hfind as [Hin Hid].
  apply list_elem_of_In, in_map_iff. exists old. split; [|done].
  by rewrite Hid.
Qed.

(** The param chain of the update route writes nothing. *)
Lemma update_chain_body id req :
  body (runChain (withId id req, [])
          (paramChain "id" [StandardValidation isMongoId invalidValue])).1
  = body req.
Proof. by rewrite runChain_request. Qed.

End CustomDepartment.

Section CustomDepartmentClaim.

Import ExpressValidator Express StudentRoutes.

Context {RT : JsRuntime} {VJ : Validatorjs} {MS : Student.MongoServer}.

(** C1 (as amended).  For a create or update request whose department is
    the literal ["custom"]: validation passes only if [customDepartment]
    is present with trimmed length between 2 and 100; and whenever the
    student is persisted, the persisted department is the trimmed value
    of [customDepartment] (which is the string ["custom"] only when
    [customDepartment] itself trims to it).  Trimming takes every
    white-space character of the language from both ends, U+00A0
    included, and the length is that of the trimmed text in code
    units. *)
Theorem custom_department_effective env store req :
  body req !! "department" = Some "custom" ->
  ((run studentValidators req).2 = [] ->
   exists cd, body req !! "customDepartment" = Some cd
              /\ (2 <= JS.length (JS.trim cd) <= 100)%nat)
  /\ (forall store',
        createStudent env store req = (store', Redirect "/students?msg=created") ->
        exists cd d, body req !! "customDepartment" = Some cd
                     /\ (2 <= JS.length (JS.trim cd) <= 100)%nat
                     /\ store' = store ++ [d]
                     /\ Student.department d = JS.trim cd)
  /\ (forall id store' url,
        updateStudent env store id req = (store', Redirect url) ->
        exists cd d, body req !! "customDepartment" = Some cd
                     /\ (2 <= JS.length (JS.trim cd) <= 100)%nat
                     /\ d ∈ store'
                     /\ url = "/students/" +:+ Student._id d +:+ "?msg=updated"
                     /\ Student.department d = JS.trim cd).
Proof.
  intros Hdep. split; [|split].
  - intros Hnil.
    destruct (departmentValue_custom (req, []) Hdep Hnil) as (cd & ? & ? & _). eauto.
  - intros store'. unfold createStudent.
    pose proof (departmentValue_custom (req, []) Hdep) as Hcustom.
    change (fold_left runChain studentValidators (req, []))
      with (run studentValidators req) in Hcustom.
    destruct (run studentValidators req) as [req' errors].
    destruct errors as [|e errors]; [|done]. cbn [isEmpty negb].
    destruct (Hcustom eq_refl) as (cd & Hcd & Hlen & Hval). cbn [fst] in Hval.
    destruct (Student.save env store _) as [err|[store1 d]] eqn:Hsave.
    { by destruct err. }
    intros [= <-]. apply save_stored in Hsave as [-> Hd].
    exists cd, d. repeat split; try done; try lia.
    rewrite Hd. cbn [studentPaths Student.p_department]. rewrite Hval.
    cbn. apply trim_idemp.
  - intros id store' url. unfold updateStudent.
    change (run (?c :: studentValidators) ?r)
      with (fold_left runChain studentValidators (runChain (r, []) c)).
    set (st := runChain _ _).
    assert (Hbody : body st.1 = body req) by apply update_chain_body.
    pose proof (departmentValue_custom st) as Hcustom.
    rewrite Hbody in Hcustom. specialize (Hcustom Hdep).
    destruct (fold_left runChain studentValidators st) as [req' errors].
    destruct errors as [|e errors]; [|done]. cbn [isEmpty negb].
    destruct (Hcustom eq_refl) as (cd & Hcd & Hlen & Hval). cbn [fst] in Hval.
    destruct (Student.findByIdAndUpdate env store _ _) as [err|[store1 [d|]]] eqn:Hupd.
    { by destruct err. }
    2: { done. }
    intros [= <- <-]. apply findByIdAndUpdate_stored in Hupd as [Hin Hd].
    exists cd, d. repeat split; try done; try lia.
    rewrite Hd. cbn [studentPaths Student.p_department]. rewrite Hval.
    cbn. apply trim_idemp.
Qed.

End CustomDepartmentClaim.

Section CustomDepartmentExamples.

Import Sample.

Example physics_persisted :
StudentRoutes.createStudent studentEnv [] physicsRequest
= ([ {| Student._id := "64b000000000000000000001";
        Student.name := "Ada Lovelace";
        Student.rollNumber := "cs-101";
        Student.email := "ada@example.org";
        Student.department := "Physics";
        Student.gpa := JS.Finite (7 # 2);
        Student.createdAt := 1000;
        Student.updatedAt := 1000 |} ],
   Express.Redirect "/students?msg=created").
Proof. vm_compute. reflexivity. Qed.

Lemma custom_department_effective_witness :
ExpressValidator.body physicsRequest !! "department" = Some "custom"
/\ exists cd d,
     ExpressValidator.body physicsRequest !! "customDepartment" = Some cd
     /\ (2 <= JS.length (JS.trim cd) <= 100)%nat
     /\ (StudentRoutes.createStudent studentEnv [] physicsRequest).1 = [] ++ [d]
     /\ Student.department d = JS.trim cd.
Proof.
split; [reflexivity|].
destruct (custom_department_effective studentEnv [] physicsRequest eq_refl)
  as (_ & Hcreate & _).
destruct (Hcreate _ physics_persisted) as (cd & d & H1 & H2 & H3 & H4).
exists cd, d. split; [exact H1|]. split; [exact H2|]. split; [|exact H4].
rewrite physics_persisted. exact H3.
Defined.

(** C1 as stated fails: with [customDepartment] itself equal to ["custom"]
  (six characters, so valid), the persisted department is the string
  ["custom"]. *)
Lemma custom_department_counterexample :
  ExpressValidator.body customCustomRequest !! "department" = Some "custom"
  /\ ExpressValidator.body customCustomRequest !! "customDepartment" = Some "custom"
  /\ (ExpressValidator.run StudentRoutes.studentValidators customCustomRequest).2 = []
  /\ exists d, StudentRoutes.createStudent studentEnv [] customCustomRequest
               = ([d], Express.Redirect "/students?msg=created")
               /\ Student.department d = "custom".
Proof.
  repeat split; try (vm_compute; reflexivity).
  eexists. split; vm_compute; reflexivity.
Qed.

End CustomDepartmentExamples.

(** ** The list route *)

Section ListFacts.

Import ExpressValidator Express StudentRoutes.

Context {RT : JsRuntime} {VJ : Validatorjs} {MS : Student.MongoServer}.

Lemma listPage_ge rq : 1 <= listPage rq.
Proof. unfold listPage. lia. Qed.

Lemma listLimit_range rq : 1 <= listLimit rq <= 100.
Proof. unfold listLimit. lia. Qed.

Lemma listSkip_nonneg rq : 0 <= listSkip rq.
Proof.
  unfold listSkip. pose proof (listPage_ge rq). pose proof (listLimit_range rq). nia.
Qed.

(** [ceilDiv] is the ceiling of the quotient. *)
Lemma ceilDiv_spec a b :
  0 < b -> (ceilDiv a b - 1) * b < a <= ceilDiv a b * b.
Proof.
  intros Hb. unfold ceilDiv.
  pose proof (Z.mul_div_le (- a) b Hb).
  pose proof (Z.mul_succ_div_gt (- a) b Hb). nia.
Qed.

Lemma insertSorted_length s x l :
  length (Student.insertSorted s x l) = S (length l).
Proof.
  induction l as [|y l IH]; simpl; [done|].
  destruct (Student.before s x y); simpl; [done|]. by rewrite IH.
Qed.

Lemma sortDocs_length s l : length (Student.sortDocs s l) = length l.
Proof.
  induction l as [|x l IH]; simpl; [done|].
  by rewrite insertSorted_length, IH.
Qed.

Lemma nearestDouble_small z : Z.abs z < 2 ^ 53 -> JS.nearestDouble z = JS.Int z.
Proof.
  intros Hz. unfold JS.nearestDouble.
  destruct (Z.ltb_spec (Z.abs z) (2 ^ 53)); [done|lia].
Qed.

(** Rounding does not take a number at or beyond 2^53 below it. *)
Lemma nearestDouble_large z :
  2 ^ 53 <= z ->
  JS.nearestDouble z = JS.IPosInfinity
  \/ exists m, JS.nearestDouble z = JS.Int m /\ 2 ^ 53 <= m.
Proof.
  intros Hz. unfold JS.nearestDouble.
  assert (0 < 2 ^ 53) as Hpos by (apply Z.pow_pos_nonneg; lia).
  rewrite (Z.abs_eq z) by lia.
  destruct (Z.ltb_spec z (2 ^ 53)); [lia|].
  destruct (Z.ltb_spec z 0); [lia|].
  set (e := Z.log2 z - 52).
  set (q := z / 2 ^ e).
  match goal with
  | |- context [if ?b then q + 1 else q] => set (q' := if b then q + 1 else q)
  end.
  destruct (2 ^ 1024 <=? q' * 2 ^ e); [by left|]. right.
  eexists. split; [reflexivity|].
  assert (53 <= Z.log2 z) as Hlog by (apply Z.log2_le_pow2; lia).
  assert (1 <= e) as He by (unfold e; lia).
  assert (0 < 2 ^ e) as Hpe by (apply Z.pow_pos_nonneg; lia).
  assert (2 ^ 52 <= q) as Hq.
  { unfold q. apply Z.div_le_lower_bound; [done|].
    rewrite Z.mul_comm, <- Z.pow_add_r by lia.
    replace (52 + e) with (Z.log2 z) by (unfold e; lia).
    apply Z.log2_spec. lia. }
  assert (q <= q') as Hq'.
  { unfold q'. match goal with |- context [if ?b then _ else _] => destruct b end; lia. }
  assert (2 <= 2 ^ e) as H2e.
  { change 2 with (2 ^ 1) at 1. apply Z.pow_le_mono_r; lia. }
  change (2 ^ 53) with (2 ^ 52 * 2).
  apply Z.mul_le_mono_nonneg; lia.
Qed.

(** The skip the runtime computes gives the page of the exact product, in
    every collection of fewer than 2^53 documents. *)
Lemma doubleSkip_page {A} rq (l : list A) :
  Z.of_nat (length l) < 2 ^ 53 ->
  match doubleSkip rq with
  | JS.Int k => drop (Z.to_nat k) l = drop (Z.to_nat (listSkip rq)) l
  | JS.IPosInfinity => drop (Z.to_nat (listSkip rq)) l = []
  | _ => False
  end.
Proof.
  intros Hl. unfold doubleSkip, listSkip.
  pose proof (listPage_ge rq) as Hp. pose proof (listLimit_range rq) as Hlim.
  assert (0 < 2 ^ 53) as Hpos by (apply Z.pow_pos_nonneg; lia).
  assert (forall k, 2 ^ 53 <= k -> drop (Z.to_nat k) l = []) as Hdrop.
  { intros k Hk. apply drop_ge. lia. }
  assert (forall d, 2 ^ 53 <= d * listLimit rq ->
            match JS.nearestDouble (d * listLimit rq) with
            | JS.Int k => 2 ^ 53 <= k
            | JS.IPosInfinity => True
            | _ => False
            end) as Hprod.
  { intros d Hd. by destruct (nearestDouble_large _ Hd) as [->|(m & -> & Hm)]. }
  destruct (Z.lt_ge_cases (listPage rq - 1) (2 ^ 53)) as [Hsmall|Hlarge].
  - rewrite nearestDouble_small by lia.
    destruct (Z.lt_ge_cases ((listPage rq - 1) * listLimit rq) (2 ^ 53)) as [Hs|Hs].
    + rewrite nearestDouble_small; [done|]. rewrite Z.abs_eq; [done|]. nia.
    + specialize (Hprod _ Hs).
      destruct (JS.nearestDouble ((listPage rq - 1) * listLimit rq)); try done.
      * by rewrite !Hdrop.
      * by rewrite Hdrop.
  - assert (2 ^ 53 <= (listPage rq - 1) * listLimit rq) as Hexact by nia.
    destruct (nearestDouble_large _ Hlarge) as [->|(d & -> & Hd)].
    + by rewrite Hdrop.
    + assert (2 ^ 53 <= d * listLimit rq) as Hs by nia.
      specialize (Hprod _ Hs).
      destruct (JS.nearestDouble (d * listLimit rq)); try done.
      * by rewrite !Hdrop.
      * by rewrite Hdrop.
Qed.

(** The list route always renders the list view: the query it builds is
    never refused. *)
Lemma listStudents_renders store query :
  let rq := listValidators query in
  exists filters flashMsg,
    listStudents store query
    = Render 200 "students"
        (ListLocals "Students" (pageOf store rq)
           {| page := listPage rq;
              limit := listLimit rq;
              total := Z.of_nat (length (List.filter (Student.matches (listFilter rq)) store));
              totalPages :=
                Z.max 1 (ceilDiv
                  (Z.of_nat (length (List.filter (Student.matches (listFilter rq)) store)))
                  (listLimit rq)) |}
           filters flashMsg).
Proof.
  intros rq. unfold listStudents, Student.find. fold rq.
  pose proof (listSkip_nonneg rq). pose proof (listLimit_range rq).
  rewrite bool_decide_eq_false_2 by lia.
  rewrite bool_decide_eq_false_2 by lia.
  rewrite Z.abs_eq by lia. eauto.
Qed.

Lemma pageOf_length store rq :
  length (pageOf store rq)
  = Nat.min (Z.to_nat (listLimit rq))
      (length (List.filter (Student.matches (listFilter rq)) store)
       - Z.to_nat (listSkip rq)).
Proof.
  unfold pageOf. by rewrite length_take, length_drop, sortDocs_length.
Qed.

End ListFacts.

Section ListClaims.

Import ExpressValidator Express StudentRoutes.

Context {RT : JsRuntime} {VJ : Validatorjs} {MS : Student.MongoServer}.

(** C2.  For every list request: [page] defaults to 1 and is at least 1,
    [limit] defaults to 10 and is clamped to 1..100, the default being
    taken when the parameter is absent and when [toInt] gives no finite
    number for it (not-a-number or an infinity; a finite result is the
    double nearest to the integer read); the query skips
    exactly [(page - 1) * limit] documents of the sorted matches and
    returns at most [limit] of them; [total] is the number of matching
    documents before pagination; [totalPages] is
    [max 1 (ceil (total / limit))].  With 25 matching documents and limit
    10, page 1 has 10 documents and [totalPages] is 3, and page 4 has no
    document and is rendered like any other page. *)
Theorem list_pagination store query :
  let rq := listValidators query in
  let matching := List.filter (Student.matches (listFilter rq)) store in
  let sorted := Student.sortDocs (buildSort (q_sortBy rq) (q_order rq)) matching in
  let total := Z.of_nat (length matching) in
  (* page *)
  (query !! "page" = None -> listPage rq = 1)
  /\ (forall s, query !! "page" = Some s -> (forall p, JS.parseInt s <> JS.Int p) ->
                listPage rq = 1)
  /\ (forall s p, query !! "page" = Some s -> JS.parseInt s = JS.Int p ->
                  listPage rq = Z.max 1 p)
  (* limit *)
  /\ (query !! "limit" = None -> listLimit rq = 10)
  /\ (forall s, query !! "limit" = Some s -> (forall l, JS.parseInt s <> JS.Int l) ->
                listLimit rq = 10)
  /\ (forall s l, query !! "limit" = Some s -> JS.parseInt s = JS.Int l ->
                  listLimit rq = Z.min 100 (Z.max 1 l))
  /\ 1 <= listPage rq /\ 1 <= listLimit rq <= 100
  (* the response *)
  /\ (exists students totalPages filters flashMsg,
        listStudents store query
        = Render 200 "students"
            (ListLocals "Students" students
               {| page := listPage rq; limit := listLimit rq;
                  total := total; totalPages := totalPages |}
               filters flashMsg)
        /\ students
           = take (Z.to_nat (listLimit rq))
               (drop (Z.to_nat ((listPage rq - 1) * listLimit rq)) sorted)
        /\ length sorted = length matching
        /\ totalPages = Z.max 1 (ceilDiv total (listLimit rq))
        /\ (ceilDiv total (listLimit rq) - 1) * listLimit rq < total
             <= ceilDiv total (listLimit rq) * listLimit rq
        /\ (length matching = 25%nat -> listLimit rq = 10 ->
            (listPage rq = 1 -> length students = 10%nat /\ totalPages = 3)
            /\ (listPage rq = 4 -> length students = 0%nat /\ totalPages = 3))).
Proof.
  intros rq matching sorted total.
  pose proof (listPage_ge rq) as Hp. pose proof (listLimit_range rq) as Hl.
  repeat apply conj; try lia.
  - intros Hq. unfold listPage, rq, listValidators. cbn [q_page]. by rewrite Hq.
  - intros s Hq Hs. unfold listPage, rq, listValidators. cbn [q_page].
    rewrite Hq. cbn [fmap option_fmap option_map].
    destruct (JS.parseInt s) as [|p| |]; [done|by destruct (Hs p)|done|done].
  - intros s p Hq Hs. unfold listPage, rq, listValidators. cbn [q_page].
    rewrite Hq. cbn [fmap option_fmap option_map]. by rewrite Hs.
  - intros Hq. unfold listLimit, rq, listValidators. cbn [q_limit]. by rewrite Hq.
  - intros s Hq Hs. unfold listLimit, rq, listValidators. cbn [q_limit].
    rewrite Hq. cbn [fmap option_fmap option_map].
    destruct (JS.parseInt s) as [|l| |]; [done|by destruct (Hs l)|done|done].
  - intros s l Hq Hs. unfold listLimit, rq, listValidators. cbn [q_limit].
    rewrite Hq. cbn [fmap option_fmap option_map]. by rewrite Hs.
  - destruct (listStudents_renders store query) as (filters & flashMsg & Hrender).
    fold rq in Hrender. fold matching in Hrender. fold total in Hrender.
    exists (pageOf store rq), (Z.max 1 (ceilDiv total (listLimit rq))), filters, flashMsg.
    split; [exact Hrender|]. split; [done|].
    split; [apply sortDocs_length|]. split; [done|].
    split; [apply ceilDiv_spec; lia|].
    intros H25 H10. rewrite pageOf_length. fold matching. unfold listSkip.
    unfold total. rewrite H25, H10.
    split; intros ->; split; reflexivity.
Qed.

(** C6.  [buildSort] takes [sortBy] as the sort key when it is one of
    name, rollNumber, email, department, gpa, createdAt, and [createdAt]
    for every other value, absent included; the direction is ascending
    (1) exactly when [order] is ["asc"] and descending (-1) for every
    other value, absent included.  The list route sorts by
    [buildSort sortBy order], with the [sortBy] and [order] it reads from
    the query, and renders the list whatever their values. *)
Theorem sort_key_and_direction :
  (forall sortBy order,
      let allowed := ["name"; "rollNumber"; "email"; "department"; "gpa"; "createdAt"] in
      let s := buildSort sortBy order in
      (forall k, sortBy = Some k -> k ∈ allowed -> Student.key s = k)
      /\ ((forall k, sortBy = Some k -> k ∉ allowed) -> Student.key s = "createdAt")
      /\ (Student.dir s = 1 <-> order = Some "asc")
      /\ (Student.dir s = -1 <-> order <> Some "asc"))
  /\ (forall store query,
        let rq := listValidators query in
        q_sortBy rq = JS.trim <$> query !! "sortBy"
        /\ q_order rq = JS.trim <$> query !! "order"
        /\ exists pagination filters flashMsg,
             listStudents store query
             = Render 200 "students"
                 (ListLocals "Students"
                    (take (Z.to_nat (listLimit rq))
                       (drop (Z.to_nat (listSkip rq))
                          (Student.sortDocs (buildSort (q_sortBy rq) (q_order rq))
                             (List.filter (Student.matches (listFilter rq)) store))))
                    pagination filters flashMsg)).
Proof.
  split.
  - intros sortBy order allowed s. unfold s, buildSort. cbn [Student.key Student.dir].
    fold allowed. split; [|split; [|split]].
    + intros k -> Hk. by rewrite bool_decide_eq_true_2.
    + intros Hout. destruct sortBy as [k|]; [|done].
      by rewrite bool_decide_eq_false_2 by (by apply Hout).
    + case_bool_decide; split; intros;
        first [assumption | reflexivity | contradiction | exfalso; lia].
    + case_bool_decide; split; intros;
        first [assumption | reflexivity | contradiction | exfalso; lia].
  - intros store query rq. split; [done|]. split; [done|].
    destruct (listStudents_renders store query) as (filters & flashMsg & Hrender).
    eauto.
Qed.

End ListClaims.

Section ListExamples.

Import Sample.

(** Twenty-five students in Physics, ten to a page. *)
Example twenty_five_students :
  let pageAt (p : string) :=
    StudentRoutes.listStudents (students 25)
      (list_to_map [("department", "Physics"); ("limit", "10"); ("page", p)]) in
  let count (r : Express.Response) :=
    match r with
    | Express.Render 200 "students" (Express.ListLocals _ docs pg _ _) =>
        Some (length docs, Express.total pg, Express.totalPages pg)
    | _ => None
    end in
  map (fun p => count (pageAt p)) ["1"; "2"; "3"; "4"; "0"; "x"]
  = [ Some (10%nat, 25, 3); Some (10%nat, 25, 3); Some (5%nat, 25, 3);
      Some (0%nat, 25, 3); Some (10%nat, 25, 3); Some (10%nat, 25, 3) ].
Proof. vm_compute. reflexivity. Qed.

(** The numbers [toInt] gives: 2^53 + 1 is read as 2^53, a number of 400
    digits as an infinity. *)
Example toInt_doubles :
  JS.parseInt "9007199254740993" = JS.Int 9007199254740992
  /\ JS.parseInt (nines 400) = JS.IPosInfinity
  /\ JS.parseInt ("-" +:+ nines 400) = JS.INegInfinity
  /\ JS.parseInt (noBreakSpace +:+ " 12px") = JS.Int 12
  /\ JS.parseInt "px" = JS.INaN.
Proof. repeat split; vm_compute; reflexivity. Qed.

(** Twenty-five students: page 4 of ten to a page is empty and rendered;
    page 2 of seven to a page skips seven students and shows the next
    seven of four pages; a page of 2^53 + 1 is page 2^53; a limit beyond
    every double is the default. *)
Lemma list_pagination_witness :
  (exists docs filters flashMsg,
     StudentRoutes.listStudents (students 25) fourthPageQuery
     = Express.Render 200 "students"
         (Express.ListLocals "Students" docs
            {| Express.page := 4; Express.limit := 10;
               Express.total := 25; Express.totalPages := 3 |}
            filters flashMsg)
     /\ length docs = 0%nat)
  /\ (exists docs filters flashMsg,
        StudentRoutes.listStudents (students 25) secondOfSevenQuery
        = Express.Render 200 "students"
            (Express.ListLocals "Students" docs
               {| Express.page := 2; Express.limit := 7;
                  Express.total := 25; Express.totalPages := 4 |}
               filters flashMsg)
        /\ Student.name <$> docs
           = [ "Student 17"; "Student 16"; "Student 15"; "Student 14"; "Student 13";
               "Student 12"; "Student 11" ])
  /\ StudentRoutes.listPage (StudentRoutes.listValidators hugePageQuery)
     = 9007199254740992
  /\ StudentRoutes.listLimit (StudentRoutes.listValidators hugeLimitQuery) = 10.
Proof.
  split; [|split; [|split]].
  - pose proof (list_pagination (students 25) fourthPageQuery) as H. cbv zeta in H.
    destruct H as (_ & _ & _ & _ & _ & _ & _ & _ & docs & pages & filters & flashMsg
                   & Hrender & _ & _ & _ & _ & H25).
    destruct H25 as [_ Hfourth]; [vm_compute; reflexivity|vm_compute; reflexivity|].
    destruct Hfourth as [Hlen Hpages]; [vm_compute; reflexivity|].
    exists docs, filters, flashMsg. split; [|exact Hlen].
    rewrite Hrender, Hpages. reflexivity.
  - pose proof (list_pagination (students 25) secondOfSevenQuery) as H. cbv zeta in H.
    destruct H as (_ & _ & _ & _ & _ & _ & _ & _ & docs & pages & filters & flashMsg
                   & Hrender & Hdocs & _ & Hpages & _).
    exists docs, filters, flashMsg. split.
    + rewrite Hrender, Hpages. vm_compute. reflexivity.
    + rewrite Hdocs. vm_compute. reflexivity.
  - pose proof (list_pagination (students 25) hugePageQuery) as H. cbv zeta in H.
    destruct H as (_ & _ & Hpage & _).
    apply (Hpage "9007199254740993" 9007199254740992); vm_compute; reflexivity.
  - pose proof (list_pagination (students 25) hugeLimitQuery) as H. cbv zeta in H.
    destruct H as (_ & _ & _ & _ & Hlimit & _).
    apply (Hlimit (nines 400)); [vm_compute; reflexivity|].
    intros l. vm_compute. discriminate.
Defined.

Lemma sort_key_and_direction_witness :
  Student.key (StudentRoutes.buildSort (Some "password") (Some "ASC")) = "createdAt"
  /\ Student.dir (StudentRoutes.buildSort (Some "password") (Some "ASC")) = -1
  /\ Student.key (StudentRoutes.buildSort (Some "gpa") (Some "asc")) = "gpa"
  /\ Student.dir (StudentRoutes.buildSort (Some "gpa") (Some "asc")) = 1.
Proof.
  destruct sort_key_and_direction as [Hsort _].
  destruct (Hsort (Some "password") (Some "ASC")) as (_ & Hkey & _ & Hdir).
  destruct (Hsort (Some "gpa") (Some "asc")) as (Hkey' & _ & Hdir' & _).
  split; [|split; [|split]].
  - apply Hkey. intros k [= <-]. rewrite !not_elem_of_cons.
    repeat split; try discriminate. apply not_elem_of_nil.
  - apply Hdir. discriminate.
  - apply Hkey'; [reflexivity|]. rewrite !elem_of_cons. tauto.
  - apply Hdir'. reflexivity.
Defined.

End ListExamples.

(** ** Numbers *)

Section NumberFacts.

Lemma geq_finite x y : JS.geq (JS.Finite x) (JS.Finite y) = true <-> (y <= x)%Q.
Proof. simpl. apply Qle_bool_iff. Qed.

Lemma leq_finite x y : JS.leq (JS.Finite x) (JS.Finite y) = true <-> (x <= y)%Q.
Proof. unfold JS.leq. apply geq_finite. Qed.

Lemma geq_refl x : JS.geq (JS.Finite x) (JS.Finite x) = true.
Proof. apply geq_finite, Qle_refl. Qed.

(** Only a finite number is between two finite numbers. *)
Lemma between_finite v lo hi :
  JS.geq v (JS.Finite lo) && JS.leq v (JS.Finite hi) = true
  <-> exists q, v = JS.Finite q /\ (lo <= q <= hi)%Q.
Proof.
  split.
  - intros [Hlo Hhi]%andb_true_iff. destruct v as [| | |q]; try done.
    exists q. split; [done|]. split; [by apply geq_finite|by apply leq_finite].
  - intros (q & -> & Hlo & Hhi). apply andb_true_iff.
    split; [by apply geq_finite|by apply leq_finite].
Qed.

(** A range with a bound holds the values that meet each bound it has. *)
Lemma inRange_spec r v :
  Student.gte r <> None \/ Student.lte r <> None ->
  Student.inRange r v = true
  <-> (forall b, Student.gte r = Some b -> JS.geq v b = true)
      /\ (forall b, Student.lte r = Some b -> JS.leq v b = true).
Proof.
  destruct r as [[lo|] [hi|]]; unfold Student.inRange; cbn [Student.gte Student.lte];
    intros Hone.
  - rewrite andb_true_iff. split.
    + intros [? ?]. split; by intros b [= <-].
    + intros [H1 H2]. eauto.
  - rewrite andb_true_r. split.
    + intros ?. split; [by intros b [= <-]|done].
    + intros [H1 _]. eauto.
  - rewrite andb_true_l. split.
    + intros ?. split; [done|by intros b [= <-]].
    + intros [_ H2]. eauto.
  - by destruct Hone.
Qed.

End NumberFacts.

Section GpaFilterClaim.

Import ExpressValidator Express StudentRoutes.

Context {RT : JsRuntime} {VJ : Validatorjs} {MS : Student.MongoServer}.

Lemma hasBound_spec v :
  hasBound (gpaBound v) = true
  <-> exists s x, v = Some s /\ s <> "" /\ parseFloat s = JS.Finite x.
Proof.
  destruct v as [s|]; simpl.
  - case_bool_decide as Hs; simpl.
    + split; [done|]. by intros (? & ? & [= <-] & ? & _).
    + split.
      * destruct (parseFloat s) as [| | |x] eqn:Hp; try done. intros _. by exists s, x.
      * intros (? & x & [= <-] & _ & ->). done.
  - split; [done|]. by intros (? & ? & ? & _).
Qed.

(** C10.  For every list request, with [minGpa] and [maxGpa] as the
    handler reads them: a bound that is absent, empty, or does not parse to
    a finite number puts nothing in the filter; the filter has a [gpa]
    range exactly when at least one bound is finite; a finite lower bound
    is the range's [$gte] and a finite upper bound its [$lte], each
    whatever the other is; both are inclusive; a bound in the filter is
    always finite, so never [NaN]; and the list is rendered in every
    case. *)
Theorem gpa_bounds_filter store query :
  let rq := listValidators query in
  let f := listFilter rq in
  let minGpa := gpaBound (q_minGpa rq) in
  let maxGpa := gpaBound (q_maxGpa rq) in
  (* what the handler reads *)
  q_minGpa rq = JS.trim <$> query !! "minGpa"
  /\ q_maxGpa rq = JS.trim <$> query !! "maxGpa"
  (* absent and empty parameters are not parsed *)
  /\ (q_minGpa rq = None \/ q_minGpa rq = Some "" -> minGpa = None)
  /\ (q_maxGpa rq = None \/ q_maxGpa rq = Some "" -> maxGpa = None)
  /\ (forall s, q_minGpa rq = Some s -> s <> "" -> minGpa = Some (parseFloat s))
  /\ (forall s, q_maxGpa rq = Some s -> s <> "" -> maxGpa = Some (parseFloat s))
  (* a bound counts when, and only when, it parses to a finite number *)
  /\ (hasBound minGpa = true
      <-> exists s x, q_minGpa rq = Some s /\ s <> "" /\ parseFloat s = JS.Finite x)
  /\ (hasBound maxGpa = true
      <-> exists s x, q_maxGpa rq = Some s /\ s <> "" /\ parseFloat s = JS.Finite x)
  (* the range is there exactly when a bound is finite *)
  /\ (Student.f_gpa f = None <-> hasBound minGpa = false /\ hasBound maxGpa = false)
  /\ (forall r, Student.f_gpa f = Some r ->
        (* each bound on its own *)
        (hasBound minGpa = false -> Student.gte r = None)
        /\ (hasBound maxGpa = false -> Student.lte r = None)
        /\ (forall x, minGpa = Some (JS.Finite x) -> Student.gte r = Some (JS.Finite x))
        /\ (forall x, maxGpa = Some (JS.Finite x) -> Student.lte r = Some (JS.Finite x))
        (* nothing but finite numbers *)
        /\ (forall b, Student.gte r = Some b -> JS.isFinite b = true)
        /\ (forall b, Student.lte r = Some b -> JS.isFinite b = true)
        (* inclusive bounds *)
        /\ (forall v, Student.inRange r v = true
                      <-> (forall b, Student.gte r = Some b -> JS.geq v b = true)
                          /\ (forall b, Student.lte r = Some b -> JS.leq v b = true))
        /\ (forall x, Student.gte r = Some (JS.Finite x) -> Student.lte r = None ->
                      Student.inRange r (JS.Finite x) = true)
        /\ (forall x, Student.lte r = Some (JS.Finite x) -> Student.gte r = None ->
                      Student.inRange r (JS.Finite x) = true))
  (* no error *)
  /\ (exists students pagination filters flashMsg,
        listStudents store query
        = Render 200 "students" (ListLocals "Students" students pagination filters flashMsg)).
Proof.
  intros rq f minGpa maxGpa.
  split; [done|]. split; [done|].
  split. { intros [H|H]; unfold minGpa; by rewrite H. }
  split. { intros [H|H]; unfold maxGpa; by rewrite H. }
  split. { intros s H Hs. unfold minGpa. rewrite H. simpl.
           by rewrite bool_decide_eq_false_2. }
  split. { intros s H Hs. unfold maxGpa. rewrite H. simpl.
           by rewrite bool_decide_eq_false_2. }
  split. { unfold minGpa. apply hasBound_spec. }
  split. { unfold maxGpa. apply hasBound_spec. }
  assert (Hf : Student.f_gpa f
               = if hasBound minGpa || hasBound maxGpa
                 then Some {| Student.gte := if hasBound minGpa then minGpa else None;
                              Student.lte := if hasBound maxGpa then maxGpa else None |}
                 else None) by done.
  split.
  { rewrite Hf. destruct (hasBound minGpa), (hasBound maxGpa); simpl; split;
      intros; try done; by destruct_and?. }
  split.
  2: { destruct (listStudents_renders store query) as (? & ? & ->). eauto. }
  intros r Hr. rewrite Hf in Hr.
  assert (Hfin : forall o b, (if hasBound o then o else None) = Some b -> JS.isFinite b = true).
  { intros o b. destruct o as [n|]; simpl; [|done].
    destruct (JS.isFinite n) eqn:Hn; [|done]. by intros [= <-]. }
  assert (Hsome : forall o x, o = Some (JS.Finite x) ->
                              (if hasBound o then o else None) = Some (JS.Finite x)).
  { by intros o x ->. }
  assert (Hnone : forall o, hasBound o = false -> (if hasBound o then o else None) = None).
  { by intros o ->. }
  assert (Hr' : r = {| Student.gte := if hasBound minGpa then minGpa else None;
                       Student.lte := if hasBound maxGpa then maxGpa else None |}
                /\ (hasBound minGpa = true \/ hasBound maxGpa = true)).
  { destruct (hasBound minGpa), (hasBound maxGpa); simpl in Hr; try done;
      injection Hr as <-; split; auto. }
  destruct Hr' as [-> Hone]. cbn [Student.gte Student.lte].
  split; [apply Hnone|]. split; [apply Hnone|].
  split; [apply Hsome|]. split; [apply Hsome|].
  split; [apply Hfin|]. split; [apply Hfin|].
  split.
  { intros v. apply inRange_spec. cbn [Student.gte Student.lte].
    destruct Hone as [H|H]; rewrite H; [left|right]; intros Hn;
      rewrite Hn in H; done. }
  split.
  - intros x Hx Hn. unfold Student.inRange. cbn [Student.gte Student.lte].
    rewrite Hx, Hn. rewrite andb_true_r. apply geq_refl.
  - intros x Hx Hn. unfold Student.inRange. cbn [Student.gte Student.lte].
    rewrite Hx, Hn. apply geq_refl.
Qed.

End GpaFilterClaim.

Section GpaFilterExamples.

Import Sample.

Lemma gpa_bounds_filter_witness :
  exists r,
    Student.f_gpa (StudentRoutes.listFilter (StudentRoutes.listValidators boundsQuery))
    = Some r
    /\ Student.gte r = Some (JS.Finite (5 # 2))
    /\ Student.lte r = None.
Proof.
  pose proof (gpa_bounds_filter [] boundsQuery) as H. cbv zeta in H.
  destruct H as (_ & _ & _ & _ & _ & _ & _ & _ & _ & Hrange & _).
  eexists. split; [vm_compute; reflexivity|].
  match goal with
  | |- Student.gte ?r = _ /\ _ =>
      destruct (Hrange r) as (_ & Hmax & Hmin & _); [vm_compute; reflexivity|]
  end.
  split; [apply Hmin|apply Hmax]; vm_compute; reflexivity.
Defined.

End GpaFilterExamples.

(** ** The gpa rule *)

Section GpaFacts.

Import ExpressValidator Express StudentRoutes.

Context {RT : JsRuntime} {VJ : Validatorjs} {MS : Student.MongoServer}.

Lemma runItem_errorsAt_other l f g st it :
  f <> g -> errorsAt g (runItem l f st it).2 = errorsAt g st.2.
Proof.
  intros Hfg. destruct st as [req errs], it as [san|v m|v]; simpl; [done| |].
  - destruct (v _); [done|]. simpl. unfold errorsAt. rewrite List.filter_app. simpl.
    rewrite bool_decide_eq_false_2 by congruence. apply app_nil_r.
  - destruct (v _ _); [|done]. simpl. unfold errorsAt. rewrite List.filter_app. simpl.
    rewrite bool_decide_eq_false_2 by congruence. apply app_nil_r.
Qed.

Lemma runChain_errorsAt_other g st c :
  field c <> g -> errorsAt g (runChain st c).2 = errorsAt g st.2.
Proof.
  intros Hfg. unfold runChain. destruct (optional c && _); [done|].
  generalize (stack c). intros items. revert st.
  induction items as [|it items IH]; intros st; simpl; [done|].
  by rewrite IH, runItem_errorsAt_other.
Qed.

(** The gpa chain adds its error exactly when [isFloat] refuses the
    submitted text. *)
Lemma studentValidators_gpa st :
  errorsAt "gpa" st.2 = [] ->
  errorsAt "gpa" (fold_left runChain studentValidators st).2 = []
  <-> isFloat (JS.Finite 0) (JS.Finite 4) (toString (body st.1 !! "gpa")) = true.
Proof.
  intros Hst. unfold studentValidators.
  change (fold_left runChain [?c1; ?c2; ?c3; ?c4; ?c5] st)
    with (runChain (fold_left runChain [c1; c2; c3; c4] st) c5).
  set (st4 := fold_left runChain _ st).
  assert (H4 : errorsAt "gpa" st4.2 = []).
  { unfold st4. cbn [fold_left]. by rewrite !runChain_errorsAt_other. }
  assert (Hb : body st4.1 !! "gpa" = body st.1 !! "gpa").
  { unfold st4. rewrite run_request_from. cbn [fold_left].
    by rewrite !sanitizeChain_body_other. }
  unfold runChain. cbn [optional bodyChain andb stack location field fold_left].
  destruct st4 as [r4 e4]. cbn [runItem fieldsAt fst snd] in *. rewrite Hb.
  destruct (isFloat _ _ _); cbn [snd].
  - by rewrite H4.
  - unfold errorsAt. rewrite List.filter_app. fold (errorsAt "gpa" e4). rewrite H4.
    simpl. done.
Qed.

Lemma isFloat_spec lo hi s :
  isFloat (JS.Finite lo) (JS.Finite hi) s = true
  <-> ((s ∉ [""; "."; ","; "-"; "+"])
       /\ floatPattern s = true
       /\ exists q, parseFloat s = JS.Finite q /\ (lo <= q <= hi)%Q).
Proof.
  unfold isFloat. rewrite !not_elem_of_cons.
  repeat case_bool_decide; cbn [orb]; try (split; [done|intros; destruct_and?; done]).
  rewrite <- andb_assoc, andb_true_iff, between_finite.
  split; [intros [? ?]|intros (_ & ? & ?)]; repeat split; try done.
  apply not_elem_of_nil.
Qed.

Lemma gpaValidators_spec v :
  Mongoose.firstFailure Student.gpaValidators v = None
  <-> exists q, v = JS.Finite q /\ (0 <= q <= 4)%Q.
Proof.
  unfold Student.gpaValidators. cbn [Mongoose.firstFailure].
  destruct v as [| | |q]; simpl; try (split; [done|by intros (? & ? & ?)]).
  split.
  - destruct (Qle_bool 0 q) eqn:Hlo; [|done]. destruct (Qle_bool q 4) eqn:Hhi; [|done].
    intros _. exists q. split; [done|]. split; by apply Qle_bool_iff.
  - intros (q' & [= <-] & Hlo & Hhi).
    apply Qle_bool_iff in Hlo, Hhi. by rewrite Hlo, Hhi.
Qed.

(** Schema validation passes only with a gpa that its validators accept. *)
Lemma validate_gpa p p' :
  Student.validate p = inr p' ->
  Mongoose.firstFailure Student.gpaValidators (Student.p_gpa p) = None.
Proof.
  unfold Student.validate, Student.pathErrors.
  cbn [Student.applySetters Student.p_gpa].
  destruct (Mongoose.firstFailure Student.gpaValidators (Student.p_gpa p)); [|done].
  cbn [omap list_omap].
  repeat (match goal with |- context [Mongoose.firstFailure ?vs ?x] =>
            destruct (Mongoose.firstFailure vs x) end; cbn [omap list_omap id]); done.
Qed.

End GpaFacts.

Section GpaClaim.

Import ExpressValidator Express StudentRoutes.

Context {RT : JsRuntime} {VJ : Validatorjs} {MS : Student.MongoServer}.

(** C5.  On create and on update, request validation leaves no error for
    [gpa] if and only if the submitted text is numeric (it has the float
    syntax and is none of the refused strings) and its value is between 0
    and 4, both included.  The schema accepts a gpa under the same
    condition on the number: it must be a number between 0 and 4, both
    included, and [save] and [findByIdAndUpdate] store nothing
    otherwise.  In particular 0 and 4 are accepted, and a value below 0 or
    above 4 is refused, by both. *)
Theorem gpa_between_0_and_4 :
  (* request validation, on create and on update *)
  (forall req,
      let s := toString (body req !! "gpa") in
      errorsAt "gpa" (run studentValidators req).2 = []
      <-> ((s ∉ [""; "."; ","; "-"; "+"])
           /\ floatPattern s = true
           /\ exists q, parseFloat s = JS.Finite q /\ (0 <= q <= 4)%Q))
  /\ (forall id req,
        let s := toString (body req !! "gpa") in
        errorsAt "gpa"
          (run (paramChain "id" [StandardValidation isMongoId invalidValue]
                  :: studentValidators) (withId id req)).2 = []
        <-> ((s ∉ [""; "."; ","; "-"; "+"])
             /\ floatPattern s = true
             /\ exists q, parseFloat s = JS.Finite q /\ (0 <= q <= 4)%Q))
  (* the schema *)
  /\ (forall v,
        Mongoose.firstFailure Student.gpaValidators v = None
        <-> exists q, v = JS.Finite q /\ (0 <= q <= 4)%Q)
  /\ (forall env store p store' d,
        Student.save env store p = inr (store', d) ->
        exists q, Student.p_gpa p = JS.Finite q /\ (0 <= q <= 4)%Q)
  /\ (forall env store id p store' d,
        Student.findByIdAndUpdate env store id p = inr (store', Some d) ->
        exists q, Student.p_gpa p = JS.Finite q /\ (0 <= q <= 4)%Q)
  (* the bounds are included, what is outside is refused *)
  /\ (forall s q, (s ∉ [""; "."; ","; "-"; "+"]) -> floatPattern s = true ->
                  parseFloat s = JS.Finite q -> (q == 0 \/ q == 4)%Q ->
                  isFloat (JS.Finite 0) (JS.Finite 4) s = true)
  /\ (forall s q, parseFloat s = JS.Finite q -> (q < 0 \/ 4 < q)%Q ->
                  isFloat (JS.Finite 0) (JS.Finite 4) s = false)
  /\ (forall q, (q == 0 \/ q == 4)%Q ->
                Mongoose.firstFailure Student.gpaValidators (JS.Finite q) = None)
  /\ (forall q, (q < 0 \/ 4 < q)%Q ->
                Mongoose.firstFailure Student.gpaValidators (JS.Finite q) <> None).
Proof.
  split; [|split; [|split; [|split; [|split; [|split; [|split; [|split]]]]]]].
  - intros req s. unfold run. rewrite (studentValidators_gpa (req, [])) by done.
    apply isFloat_spec.
  - intros id req s.
    change (run (?c :: studentValidators) ?r)
      with (fold_left runChain studentValidators (runChain (r, []) c)).
    rewrite studentValidators_gpa.
    + rewrite update_chain_body. apply isFloat_spec.
    + by rewrite runChain_errorsAt_other.
  - apply gpaValidators_spec.
  - intros env store p store' d. unfold Student.save.
    destruct (Student.validate p) as [|p'] eqn:Hv; [done|]. intros _.
    eapply gpaValidators_spec, validate_gpa, Hv.
  - intros env store id p store' d. unfold Student.findByIdAndUpdate.
    destruct (Mongoose.castObjectId id); [done|].
    destruct (Student.validate p) as [|p'] eqn:Hv; [done|]. intros _.
    eapply gpaValidators_spec, validate_gpa, Hv.
  - intros s q Hs Hp Hq Hb. apply isFloat_spec. split; [done|]. split; [done|].
    exists q. split; [done|]. destruct Hb as [->| ->]; done.
  - intros s q Hq Hout. apply not_true_is_false. intros Hok.
    apply isFloat_spec in Hok as (_ & _ & q' & Hq' & Hlo & Hhi).
    rewrite Hq in Hq'. injection Hq' as <-.
    destruct Hout as [H|H]; [apply (Qlt_not_le _ _ H Hlo)|apply (Qlt_not_le _ _ H Hhi)].
  - intros q Hb. apply gpaValidators_spec. exists q. split; [done|].
    destruct Hb as [->| ->]; done.
  - intros q Hout Hok. apply gpaValidators_spec in Hok as (q' & [= <-] & Hlo & Hhi).
    destruct Hout as [H|H]; [apply (Qlt_not_le _ _ H Hlo)|apply (Qlt_not_le _ _ H Hhi)].
Qed.

End GpaClaim.

Section GpaExamples.

Import Sample.

(** With decimal literals read exactly: the bounds pass, their neighbours
    and what is not a number do not. *)
Example gpa_texts :
  map (ExpressValidator.isFloat (JS.Finite 0) (JS.Finite 4))
      ["0"; "4"; "0.0"; "4.0"; "3.75"; "-0.1"; "4.01"; "5"; "abc"; ""; " 3"; "e5"]
  = [true; true; true; true; true; false; false; false; false; false; false; false].
Proof. vm_compute. reflexivity. Qed.

Lemma gpa_between_0_and_4_witness :
  ExpressValidator.isFloat (JS.Finite 0) (JS.Finite 4) "4.0" = true
  /\ ExpressValidator.isFloat (JS.Finite 0) (JS.Finite 4) "0" = true
  /\ ExpressValidator.isFloat (JS.Finite 0) (JS.Finite 4) "4.01" = false
  /\ Mongoose.firstFailure Student.gpaValidators (JS.Finite 4) = None
  /\ Mongoose.firstFailure Student.gpaValidators (JS.Finite (401 # 100)) <> None.
Proof.
  destruct gpa_between_0_and_4 as (_ & _ & _ & _ & _ & Hin & Hout & Hin' & Hout').
  assert (Hok : forall s : string,
             s <> "" -> s <> "." -> s <> "," -> s <> "-" -> s <> "+" ->
             s ∉ [""; "."; ","; "-"; "+"]).
  { intros s ? ? ? ? ?. rewrite !not_elem_of_cons. repeat split; try done.
    apply not_elem_of_nil. }
  split; [|split; [|split; [|split]]].
  - apply (Hin "4.0" 4%Q); [by apply Hok|vm_compute; reflexivity|vm_compute; reflexivity|].
    right. reflexivity.
  - apply (Hin "0" 0%Q); [by apply Hok|vm_compute; reflexivity|vm_compute; reflexivity|].
    left. reflexivity.
  - apply (Hout "4.01" (401 # 100)%Q); [vm_compute; reflexivity|]. right. reflexivity.
  - apply Hin'. right. reflexivity.
  - apply Hout'. right. reflexivity.
Defined.

End GpaExamples.

(** ** Authentication routes *)

Section AuthFacts.

Import ExpressValidator Express AuthRoutes.

Context {VJ : Validatorjs} {BC : Bcryptjs}.

Lemma notEmpty_spec s : notEmpty s = true <-> s <> "".
Proof. destruct s; simpl; split; done. Qed.

(** The login chains: the email is trimmed and normalized in place; there
    is no error exactly when the trimmed email is well formed and the
    password is not empty. *)
Lemma loginValidators_body st :
  body (fold_left runChain loginValidators st).1
  = <["email" := normalizeEmail (JS.trim (toString (body st.1 !! "email")))]> (body st.1).
Proof.
  rewrite run_request_from. destruct st as [req errs]. simpl.
  unfold sanitizeChain. simpl.
  by rewrite lookup_insert_eq, insert_insert_eq.
Qed.

Lemma loginValidators_errors req :
  (run loginValidators req).2 = []
  <-> isEmail (JS.trim (toString (body req !! "email"))) = true
      /\ toString (body req !! "password") <> "".
Proof.
  rewrite <- notEmpty_spec.
  unfold run, loginValidators, runChain. simpl.
  rewrite lookup_insert_eq.
  destruct (isEmail _); simpl.
  - rewrite !lookup_insert_ne by done.
    destruct (notEmpty _); simpl; split; try done. by intros [_ ?].
  - rewrite !lookup_insert_ne by done.
    destruct (notEmpty _); simpl; split; try done; by intros [? _].
Qed.

(** The signup chains rewrite [username] and [email]. *)
Lemma signupValidators_body st :
  body (fold_left runChain signupValidators st).1
  = <["email" := normalizeEmail (JS.trim (toString (body st.1 !! "email")))]>
    (<["username" := JS.trim (toString (body st.1 !! "username"))]> (body st.1)).
Proof.
  rewrite run_request_from. destruct st as [req errs]. simpl.
  unfold sanitizeChain. simpl.
  rewrite lookup_insert_eq, insert_insert_eq.
  by rewrite (lookup_insert_ne _ "username" "email") by done.
Qed.

End AuthFacts.

Section LoginClaim.

Import ExpressValidator Express AuthRoutes.

Context {VJ : Validatorjs} {BC : Bcryptjs}.

(** C3.  For a login request with a well-formed email and a non-empty
    password: when the email matches no user, and when it matches an
    active user whose stored hash the password does not verify against,
    the answer is the same, status 401 with the one message "Invalid
    email or password"; when it matches an inactive user the answer is
    status 401 with the deactivated-account message, which is a different
    message.  No session is set in any of the three cases. *)
Theorem login_failure_messages store req :
  isEmail (JS.trim (toString (body req !! "email"))) = true ->
  toString (body req !! "password") <> "" ->
  let email := normalizeEmail (JS.trim (toString (body req !! "email"))) in
  let password := toString (body req !! "password") in
  let values := <["email" := email]> (body req) in
  let generic :=
    (None, Render 401 "login"
             (FormLocals "Login" [ {| msg := "Invalid email or password"; path := None |} ]
                values)) in
  (User.findByEmail store email = None -> login store req = generic)
  /\ (forall user,
        User.findByEmail store email = Some user ->
        User.isActive user = true ->
        User.comparePassword user password = false ->
        login store req = generic)
  /\ (forall user,
        User.findByEmail store email = Some user ->
        User.isActive user = false ->
        login store req
        = (None, Render 401 "login"
                   (FormLocals "Login"
                      [ {| msg := "Account is deactivated. Please contact administrator.";
                           path := None |} ]
                      values)))
  /\ deactivated <> invalidCredentials.
Proof.
  intros Hemail Hpw email password values generic.
  assert (Hnil : (run loginValidators req).2 = []) by by apply loginValidators_errors.
  pose proof (loginValidators_body (req, [])) as Hbody.
  change (fold_left runChain loginValidators (req, [])) with (run loginValidators req)
    in Hbody. cbn [fst] in Hbody. fold email in Hbody. fold values in Hbody.
  assert (He : toString (values !! "email") = email).
  { unfold values. by rewrite lookup_insert_eq. }
  assert (Hp : toString (values !! "password") = password).
  { unfold values. by rewrite lookup_insert_ne. }
  unfold login. destruct (run loginValidators req) as [req' errors].
  cbn [fst snd] in *. subst errors. rewrite Hbody, He, Hp. cbn [StudentRoutes.isEmpty negb].
  split; [|split; [|split]].
  - by intros ->.
  - intros user -> -> ->. done.
  - intros user -> ->. done.
  - done.
Qed.

End LoginClaim.

Section LoginExamples.

Import Sample.

Example login_wrong_password_and_unknown_email :
  Express.errorsOf (AuthRoutes.login accounts (loginRequest "ada@example.org" "wrong")).2
  = Express.errorsOf (AuthRoutes.login accounts (loginRequest "eve@example.org" "wrong")).2
  /\ Express.statusOf (AuthRoutes.login accounts (loginRequest "ada@example.org" "wrong")).2
     = Some 401
  /\ Express.statusOf (AuthRoutes.login accounts (loginRequest "eve@example.org" "wrong")).2
     = Some 401
  /\ AuthRoutes.login accounts (loginRequest "ada@example.org" "secret12")
     = (Some {| AuthRoutes.userId := "64c0000000000000000000a1";
                AuthRoutes.username := "ada"; AuthRoutes.role := User.user |},
        Express.Redirect "/?msg=login_success").
Proof. vm_compute. repeat split; reflexivity. Qed.

Lemma login_failure_messages_witness :
  isEmail (JS.trim (ExpressValidator.toString
             (ExpressValidator.body wrongPasswordRequest !! "email"))) = true
  /\ ExpressValidator.toString (ExpressValidator.body wrongPasswordRequest !! "password") <> ""
  /\ AuthRoutes.login accounts wrongPasswordRequest
     = (None,
        Express.Render 401 "login"
          (Express.FormLocals "Login"
             [ {| ExpressValidator.msg := "Invalid email or password";
                  ExpressValidator.path := None |} ]
             (<["email" := "ada@example.org"]> (ExpressValidator.body wrongPasswordRequest)))).
Proof.
  assert (H1 : isEmail (JS.trim (ExpressValidator.toString
                 (ExpressValidator.body wrongPasswordRequest !! "email"))) = true)
    by (vm_compute; reflexivity).
  assert (H2 : ExpressValidator.toString
                 (ExpressValidator.body wrongPasswordRequest !! "password") <> "")
    by (vm_compute; discriminate).
  split; [exact H1|]. split; [exact H2|].
  destruct (login_failure_messages accounts _ H1 H2) as (_ & Hwrong & _).
  apply (Hwrong ada); vm_compute; reflexivity.
Defined.

End LoginExamples.

(** ** Validation failures *)

Section ValidationFailureClaim.

Import ExpressValidator Express StudentRoutes AuthRoutes.

Context {RT : JsRuntime} {VJ : Validatorjs} {MS : Student.MongoServer} {BC : Bcryptjs}.

Lemma studentValidators_params st :
  params (fold_left runChain studentValidators st).1 = params st.1.
Proof. rewrite run_request_from. by destruct st. Qed.

(** C4 (as amended).  A create, update, signup or login request that fails
    field validation is answered with status 422 and the form, rendered
    with the list of validation errors and with the request body as the
    chains left it: the fields that have a sanitizer hold the sanitized
    text ([name], [rollNumber], [department] and [username] trimmed,
    [email] trimmed and normalized), every other field holds what was
    submitted; the update form also gets the id as [_id].  Nothing is
    written to the store.  Trimming takes every white-space character of
    the language from both ends, U+00A0 included. *)
Theorem validation_failure_rerender :
  (forall env store req,
      let out := run studentValidators req in
      out.2 <> [] ->
      createStudent env store req
      = (store, Render 422 "addStudent"
                  (FormLocals "Add Student" out.2
                     (<["department" := JS.trim (toString (body req !! "department"))]>
                      (<["email" := normalizeEmail (JS.trim (toString (body req !! "email")))]>
                      (<["rollNumber" := JS.trim (toString (body req !! "rollNumber"))]>
                      (<["name" := JS.trim (toString (body req !! "name"))]>
                         (body req))))))))
  /\ (forall env store id req,
        let out := run (paramChain "id" [StandardValidation isMongoId invalidValue]
                          :: studentValidators) (withId id req) in
        out.2 <> [] ->
        updateStudent env store id req
        = (store, Render 422 "editStudent"
                    (FormLocals "Edit Student" out.2
                       (<["_id" := id]>
                        (<["department" := JS.trim (toString (body req !! "department"))]>
                        (<["email" :=
                             normalizeEmail (JS.trim (toString (body req !! "email")))]>
                        (<["rollNumber" := JS.trim (toString (body req !! "rollNumber"))]>
                        (<["name" := JS.trim (toString (body req !! "name"))]>
                           (body req)))))))))
  /\ (forall env store req,
        let out := run signupValidators req in
        out.2 <> [] ->
        signup env store req
        = (store, Render 422 "signup"
                    (FormLocals "Sign Up" out.2
                       (<["email" := normalizeEmail (JS.trim (toString (body req !! "email")))]>
                        (<["username" := JS.trim (toString (body req !! "username"))]>
                           (body req))))))
  /\ (forall store req,
        let out := run loginValidators req in
        out.2 <> [] ->
        login store req
        = (None, Render 422 "login"
                   (FormLocals "Login" out.2
                      (<["email" := normalizeEmail (JS.trim (toString (body req !! "email")))]>
                         (body req))))).
Proof.
  split; [|split; [|split]].
  - intros env store req out Herr. unfold createStudent.
    pose proof (studentValidators_body (req, [])) as Hbody.
    change (fold_left runChain studentValidators (req, []))
      with (run studentValidators req) in Hbody. fold out in Hbody.
    fold out. destruct out as [req' errors]. cbn [fst snd] in *.
    destruct errors; [done|]. cbn [StudentRoutes.isEmpty negb]. by rewrite Hbody.
  - intros env store id req out Herr. unfold updateStudent. fold out.
    assert (Hbody : body out.1 = _) by apply studentValidators_body.
    assert (Hparams : params out.1 = _) by apply studentValidators_params.
    rewrite update_chain_body in Hbody.
    rewrite runChain_request in Hparams.
    change (params out.1 = {[ "id" := id ]}) in Hparams.
    destruct out as [req' errors]. cbn [fst snd] in *.
    destruct errors; [done|]. cbn [StudentRoutes.isEmpty negb].
    rewrite Hbody, Hparams. by rewrite lookup_singleton_eq.
  - intros env store req out Herr. unfold signup.
    pose proof (signupValidators_body (req, [])) as Hbody.
    change (fold_left runChain signupValidators (req, []))
      with (run signupValidators req) in Hbody. fold out in Hbody.
    fold out. destruct out as [req' errors]. cbn [fst snd] in *.
    destruct errors; [done|]. cbn [StudentRoutes.isEmpty negb]. by rewrite Hbody.
  - intros store req out Herr. unfold login.
    pose proof (loginValidators_body (req, [])) as Hbody.
    change (fold_left runChain loginValidators (req, []))
      with (run loginValidators req) in Hbody. fold out in Hbody.
    fold out. destruct out as [req' errors]. cbn [fst snd] in *.
    destruct errors; [done|]. cbn [StudentRoutes.isEmpty negb]. by rewrite Hbody.
Qed.

End ValidationFailureClaim.

Section ValidationFailureExamples.

Import Sample.

(** C4 as stated fails: the request above fails validation (no gpa) and is
    answered with status 422, but the form is rendered with the trimmed
    name, not with the name as it was typed. *)
Lemma validation_failure_counterexample :
  Express.statusOf (StudentRoutes.createStudent studentEnv [] paddedRequest).2 = Some 422
  /\ Express.errorsOf (StudentRoutes.createStudent studentEnv [] paddedRequest).2
     = [ {| ExpressValidator.msg := "GPA must be between 0.0 and 4.0";
            ExpressValidator.path := Some "gpa" |} ]
  /\ ExpressValidator.body paddedRequest !! "name" = Some "  Ada Lovelace  "
  /\ (Express.valuesOf (StudentRoutes.createStudent studentEnv [] paddedRequest).2
        ≫= (.!! "name")) = Some "Ada Lovelace"
  /\ Express.valuesOf (StudentRoutes.createStudent studentEnv [] paddedRequest).2
     <> Some (ExpressValidator.body paddedRequest).
Proof.
  split; [vm_compute; reflexivity|]. split; [vm_compute; reflexivity|].
  split; [vm_compute; reflexivity|]. split; [vm_compute; reflexivity|].
  intros Heq.
  assert (Hname : Express.valuesOf
                    (StudentRoutes.createStudent studentEnv [] paddedRequest).2
                    ≫= (.!! "name") = Some "Ada Lovelace") by (vm_compute; reflexivity).
  rewrite Heq in Hname. vm_compute in Hname. discriminate.
Qed.

Lemma validation_failure_rerender_witness :
  (ExpressValidator.run StudentRoutes.studentValidators paddedRequest).2 <> []
  /\ StudentRoutes.createStudent studentEnv [] paddedRequest
     = ([], Express.Render 422 "addStudent"
              (Express.FormLocals "Add Student"
                 [ {| ExpressValidator.msg := "GPA must be between 0.0 and 4.0";
                      ExpressValidator.path := Some "gpa" |} ]
                 (<["department" := "Physics"]>
                  (<["email" := "ada@example.org"]>
                  (<["rollNumber" := "CS-101"]>
                  (<["name" := "Ada Lovelace"]>
                     (ExpressValidator.body paddedRequest))))))).
Proof.
  assert (Herr : (ExpressValidator.run StudentRoutes.studentValidators paddedRequest).2
                 <> []) by (vm_compute; discriminate).
  split; [exact Herr|].
  destruct validation_failure_rerender as (Hcreate & _).
  exact (Hcreate studentEnv [] paddedRequest Herr).
Defined.

End ValidationFailureExamples.

(** ** Deleting a student *)

Section DeleteClaim.

Import ExpressValidator Express StudentRoutes.

Lemma filter_all {A} (P : A -> Prop) `{!forall x, Decision (P x)} (l : list A) :
  (forall x, x ∈ l -> P x) -> filter P l = l.
Proof.
  induction l as [|x l IH]; intros Hall; [done|].
  rewrite filter_cons_True by (apply Hall; left).
  f_equal. apply IH. intros y Hy. apply Hall. by right.
Qed.

(** C9.  For an id with the syntax of an ObjectId, deleting answers with
    the redirect to the list with [msg=deleted] whether or not a student
    has the id: the students with the id are removed and the others kept;
    when none has it the store is unchanged and the answer is the same;
    and deleting again answers the same and changes nothing more. *)
Theorem delete_idempotent store id :
  Mongoose.isObjectIdString id = true ->
  let oid := JS.toLowerCase id in
  let remaining := filter (fun d => Student._id d <> oid) store in
  deleteStudent store id = (remaining, Redirect "/students?msg=deleted")
  /\ (forall d, d ∈ remaining <-> d ∈ store /\ Student._id d <> oid)
  /\ ((forall d, d ∈ store -> Student._id d <> oid) ->
      deleteStudent store id = (store, Redirect "/students?msg=deleted"))
  /\ deleteStudent remaining id = (remaining, Redirect "/students?msg=deleted").
Proof.
  intros Hid oid remaining.
  assert (Hdel : forall s, deleteStudent s id
                           = (filter (fun d => Student._id d <> oid) s,
                              Redirect "/students?msg=deleted")).
  { intros s. unfold deleteStudent, Student.findByIdAndDelete, Mongoose.castObjectId.
    by rewrite Hid. }
  split; [apply Hdel|]. split; [|split].
  - intros d. unfold remaining. rewrite list_elem_of_filter. tauto.
  - intros Habsent. rewrite Hdel. f_equal. by apply filter_all.
  - rewrite Hdel. f_equal. unfold remaining. by apply list_filter_filter_l.
Qed.

End DeleteClaim.

Section DeleteExamples.

Import Sample.

Lemma delete_idempotent_witness :
  Mongoose.isObjectIdString absentId = true
  /\ StudentRoutes.deleteStudent (students 3) absentId
     = (students 3, Express.Redirect "/students?msg=deleted").
Proof.
  assert (Hid : Mongoose.isObjectIdString absentId = true) by (vm_compute; reflexivity).
  split; [exact Hid|].
  destruct (delete_idempotent (students 3) _ Hid) as (_ & _ & Habsent & _).
  apply Habsent. intros d Hd.
  repeat (apply elem_of_cons in Hd as [->|Hd]; [vm_compute; discriminate|]).
  by apply elem_of_nil in Hd.
Defined.

(** An id that is not an ObjectId is not deleted silently: the model
    throws, and the error goes to the error handler. *)
Example delete_malformed_id :
  StudentRoutes.deleteStudent (students 3) "not-an-id"
  = (students 3, Express.Next (Mongoose.CastError "_id")).
Proof. vm_compute. reflexivity. Qed.

End DeleteExamples.

(** ** The user model *)

Section UserFacts.

Context {BC : Bcryptjs}.


Lemma preSave_modified env this this' calls :
  User.isModified "password" this = true ->
  User.preSave env this = (inr this', calls) ->
  exists salt hashed,
    genSalt 12 (User.entropy env) = inr salt
    /\ hash (User.password (User.doc this)) salt = inr hashed
    /\ this' = User.setPassword hashed this
    /\ calls = [User.GenSalt 12; User.Hash (User.password (User.doc this)) salt].
Proof.
  intros H. unfold User.preSave. rewrite H. cbn [negb].
  destruct (genSalt 12 _) as [|salt] eqn:Hsalt; [done|].
  destruct (hash _ salt) as [|hashed] eqn:Hhash; [done|].
  intros [= <- <-]. by exists salt, hashed.
Qed.

(** What a successful [save] has done: the hook's outcome is what is
    written, under the document's id. *)
Lemma save_written env store this store' d calls :
  User.save env store this = (inr (store', d), calls) ->
  exists this',
    User.preSave env this = (inr this', calls)
    /\ User.password d = User.password (User.doc this')
    /\ User._id d = User._id (User.doc this')
    /\ User.isNew this' = User.isNew this
    /\ store' = if User.isNew this then store ++ [d]
                else map (fun x => if bool_decide (User._id x = User._id d) then d else x)
                       store.
Proof.
  unfold User.save. destruct (User.validate this); [|done].
  destruct (User.preSave env this) as [[e|this'] calls'] eqn:Hpre; [done|].
  destruct (User.duplicate _ _); [done|].
  intros [= <- <- <-]. exists this'. split; [done|].
  assert (Hnew : User.isNew this' = User.isNew this).
  { unfold User.preSave in Hpre. destruct (negb _); [by injection Hpre as <- _|].
    destruct (genSalt _ _); [done|]. destruct (hash _ _); [done|].
    by injection Hpre as <- _. }
  unfold User.write. cbn [User.isNew User.doc]. rewrite Hnew.
  by destruct (User.isNew this).
Qed.


Lemma toJSON_password this : User.toJSON this !! "password" = None.
Proof. unfold User.toJSON. apply lookup_delete_eq. Qed.

End UserFacts.

Section PasswordClaims.

Import ExpressValidator Express AuthRoutes.

Context {VJ : Validatorjs} {BC : Bcryptjs}.

Lemma new_password_modified env u e p :
  User.isModified "password" (User.new env u e p) = true.
Proof.
  unfold User.isModified, User.new. cbn [User.modifiedPaths].
  apply bool_decide_eq_true_2.
  rewrite !elem_of_union, !elem_of_singleton. by right.
Qed.


(** C7.  The serialized form of a user never has a [password] key,
    whatever the document (so also for a document that was just created),
    and has every other key of the document.  What storage holds is not
    the submitted password either: after a signup that succeeds the new
    user's password field is the bcrypt hash of the submitted text under
    a salt of cost factor 12 (and so differs from that text, as long as
    bcrypt never returns its input), and every save that assigns the
    password stores the hash of what was assigned. *)
Theorem password_never_serialized :
  (forall this, User.toJSON this !! "password" = None)
  /\ (forall this k, k <> "password" -> User.toJSON this !! k = User.toObject this !! k)
  /\ (forall env u e p, User.toJSON (User.doc (User.new env u e p)) !! "password" = None)
  /\ (forall env store req store',
        signup env store req = (store', Redirect "/login?msg=signup_success") ->
        exists d salt hashed,
          store' = store ++ [d]
          /\ genSalt 12 (User.entropy env) = inr salt
          /\ hash (toString (body req !! "password")) salt = inr hashed
          /\ User.password d = hashed
          /\ User.toJSON d !! "password" = None
          /\ ((forall data s h, hash data s = inr h -> h <> data) ->
              User.password d <> toString (body req !! "password")))
  /\ (forall env store this store' d calls,
        User.save env store this = (inr (store', d), calls) ->
        User.isModified "password" this = true ->
        exists salt hashed,
          genSalt 12 (User.entropy env) = inr salt
          /\ hash (User.password (User.doc this)) salt = inr hashed
          /\ User.password d = hashed).
Proof.
  split; [exact toJSON_password|]. split; [|split; [|split]].
  - intros this k Hk. unfold User.toJSON. by rewrite lookup_delete_ne.
  - intros. apply toJSON_password.
  - intros env store req store'. unfold signup.
    pose proof (signupValidators_body (req, [])) as Hbody.
    change (fold_left runChain signupValidators (req, []))
      with (run signupValidators req) in Hbody. cbn [fst] in Hbody.
    destruct (run signupValidators req) as [req' errors]. cbn [fst] in Hbody.
    destruct errors; [|done]. cbn [StudentRoutes.isEmpty negb].
    destruct (User.findByEmailOrUsername _ _ _).
    { by case_bool_decide. }
    destruct (User.save _ _ _) as [[e|[store1 d]] calls] eqn:Hsave; [done|].
    intros [= <-].
    destruct (save_written _ _ _ _ _ _ Hsave) as (this' & Hpre & Hpw & _ & _ & Hstore).
    destruct (preSave_modified _ _ _ _ (new_password_modified _ _ _ _) Hpre)
      as (salt & hashed & Hs & Hh & -> & _).
    assert (Hsubmitted : hash (toString (body req !! "password")) salt = inr hashed).
    { rewrite <- Hh. f_equal. rewrite Hbody. cbn [User.new User.doc User.password].
      by rewrite !lookup_insert_ne. }
    exists d, salt, hashed. split; [done|]. split; [done|]. split; [done|].
    split; [done|]. split; [apply toJSON_password|].
    intros Hnot. rewrite Hpw. cbn [User.setPassword User.doc User.password].
    by apply (Hnot _ salt).
  - intros env store this store' d calls Hsave Hmod.
    destruct (save_written _ _ _ _ _ _ Hsave) as (this' & Hpre & Hpw & _).
    destruct (preSave_modified _ _ _ _ Hmod Hpre) as (salt & hashed & Hs & Hh & -> & _).
    by exists salt, hashed.
Qed.

End PasswordClaims.

Section PasswordExamples.

Import Sample.

(** A signup stores the hash, and what is serialized has no password. *)
Example signup_stores_hash :
  exists d,
    AuthRoutes.signup userEnv accounts signupRequest
    = (accounts ++ [d], Express.Redirect "/login?msg=signup_success")
    /\ User.username d = "grace_h"
    /\ User.email d = "grace@example.org"
    /\ User.password d = sampleSalt +:+ "secret12"
    /\ User.toJSON d !! "password" = None
    /\ User.toJSON d !! "username" = Some (User.VString "grace_h").
Proof.
  eexists. split; [vm_compute; reflexivity|].
  repeat split; try reflexivity.
Qed.

(** Renaming a stored user and saving: no bcrypt call, the same hash. *)
Example rename_keeps_hash :
  exists d,
    User.save userEnv accounts
      (fold_left User.applyUpdate [User.SetUsername "ada_l"] (User.hydrate ada))
    = (inr ([d; bob], d), [])
    /\ User.username d = "ada_l"
    /\ User.password d = User.password ada.
Proof. eexists. split; [vm_compute; reflexivity|]. split; reflexivity. Qed.

(** Assigning a new password and saving: one salt of 12 rounds, one hash. *)
Example new_password_is_hashed :
  exists d,
    User.save userEnv accounts (User.setPassword "changed1" (User.hydrate ada))
    = (inr ([d; bob], d), [User.GenSalt 12; User.Hash "changed1" sampleSalt])
    /\ User.password d = sampleSalt +:+ "changed1".
Proof. eexists. split; [vm_compute; reflexivity|]. reflexivity. Qed.

Lemma password_never_serialized_witness :
  exists d salt hashed,
    (AuthRoutes.signup userEnv accounts signupRequest).1 = accounts ++ [d]
    /\ genSalt 12 (User.entropy userEnv) = inr salt
    /\ hash "secret12" salt = inr hashed
    /\ User.password d = hashed
    /\ User.toJSON d !! "password" = None.
Proof.
  destruct password_never_serialized as (_ & _ & _ & Hsignup & _).
  destruct (Hsignup userEnv accounts signupRequest
              (AuthRoutes.signup userEnv accounts signupRequest).1)
    as (d & salt & hashed & H1 & H2 & H3 & H4 & H5 & _); [vm_compute; reflexivity|].
  exists d, salt, hashed. repeat split; assumption.
Defined.


End PasswordExamples.


(** * Further properties of the routes and models *)

(** ** When validation passes *)

Section PassFacts.

Import ExpressValidator Conditions.

Lemma runItem_pass l f req errs it :
  (runItem l f (req, errs) it).2 = [] <-> errs = [] /\ itemPasses l f req it.
Proof.
  destruct it as [san|v m|v]; simpl.
  - tauto.
  - destruct (v _); simpl; [tauto|]. split; [|by intros [_ ?]].
    intros H. by apply app_eq_nil in H as [_ ?].
  - destruct (v _ _); simpl; [|tauto]. split; [|by intros [_ ?]].
    intros H. by apply app_eq_nil in H as [_ ?].
Qed.

Lemma runItems_pass l f items st :
  (fold_left (runItem l f) items st).2 = [] <-> st.2 = [] /\ itemsPass l f st.1 items.
Proof.
  revert st. induction items as [|it items IH]; intros st; simpl; [tauto|].
  rewrite IH, runItem_request. destruct st as [req errs]. rewrite runItem_pass.
  simpl. tauto.
Qed.

Lemma runChain_pass st c :
  (runChain st c).2 = [] <-> st.2 = [] /\ chainPasses st.1 c.
Proof.
  unfold runChain, chainPasses. destruct (optional c && _); [tauto|].
  apply runItems_pass.
Qed.

Lemma runChains_pass chains st :
  (fold_left runChain chains st).2 = [] <-> st.2 = [] /\ chainsPass st.1 chains.
Proof.
  revert st. induction chains as [|c chains IH]; intros st; simpl; [tauto|].
  rewrite IH, runChain_request, runChain_pass. tauto.
Qed.

Lemma run_pass chains req : (run chains req).2 = [] <-> chainsPass req chains.
Proof. unfold run. rewrite runChains_pass. simpl. tauto. Qed.

Lemma isLength_spec `{Validatorjs} lo hi s :
  isLength lo (Some hi) s = true <-> (lo <= lengthOf s <= hi)%nat.
Proof.
  unfold isLength. rewrite andb_true_iff, !Nat.leb_le. tauto.
Qed.

Lemma isLength_min_spec `{Validatorjs} lo s :
  isLength lo None s = true <-> (lo <= lengthOf s)%nat.
Proof. unfold isLength. rewrite andb_true_r. apply Nat.leb_le. Qed.

Lemma lengthOf_nil `{Validatorjs} : lengthOf "" = 0%nat.
Proof. by rewrite lengthOf_ascii. Qed.

Lemma validateDepartment_spec value req :
  StudentRoutes.validateDepartment value req = None
  <-> (value = Some "custom" ->
       exists cd, body req !! "customDepartment" = Some cd
                  /\ (2 <= JS.length (JS.trim cd) <= 100)%nat).
Proof.
  unfold StudentRoutes.validateDepartment. case_bool_decide as Hv; [|tauto].
  destruct (body req !! "customDepartment") as [cd|].
  2: { split; [done|]. intros H. by destruct (H Hv) as (? & ? & _). }
  destruct (decide (2 <= JS.length (JS.trim cd) <= 100)%nat) as [Hlen|Hlen].
  - assert (Hne : cd <> "") by (intros ->; simpl in Hlen; lia).
    assert (Hnt : JS.trim cd <> "") by (intros Ht; rewrite Ht in Hlen; simpl in Hlen; lia).
    rewrite !bool_decide_eq_false_2 by done. simpl.
    destruct (Nat.ltb_spec (JS.length (JS.trim cd)) 2); [lia|].
    destruct (Nat.ltb_spec 100 (JS.length (JS.trim cd))); [lia|].
    split; [|done]. intros _ _. by exists cd.
  - split.
    + repeat case_bool_decide; simpl; try done.
      destruct (Nat.ltb_spec (JS.length (JS.trim cd)) 2); [done|].
      destruct (Nat.ltb_spec 100 (JS.length (JS.trim cd))); [done|]. lia.
    + intros H. destruct (H Hv) as (cd' & [= <-] & ?). done.
Qed.

End PassFacts.

Section PassTheorems.

Import ExpressValidator Express Conditions StudentRoutes AuthRoutes.

Context {RT : JsRuntime} {VJ : Validatorjs} {MS : Student.MongoServer} {BC : Bcryptjs}.

Lemma nonEmptyAll_notEmpty p s : nonEmptyAll p s = true -> notEmpty s = true.
Proof. by destruct s. Qed.

(** X1.  The student chains leave no error exactly when: the trimmed name
    has a length of 2 to 100, as validator's [isLength] counts it; the
    trimmed roll number is made of letters, digits and hyphens, at least
    one; the trimmed email is an email address; the trimmed department is
    not empty and, when it is ["custom"], the custom department is present
    with a trimmed length of 2 to 100 code units; and the gpa, as typed,
    is a float between 0 and 4.  The department has no upper bound on its
    length here.  Trimming takes every white-space character of the
    language away, U+00A0 included. *)
Theorem student_validation_passes req :
  (run studentValidators req).2 = []
  <-> ((2 <= lengthOf (JS.trim (toString (body req !! "name"))) <= 100)%nat
       /\ matchesRollNumber (JS.trim (toString (body req !! "rollNumber"))) = true
       /\ isEmail (JS.trim (toString (body req !! "email"))) = true
       /\ JS.trim (toString (body req !! "department")) <> ""
       /\ (JS.trim (toString (body req !! "department")) = "custom" ->
           exists cd, body req !! "customDepartment" = Some cd
                      /\ (2 <= JS.length (JS.trim cd) <= 100)%nat)
       /\ isFloat (JS.Finite 0) (JS.Finite 4) (toString (body req !! "gpa")) = true).
Proof.
  rewrite run_pass. unfold studentValidators.
  cbn [chainsPass chainPasses bodyChain optional andb stack location field itemsPass
       itemPasses sanitizeChain fold_left sanitizeItem fieldsAt setFieldsAt body].
  rewrite !lookup_insert_eq.
  rewrite !(lookup_insert_ne _ _ "rollNumber"), !(lookup_insert_ne _ _ "email"),
    !(lookup_insert_ne _ _ "department"), !(lookup_insert_ne _ _ "gpa") by done.
  cbn [toString default]. rewrite validateDepartment_spec. cbn [body].
  rewrite !(lookup_insert_ne _ _ "customDepartment") by done.
  rewrite isLength_spec, !notEmpty_spec.
  unfold id. split.
  - intros H. destruct_and!. split_and!; try done; try lia.
    intros Hcustom.
    match goal with H : Some _ = Some _ -> _ |- _ => apply H; by rewrite Hcustom end.
  - intros (Hn & Hr & He & Hd & Hc & Hg).
    split_and!; try done; try lia.
    + intros Hs. rewrite Hs, lengthOf_nil in Hn. lia.
    + intros Hs. by rewrite Hs in Hr.
    + intros [= Hcustom]. by apply Hc.
Qed.

(** X2.  The signup chains leave no error exactly when: the trimmed
    username has a length of 3 to 30, as validator's [isLength] counts it,
    and is made of letters, digits and underscores (for such a text the
    length is the number of characters); the trimmed email is an email
    address; the password, as typed, has a length of at least 6, counted
    the same way; and the confirmation is the same field value as the
    password (both present and equal).  Trimming takes every white-space
    character of the language away, U+00A0 included. *)
Theorem signup_validation_passes req :
  (run signupValidators req).2 = []
  <-> ((3 <= lengthOf (JS.trim (toString (body req !! "username"))) <= 30)%nat
       /\ matchesUsername (JS.trim (toString (body req !! "username"))) = true
       /\ isEmail (JS.trim (toString (body req !! "email"))) = true
       /\ (6 <= lengthOf (toString (body req !! "password")))%nat
       /\ body req !! "confirmPassword" = body req !! "password").
Proof.
  rewrite run_pass. unfold signupValidators.
  cbn [chainsPass chainPasses bodyChain optional andb stack location field itemsPass
       itemPasses sanitizeChain fold_left sanitizeItem fieldsAt setFieldsAt body].
  rewrite !lookup_insert_eq.
  rewrite !(lookup_insert_ne _ _ "email"), !(lookup_insert_ne _ _ "password"),
    !(lookup_insert_ne _ _ "confirmPassword") by done.
  cbn [toString default]. rewrite isLength_spec, isLength_min_spec.
  unfold confirmMismatch. cbn [body].
  rewrite !(lookup_insert_ne _ _ "password") by done.
  unfold id. case_bool_decide as Heq.
  - split; [intros H; by destruct_and!|]. intros (_ & _ & _ & _ & Hc). done.
  - split.
    + intros H. destruct_and!. split_and!; try done; lia.
    + intros (Hu & Hm & He & Hp & Hc). split_and!; try done; lia.
Qed.

End PassTheorems.

(** ** What the Student schema lets through *)

Section SchemaFacts.

Import Conditions.

Lemma toLowerChar_notUpper c : JS.isUpper (JS.toLowerChar c) = false.
Proof. destruct c as [[] [] [] [] [] [] [] []]; reflexivity. Qed.

Lemma toLowerChar_fixed c : JS.isUpper c = false -> JS.toLowerChar c = c.
Proof. unfold JS.toLowerChar. by intros ->. Qed.

Lemma toLowerCase_noUpper s :
  JS.forallb_string (fun c => negb (JS.isUpper c)) (JS.toLowerCase s) = true.
Proof.
  induction s as [|c s IH]; simpl; [done|]. by rewrite toLowerChar_notUpper, IH.
Qed.

Lemma toLowerCase_fixed s :
  JS.forallb_string (fun c => negb (JS.isUpper c)) s = true -> JS.toLowerCase s = s.
Proof.
  induction s as [|c s IH]; simpl; [done|].
  intros [Hc Hs]%andb_true_iff. apply negb_true_iff in Hc.
  by rewrite toLowerChar_fixed, IH.
Qed.

Lemma forallb_string_app p a b :
  JS.forallb_string p (a +:+ b) = JS.forallb_string p a && JS.forallb_string p b.
Proof.
  induction a as [|c a IH]; rewrite ?append_cons, ?append_nil; [done|].
  cbn [JS.forallb_string]. by rewrite IH, andb_assoc.
Qed.

Lemma trimStart_forallb p s :
  JS.forallb_string p s = true -> JS.forallb_string p (JS.trimStart s) = true.
Proof.
  induction s as [s IH] using whiteSpace_ind. intros Hs. rewrite trimStart_unfold.
  destruct (JS.whiteSpaceHead s) as [r|] eqn:Hr; [|done].
  apply IH; [done|]. apply whiteSpaceHead_suffix in Hr as (a & -> & _).
  rewrite forallb_string_app in Hs. by apply andb_true_iff in Hs as [_ ?].
Qed.

Lemma trimEnd_forallb p s :
  JS.forallb_string p s = true -> JS.forallb_string p (JS.trimEnd s) = true.
Proof.
  induction s as [|c s IH]; [done|]. cbn [JS.trimEnd].
  destruct (JS.isBlank (String c s)); [done|]. cbn [JS.forallb_string].
  intros [Hc Hs]%andb_true_iff. by rewrite Hc, IH.
Qed.

(** A trimmed lower-case text is in lower case. *)
Lemma trim_toLowerCase_fixed s :
  JS.toLowerCase (JS.trim (JS.toLowerCase s)) = JS.trim (JS.toLowerCase s).
Proof.
  apply toLowerCase_fixed. unfold JS.trim.
  apply trimEnd_forallb, trimStart_forallb, toLowerCase_noUpper.
Qed.

Lemma length_nil s : String.length s = 0%nat -> s = "".
Proof. by destruct s. Qed.

Lemma nameValidators_spec v :
  Mongoose.firstFailure Student.nameValidators v = None
  <-> exists s, v = Some s /\ (2 <= JS.length s <= 100)%nat.
Proof.
  unfold Student.nameValidators.
  cbn [Mongoose.firstFailure Mongoose.requiredString Mongoose.minlength Mongoose.maxlength].
  destruct v as [s|]; [|split; [intros [=]|by intros (? & ? & _)]].
  unfold Mongoose.requiredString, Mongoose.minlength, Mongoose.maxlength.
  destruct (Nat.eqb_spec (String.length s) 0) as [Hs|Hs]; cbn [negb].
  { split; [intros [=]|]. intros (? & [= <-] & Hlen).
    rewrite (length_nil _ Hs) in Hlen. cbn in Hlen. lia. }
  destruct (Nat.leb_spec 2 (JS.length s)).
  2: { split; [intros [=]|]. intros (? & [= <-] & ?). lia. }
  destruct (Nat.leb_spec (JS.length s) 100).
  - split; [|done]. intros _. by exists s.
  - split; [intros [=]|]. intros (? & [= <-] & ?). lia.
Qed.

Lemma departmentValidators_spec v :
  Mongoose.firstFailure Student.departmentValidators v = None
  <-> exists s, v = Some s /\ s <> "" /\ (JS.length s <= 100)%nat.
Proof.
  unfold Student.departmentValidators.
  cbn [Mongoose.firstFailure Mongoose.requiredString Mongoose.maxlength].
  destruct v as [s|]; [|split; [intros [=]|by intros (? & ? & _)]].
  unfold Mongoose.requiredString, Mongoose.minlength, Mongoose.maxlength.
  destruct (Nat.eqb_spec (String.length s) 0) as [Hs|Hs]; cbn [negb].
  { split; [intros [=]|]. intros (? & [= <-] & Hne & _).
    by apply length_nil in Hs. }
  destruct (Nat.leb_spec (JS.length s) 100).
  - split; [|done]. intros _. exists s. split; [done|]. split; [|lia].
    by intros ->.
  - split; [intros [=]|]. intros (? & [= <-] & _ & ?). lia.
Qed.

Lemma requiredMatch_spec (re : string -> bool) (m1 m2 : string) v :
  re "" = false ->
  Mongoose.firstFailure [(Mongoose.requiredString, m1); (Mongoose.matchOf re, m2)] v = None
  <-> exists s, v = Some s /\ re s = true.
Proof.
  intros Hempty. cbn [Mongoose.firstFailure].
  destruct v as [s|]; [|split; [intros [=]|by intros (? & ? & _)]].
  unfold Mongoose.requiredString, Mongoose.matchOf.
  destruct (Nat.eqb_spec (String.length s) 0) as [Hs|Hs]; cbn [negb].
  { split; [intros [=]|]. intros (? & [= <-] & Hre).
    destruct s; [congruence|done]. }
  destruct (re s) eqn:Hm.
  - split; [|done]. intros _. by exists s.
  - split; [intros [=]|]. intros (? & [= <-] & ?). congruence.
Qed.

Lemma rollNumberValidators_spec v :
  Mongoose.firstFailure Student.rollNumberValidators v = None
  <-> exists s, v = Some s /\ ExpressValidator.matchesRollNumber s = true.
Proof. by apply requiredMatch_spec. Qed.

Lemma emailValidators_spec v :
  Mongoose.firstFailure Student.emailValidators v = None
  <-> exists s, v = Some s /\ Mongoose.emailRegex s = true.
Proof. by apply requiredMatch_spec. Qed.

Lemma pathErrors_nil p :
  Student.pathErrors p = []
  <-> Mongoose.firstFailure Student.nameValidators (Student.p_name p) = None
      /\ Mongoose.firstFailure Student.rollNumberValidators (Student.p_rollNumber p) = None
      /\ Mongoose.firstFailure Student.emailValidators (Student.p_email p) = None
      /\ Mongoose.firstFailure Student.departmentValidators (Student.p_department p) = None
      /\ Mongoose.firstFailure Student.gpaValidators (Student.p_gpa p) = None.
Proof.
  unfold Student.pathErrors.
  destruct (Mongoose.firstFailure Student.nameValidators _),
    (Mongoose.firstFailure Student.rollNumberValidators _),
    (Mongoose.firstFailure Student.emailValidators _),
    (Mongoose.firstFailure Student.departmentValidators _),
    (Mongoose.firstFailure Student.gpaValidators _); simpl;
    (split; [try done|try (by intros (? & ? & ? & ? & ?))]).
Qed.

Lemma validate_inr p p' :
  Student.validate p = inr p' <-> p' = Student.applySetters p /\ Student.pathErrors p' = [].
Proof.
  unfold Student.validate.
  destruct (Student.pathErrors (Student.applySetters p)) eqn:He.
  - split; [by intros [= <-]|by intros [-> _]].
  - split; [done|]. intros [-> H]. congruence.
Qed.

(** What passes schema validation meets the schema, whatever id and
    timestamps it is stored under. *)
Lemma validate_meetsSchema p p' oid created updated :
  Student.validate p = inr p' -> meetsSchema (Student.ofPaths oid created updated p').
Proof.
  intros [-> Herr]%validate_inr.
  apply pathErrors_nil in Herr as (Hn & Hr & He & Hd & Hg).
  apply nameValidators_spec in Hn as (n & Hn & Hnl).
  apply rollNumberValidators_spec in Hr as (r & Hr & Hrm).
  apply emailValidators_spec in He as (e & He & Hem).
  apply departmentValidators_spec in Hd as (d & Hd & Hdne & Hdl).
  apply gpaValidators_spec in Hg.
  unfold meetsSchema, Student.ofPaths.
  cbn [Student.name Student.rollNumber Student.email Student.department Student.gpa].
  rewrite Hn, Hr, He, Hd. cbn [default]. unfold id.
  cbn [Student.applySetters Student.p_name Student.p_rollNumber Student.p_department] in *.
  destruct (Student.p_name p) as [n0|]; [|done]. injection Hn as <-.
  destruct (Student.p_rollNumber p) as [r0|]; [|done]. injection Hr as <-.
  destruct (Student.p_department p) as [d0|]; [|done]. injection Hd as <-.
  split_and!; try done; try lia; try apply trim_idemp.
  apply trim_toLowerCase_fixed.
Qed.

End SchemaFacts.

(** ** What the student routes do to the collection *)

Section StoreFacts.

Import ExpressValidator Express Conditions StudentRoutes.

Context {RT : JsRuntime} {VJ : Validatorjs} {MS : Student.MongoServer}.

(** The replacement [findByIdAndUpdate] makes in the collection. *)
Definition replaceById (oid : string) (d : Student.Doc) (store : Student.Store)
    : Student.Store :=
  map (fun x => if bool_decide (Student._id x = oid) then d else x) store.

(** Create either leaves the collection alone or appends one document
    that passed the schema and the unique indexes. *)
Lemma createStudent_outcome env store req :
  (createStudent env store req).1 = store
  \/ exists p p',
       Student.validate p = inr p'
       /\ Student.duplicate store None p' = None
       /\ createStudent env store req
          = (store ++ [Student.ofPaths (Student.freshId env) (Student.now env)
                         (Student.now env) p'],
             Redirect "/students?msg=created").
Proof.
  unfold createStudent. destruct (run studentValidators req) as [req' errors].
  destruct (negb (isEmpty errors)); [by left|].
  unfold Student.save.
  destruct (Student.validate (studentPaths (body req'))) as [e|p'] eqn:Hv.
  { left. by destruct e. }
  destruct (Student.duplicate store None p') eqn:Hd; [by left|].
  right. by exists (studentPaths (body req')), p'.
Qed.

(** Update either leaves the collection alone or replaces the document of
    the id by one with the same id and creation time that passed the
    schema and the unique indexes. *)
Lemma updateStudent_outcome env store id req :
  (updateStudent env store id req).1 = store
  \/ exists oid p p' old,
       Mongoose.castObjectId id = inr oid
       /\ Student.validate p = inr p'
       /\ old ∈ store /\ Student._id old = oid
       /\ Student.duplicate store (Some oid) p' = None
       /\ updateStudent env store id req
          = (replaceById oid (Student.ofPaths oid (Student.createdAt old)
                                (Student.now env) p') store,
             Redirect ("/students/" +:+ oid +:+ "?msg=updated")).
Proof.
  unfold updateStudent.
  assert (Hid : toString
                  (params (run (paramChain "id" [StandardValidation isMongoId invalidValue]
                                  :: studentValidators) (withId id req)).1 !! "id") = id).
  { change (run (?c :: studentValidators) ?r)
      with (fold_left runChain studentValidators (runChain (r, []) c)).
    rewrite studentValidators_params, runChain_request.
    change (toString (({[ "id" := id ]} : gmap string string) !! "id") = id).
    by rewrite lookup_singleton_eq. }
  destruct (run _ (withId id req)) as [req' errors]. cbn [fst] in Hid. rewrite Hid.
  destruct (negb (isEmpty errors)); [by left|].
  unfold Student.findByIdAndUpdate.
  destruct (Mongoose.castObjectId _) as [e|oid] eqn:Hc; [left; by destruct e|].
  destruct (Student.validate (studentPaths (body req'))) as [e|p'] eqn:Hv.
  { left. by destruct e. }
  destruct (List.find _ store) as [old|] eqn:Hf; [|by left].
  destruct (Student.duplicate store (Some oid) p') eqn:Hd; [by left|].
  right. apply find_some in Hf as [Hin Hold]. apply bool_decide_eq_true in Hold.
  exists oid, (studentPaths (body req')), p', old.
  split_and!; try done. by apply list_elem_of_In.
Qed.

Lemma deleteStudent_outcome store id :
  (deleteStudent store id).1 = store
  \/ exists oid, Mongoose.castObjectId id = inr oid
       /\ deleteStudent store id
          = (filter (fun d => Student._id d <> oid) store, Redirect "/students?msg=deleted").
Proof.
  unfold deleteStudent, Student.findByIdAndDelete.
  destruct (Mongoose.castObjectId id) as [e|oid]; [by left|]. right. by exists oid.
Qed.

(** The unique indexes let a write through only when no other document
    has the roll number or the email. *)
Lemma duplicate_none store self p :
  Student.duplicate store self p = None ->
  forall d, d ∈ store -> Some (Student._id d) <> self ->
            Some (Student.rollNumber d) <> Student.p_rollNumber p
            /\ Some (Student.email d) <> Student.p_email p.
Proof.
  unfold Student.duplicate. intros Hdup d Hd Hself.
  repeat case_bool_decide; try done.
  split; intros Heq;
    match goal with H : ~ Exists _ _ |- _ =>
      apply H, Exists_exists; exists d; split; [by apply list_elem_of_filter|done] end.
Qed.

Lemma duplicate_some store self p k :
  Student.duplicate store self p = Some k -> k = "rollNumber" \/ k = "email".
Proof.
  unfold Student.duplicate. repeat case_bool_decide; intros [= <-]; auto.
Qed.

Lemma replaceById_cons oid d x store :
  replaceById oid d (x :: store)
  = (if bool_decide (Student._id x = oid) then d else x) :: replaceById oid d store.
Proof. reflexivity. Qed.

Lemma replaceById_absent oid d store :
  (forall x, x ∈ store -> Student._id x <> oid) -> replaceById oid d store = store.
Proof.
  induction store as [|x store IH]; intros Habs; [done|].
  rewrite replaceById_cons, bool_decide_eq_false_2 by (apply Habs; left).
  f_equal. apply IH. intros y Hy. apply Habs. by right.
Qed.

Lemma replaceById_ids oid d store :
  Student._id d = oid -> Student._id <$> replaceById oid d store = Student._id <$> store.
Proof.
  intros Hd. induction store as [|x store IH]; [done|].
  rewrite replaceById_cons. cbn [fmap list_fmap]. rewrite IH. f_equal.
  case_bool_decide; congruence.
Qed.

Lemma elem_of_replaceById oid d store y :
  y ∈ replaceById oid d store -> y = d \/ (y ∈ store /\ Student._id y <> oid).
Proof.
  induction store as [|x store IH]; [by intros ?%elem_of_nil|].
  rewrite replaceById_cons. intros [->|Hy]%elem_of_cons.
  - case_bool_decide; [by left|]. right. split; [left|done].
  - destruct (IH Hy) as [?|[? ?]]; [by left|]. right. split; [by right|done].
Qed.

(** Replacing the document of an id keeps a field free of duplicates when
    the new value is not that of another document. *)
Lemma NoDup_replaceById {B} (f : Student.Doc -> B) oid d store :
  NoDup (Student._id <$> store) -> NoDup (f <$> store) ->
  (forall x, x ∈ store -> Student._id x <> oid -> f x <> f d) ->
  NoDup (f <$> replaceById oid d store).
Proof.
  induction store as [|x store IH]; [done|].
  cbn [fmap list_fmap]. rewrite !NoDup_cons.
  intros [Hid Hids] [Hf Hfs] Hother.
  rewrite replaceById_cons.
  cbn [fmap list_fmap]. rewrite NoDup_cons. case_bool_decide as Hx.
  - rewrite replaceById_absent.
    + split; [|done]. intros (y & Hy & Hin)%list_elem_of_fmap.
      apply (Hother y); [by right| |done].
      intros Hyid. apply Hid. apply list_elem_of_fmap. exists y. split; [congruence|done].
    + intros y Hy Hyid. apply Hid. apply list_elem_of_fmap. exists y.
      split; [congruence|done].
  - split.
    + intros (y & Hy & Hin)%list_elem_of_fmap.
      apply elem_of_replaceById in Hin as [->|[Hin Hyid]].
      * apply (Hother x); [left|done|done].
      * apply Hf. apply list_elem_of_fmap. by exists y.
    + apply IH; [done|done|]. intros y Hy. apply Hother. by right.
Qed.

Lemma NoDup_fmap_filter {A B} (f : A -> B) (P : A -> Prop) `{!forall x, Decision (P x)}
    (l : list A) :
  NoDup (f <$> l) -> NoDup (f <$> filter P l).
Proof.
  induction l as [|x l IH]; [done|]. cbn [fmap list_fmap]. rewrite NoDup_cons.
  intros [Hx Hl]. rewrite filter_cons. case_decide; [|by apply IH].
  cbn [fmap list_fmap]. rewrite NoDup_cons. split; [|by apply IH].
  intros (y & Hy & Hin)%list_elem_of_fmap. apply Hx.
  apply list_elem_of_fmap. exists y. split; [done|].
  by apply list_elem_of_filter in Hin as [_ ?].
Qed.

End StoreFacts.

Section StoreInvariants.

Import ExpressValidator Express Conditions StudentRoutes.

Context {RT : JsRuntime} {VJ : Validatorjs} {MS : Student.MongoServer}.

(** X3.  The schema is enforced on every write, whatever the request
    validators accepted: if every stored student meets the rules of the
    schema (name of 2 to 100 code units, trimmed; roll number of letters,
    digits and hyphens, in lower case; email of the schema's pattern;
    department not empty, of at most 100 code units, trimmed; gpa a number
    from 0 to 4), then so does every student after a create, an update or
    a delete.  A character of one to three bytes is one code unit, so a
    name of forty such characters meets the schema whatever its bytes. *)
Theorem stored_students_meet_schema env store id req :
  Forall meetsSchema store ->
  Forall meetsSchema (createStudent env store req).1
  /\ Forall meetsSchema (updateStudent env store id req).1
  /\ Forall meetsSchema (deleteStudent store id).1.
Proof.
  intros Hall. split; [|split].
  - destruct (createStudent_outcome env store req) as [->|(p & p' & Hv & _ & ->)]; [done|].
    cbn [fst]. apply Forall_app. split; [done|].
    apply Forall_cons. split; [|constructor]. by eapply validate_meetsSchema.
  - destruct (updateStudent_outcome env store id req)
      as [->|(oid & p & p' & old & _ & Hv & _ & _ & _ & ->)]; [done|].
    cbn [fst]. apply Forall_forall. intros y Hy.
    apply elem_of_replaceById in Hy as [->|[Hy _]].
    + by eapply validate_meetsSchema.
    + by eapply Forall_forall in Hall.
  - destruct (deleteStudent_outcome store id) as [->|(oid & _ & ->)]; [done|].
    cbn [fst]. apply Forall_forall. intros y [_ Hy]%list_elem_of_filter.
    by eapply Forall_forall in Hall.
Qed.

(** X4.  Ids, roll numbers and emails stay distinct: if no two stored
    students share an id, a roll number or an email, the same holds after
    an update or a delete, and after a create provided the id the server
    generates is not in use. *)
Theorem student_uniqueness_kept env store id req :
  uniqueStudents store ->
  (Student.freshId env ∉ Student._id <$> store ->
   uniqueStudents (createStudent env store req).1)
  /\ uniqueStudents (updateStudent env store id req).1
  /\ uniqueStudents (deleteStudent store id).1.
Proof.
  intros (Hids & Hrolls & Hemails). split; [|split].
  - intros Hfresh.
    destruct (createStudent_outcome env store req) as [->|(p & p' & Hv & Hd & ->)]; [done|].
    cbn [fst]. pose proof (duplicate_none _ _ _ Hd) as Hother.
    apply validate_inr in Hv as [_ Herr].
    apply pathErrors_nil in Herr as (_ & Hr & He & _).
    apply rollNumberValidators_spec in Hr as (r & Hr & _).
    apply emailValidators_spec in He as (e & He & _).
    unfold uniqueStudents. rewrite !fmap_app, !NoDup_app. cbn [fmap list_fmap].
    split_and!; try done; try apply NoDup_singleton.
    + intros x Hx ->%list_elem_of_singleton. done.
    + intros x (y & -> & Hy)%list_elem_of_fmap Hin%list_elem_of_singleton.
      destruct (Hother y Hy) as [Hne _]; [done|]. apply Hne.
      rewrite Hr. f_equal. rewrite Hin. cbn. by rewrite Hr.
    + intros x (y & -> & Hy)%list_elem_of_fmap Hin%list_elem_of_singleton.
      destruct (Hother y Hy) as [_ Hne]; [done|]. apply Hne.
      rewrite He. f_equal. rewrite Hin. cbn. by rewrite He.
  - destruct (updateStudent_outcome env store id req)
      as [->|(oid & p & p' & old & _ & Hv & _ & _ & Hd & ->)]; [done|].
    cbn [fst]. pose proof (duplicate_none _ _ _ Hd) as Hother.
    apply validate_inr in Hv as [_ Herr].
    apply pathErrors_nil in Herr as (_ & Hr & He & _).
    apply rollNumberValidators_spec in Hr as (r & Hr & _).
    apply emailValidators_spec in He as (e & He & _).
    split; [|split].
    + by rewrite replaceById_ids.
    + apply NoDup_replaceById; [done|done|]. intros x Hx Hxid Heq.
      destruct (Hother x Hx) as [Hne _]; [congruence|]. apply Hne.
      rewrite Hr. f_equal. rewrite Heq. cbn. by rewrite Hr.
    + apply NoDup_replaceById; [done|done|]. intros x Hx Hxid Heq.
      destruct (Hother x Hx) as [_ Hne]; [congruence|]. apply Hne.
      rewrite He. f_equal. rewrite Heq. cbn. by rewrite He.
  - destruct (deleteStudent_outcome store id) as [->|(oid & _ & ->)]; [done|].
    cbn [fst]. split_and!; by apply NoDup_fmap_filter.
Qed.

End StoreInvariants.

(** ** Conflicts, unknown ids and malformed ids *)

Section StudentRouteFacts.

Import ExpressValidator Express Conditions StudentRoutes StudentPages.

Context {RT : JsRuntime} {VJ : Validatorjs} {MS : Student.MongoServer}.

Lemma createStudent_redirect env store req store' url :
  createStudent env store req = (store', Redirect url) ->
  (run studentValidators req).2 = []
  /\ exists p',
       Student.validate (studentPaths (body (run studentValidators req).1)) = inr p'
       /\ Student.duplicate store None p' = None
       /\ store' = store ++ [Student.ofPaths (Student.freshId env) (Student.now env)
                               (Student.now env) p']
       /\ url = "/students?msg=created".
Proof.
  unfold createStudent. destruct (run studentValidators req) as [req' errors].
  destruct errors; [|done]. cbn [isEmpty negb fst snd]. unfold Student.save.
  destruct (Student.validate _) as [e|p'] eqn:Hv; [by destruct e|].
  destruct (Student.duplicate store None p') eqn:Hd; [done|].
  intros [= <- <-]. split; [done|]. by exists p'.
Qed.

Lemma find_id_app store d oid :
  (forall x, x ∈ store -> Student._id x <> oid) -> Student._id d = oid ->
  List.find (fun x => bool_decide (Student._id x = oid)) (store ++ [d]) = Some d.
Proof.
  intros Habs Hd. induction store as [|x store IH]; simpl.
  - by rewrite bool_decide_eq_true_2.
  - rewrite bool_decide_eq_false_2 by (apply Habs; left).
    apply IH. intros y Hy. apply Habs. by right.
Qed.

Lemma find_id_none store oid :
  (forall x, x ∈ store -> Student._id x <> oid) ->
  List.find (fun x => bool_decide (Student._id x = oid)) store = None.
Proof.
  intros Habs. induction store as [|x store IH]; simpl; [done|].
  rewrite bool_decide_eq_false_2 by (apply Habs; left).
  apply IH. intros y Hy. apply Habs. by right.
Qed.

Lemma castObjectId_valid id :
  Mongoose.isObjectIdString id = true -> Mongoose.castObjectId id = inr (JS.toLowerCase id).
Proof. unfold Mongoose.castObjectId. by intros ->. Qed.

Lemma castObjectId_invalid id :
  Mongoose.isObjectIdString id = false ->
  Mongoose.castObjectId id = inl (Mongoose.CastError "_id").
Proof. unfold Mongoose.castObjectId. by intros ->. Qed.

End StudentRouteFacts.

Section StudentRouteTheorems.

Import ExpressValidator Express Conditions StudentRoutes StudentPages.

Context {RT : JsRuntime} {VJ : Validatorjs} {MS : Student.MongoServer}.

(** The paths the create and update handlers build from a request. *)
Lemma studentPaths_run st :
  let b := body (fold_left runChain studentValidators st).1 in
  Student.p_name (studentPaths b) = Some (JS.trim (toString (body st.1 !! "name")))
  /\ Student.p_rollNumber (studentPaths b)
     = Some (JS.trim (toString (body st.1 !! "rollNumber")))
  /\ Student.p_email (studentPaths b)
     = Some (JS.trim (normalizeEmail (JS.trim (toString (body st.1 !! "email")))))
  /\ Student.p_gpa (studentPaths b) = Number_ (body st.1 !! "gpa")
  /\ (JS.trim (toString (body st.1 !! "department")) <> "custom" ->
      Student.p_department (studentPaths b)
      = Some (JS.trim (toString (body st.1 !! "department")))).
Proof.
  intros b. unfold b. rewrite studentValidators_body.
  unfold studentPaths, departmentValue, sanitizeString.
  cbn [Student.p_name Student.p_rollNumber Student.p_email Student.p_gpa
       Student.p_department].
  rewrite !lookup_insert_eq.
  rewrite !(lookup_insert_ne _ _ "name"), !(lookup_insert_ne _ _ "rollNumber"),
    !(lookup_insert_ne _ _ "email"), !(lookup_insert_ne _ _ "gpa") by done.
  rewrite !lookup_insert_eq. cbn [fmap option_fmap option_map].
  rewrite !trim_idemp. split_and!; try done.
  intros Hcustom. rewrite bool_decide_eq_false_2 by congruence. done.
Qed.

(** X5.  A create request that passes both validations but whose roll
    number, trimmed and in lower case, is that of a stored student is
    answered 409 with "rollNumber must be unique" and the form, and
    nothing is stored; so roll numbers that differ only in case collide.
    When no roll number collides but the email, trimmed, normalized and in
    lower case, is that of a stored student, the answer is 409 with "email
    must be unique". *)
Theorem duplicate_key_conflict env store req p' d0 :
  (run studentValidators req).2 = [] ->
  Student.validate (studentPaths (body (run studentValidators req).1)) = inr p' ->
  d0 ∈ store ->
  let roll := JS.trim (JS.toLowerCase (JS.trim (toString (body req !! "rollNumber")))) in
  let email :=
    JS.trim (JS.toLowerCase
               (JS.trim (normalizeEmail (JS.trim (toString (body req !! "email")))))) in
  let conflict (k : string) :=
    (store, Render 409 "addStudent"
              (FormLocals "Add Student" [ {| msg := k +:+ " must be unique"; path := None |} ]
                 (body (run studentValidators req).1))) in
  (Student.rollNumber d0 = roll -> createStudent env store req = conflict "rollNumber")
  /\ ((forall x, x ∈ store -> Student.rollNumber x <> roll) ->
      Student.email d0 = email -> createStudent env store req = conflict "email").
Proof.
  intros Hnil Hv Hd0 roll email conflict.
  destruct (studentPaths_run (req, [])) as (_ & Hr & He & _).
  change (fold_left runChain studentValidators (req, []))
    with (run studentValidators req) in Hr, He.
  pose proof Hv as [Hp' _]%validate_inr.
  assert (Hroll : Student.p_rollNumber p' = Some roll).
  { rewrite Hp'. cbn [Student.applySetters Student.p_rollNumber]. by rewrite Hr. }
  assert (Hemail : Student.p_email p' = Some email).
  { rewrite Hp'. cbn [Student.applySetters Student.p_email]. by rewrite He. }
  unfold createStudent, conflict.
  destruct (run studentValidators req) as [req' errors]. cbn [fst snd] in *. subst errors.
  cbn [isEmpty negb]. unfold Student.save. rewrite Hv.
  unfold Student.duplicate.
  rewrite (filter_all (fun d => Some (Student._id d) <> None) store) by done.
  rewrite Hroll, Hemail.
  split.
  - intros Hsame. rewrite bool_decide_eq_true_2; [done|].
    apply Exists_exists. exists d0. split; [done|congruence].
  - intros Hfree Hsame. rewrite bool_decide_eq_false_2.
    + rewrite bool_decide_eq_true_2; [done|].
      apply Exists_exists. exists d0. split; [done|congruence].
    + intros (x & Hx & [= Heq])%Exists_exists. by apply (Hfree x).
Qed.

Lemma updateStudent_redirect env store id req store' url :
  updateStudent env store id req = (store', Redirect url) ->
  exists oid p' old,
    Mongoose.castObjectId id = inr oid
    /\ Student.validate
         (studentPaths
            (body (run (paramChain "id" [StandardValidation isMongoId invalidValue]
                          :: studentValidators) (withId id req)).1)) = inr p'
    /\ old ∈ store /\ Student._id old = oid
    /\ store' = replaceById oid (Student.ofPaths oid (Student.createdAt old)
                                   (Student.now env) p') store
    /\ url = "/students/" +:+ oid +:+ "?msg=updated".
Proof.
  unfold updateStudent.
  assert (Hid : toString
                  (params (run (paramChain "id" [StandardValidation isMongoId invalidValue]
                                  :: studentValidators) (withId id req)).1 !! "id") = id).
  { change (run (?c :: studentValidators) ?r)
      with (fold_left runChain studentValidators (runChain (r, []) c)).
    rewrite studentValidators_params, runChain_request.
    change (toString (({[ "id" := id ]} : gmap string string) !! "id") = id).
    by rewrite lookup_singleton_eq. }
  destruct (run _ (withId id req)) as [req' errors]. cbn [fst] in *. rewrite Hid.
  destruct (negb (isEmpty errors)); [done|].
  unfold Student.findByIdAndUpdate.
  destruct (Mongoose.castObjectId id) as [e|oid] eqn:Hc; [by destruct e|].
  destruct (Student.validate (studentPaths (body req'))) as [e|p'] eqn:Hv; [by destruct e|].
  destruct (List.find _ store) as [old|] eqn:Hf; [|done].
  destruct (Student.duplicate store (Some oid) p') eqn:Hd; [done|].
  intros [= <- <-]. apply find_some in Hf as [Hin Hold]. apply bool_decide_eq_true in Hold.
  exists oid, p', old. split_and!; try done. by apply list_elem_of_In.
Qed.

(** X6.  An update that succeeds changes exactly one student: the one
    whose id is the request's id.  It keeps the id and the creation time,
    sets the update time to the time of the write, meets the schema, and
    every other student is in the collection as before; the number of
    students is the same and the redirect leads to the student's page. *)
Theorem update_changes_one_student env store id req store' url :
  updateStudent env store id req = (store', Redirect url) ->
  exists old d,
    Mongoose.isObjectIdString id = true
    /\ old ∈ store /\ Student._id old = JS.toLowerCase id
    /\ d ∈ store' /\ Student._id d = Student._id old
    /\ Student.createdAt d = Student.createdAt old
    /\ Student.updatedAt d = Student.now env
    /\ meetsSchema d
    /\ url = "/students/" +:+ Student._id d +:+ "?msg=updated"
    /\ length store' = length store
    /\ (forall x, x ∈ store -> Student._id x <> Student._id old -> x ∈ store')
    /\ (forall y, y ∈ store' -> y = d \/ (y ∈ store /\ Student._id y <> Student._id old)).
Proof.
  intros (oid & p' & old & Hc & Hv & Hold & Hid & -> & ->)%updateStudent_redirect.
  assert (Hvalid : Mongoose.isObjectIdString id = true).
  { unfold Mongoose.castObjectId in Hc. by destruct (Mongoose.isObjectIdString id). }
  rewrite (castObjectId_valid _ Hvalid) in Hc. injection Hc as <-.
  - set (d := Student.ofPaths _ _ _ p').
    exists old, d. split_and!; try done.
    + unfold replaceById. apply list_elem_of_In, in_map_iff. exists old.
      split; [by rewrite bool_decide_eq_true_2|by apply list_elem_of_In].
    + by eapply validate_meetsSchema.
    + unfold replaceById. by rewrite length_map.
    + intros x Hx Hxid. unfold replaceById. apply list_elem_of_In, in_map_iff.
      exists x. split; [by rewrite bool_decide_eq_false_2 by congruence|
                        by apply list_elem_of_In].
    + intros y Hy. apply elem_of_replaceById in Hy as [?|[? ?]]; [by left|].
      right. split; [done|congruence].
Qed.

End StudentRouteTheorems.

Section DetailRouteTheorems.

Import ExpressValidator Express Conditions StudentRoutes StudentPages.

Context {RT : JsRuntime} {VJ : Validatorjs} {MS : Student.MongoServer}.

(** X7.  A student that was just created is found under the generated id
    (the text of an ObjectId in lower case, not in use before): the detail
    route shows it and the edit route fills the form with it, and its
    fields are the submitted ones normalized: name and roll number
    trimmed, roll number and email in lower case, email normalized, gpa
    converted to a number, the department trimmed when it is not the
    ["custom"] sentinel, both timestamps the time of the write.  Trimmed
    means that every white-space character of the language is taken from
    both ends, U+00A0 included. *)
Theorem created_student_is_shown env store req store' query :
  createStudent env store req = (store', Redirect "/students?msg=created") ->
  Mongoose.castObjectId (Student.freshId env) = inr (Student.freshId env) ->
  Student.freshId env ∉ Student._id <$> store ->
  exists d,
    showStudent store' (Student.freshId env) query = Details d (orElse (query !! "msg") "")
    /\ editStudent store' (Student.freshId env) = EditForm d
    /\ Student._id d = Student.freshId env
    /\ Student.name d = JS.trim (toString (body req !! "name"))
    /\ Student.rollNumber d
       = JS.trim (JS.toLowerCase (JS.trim (toString (body req !! "rollNumber"))))
    /\ Student.email d
       = JS.trim (JS.toLowerCase
                    (JS.trim (normalizeEmail (JS.trim (toString (body req !! "email"))))))
    /\ Student.gpa d = Number_ (body req !! "gpa")
    /\ (JS.trim (toString (body req !! "department")) <> "custom" ->
        Student.department d = JS.trim (toString (body req !! "department")))
    /\ Student.createdAt d = Student.now env
    /\ Student.updatedAt d = Student.now env.
Proof.
  intros (Hnil & p' & Hv & _ & -> & _)%createStudent_redirect Hcast Hfresh.
  destruct (studentPaths_run (req, [])) as (Hn & Hr & He & Hg & Hd).
  change (fold_left runChain studentValidators (req, []))
    with (run studentValidators req) in Hn, Hr, He, Hg, Hd. cbn [fst] in *.
  apply validate_inr in Hv as [-> _].
  set (d := Student.ofPaths _ _ _ _).
  assert (Hfind : List.find (fun x => bool_decide (Student._id x = Student.freshId env))
                    (store ++ [d]) = Some d).
  { apply find_id_app; [|done]. intros x Hx Heq. apply Hfresh.
    apply list_elem_of_fmap. by exists x. }
  exists d. unfold showStudent, editStudent, Student.findById. rewrite Hcast, Hfind.
  unfold d, Student.ofPaths.
  cbn [Student._id Student.name Student.rollNumber Student.email Student.gpa
       Student.department Student.createdAt Student.updatedAt Student.applySetters
       Student.p_name Student.p_rollNumber Student.p_email Student.p_gpa
       Student.p_department].
  rewrite Hn, Hr, He, Hg. cbn [fmap option_fmap option_map default].
  rewrite !trim_idemp. split_and!; try done.
  intros Hcustom. rewrite (Hd Hcustom). cbn. apply trim_idemp.
Qed.

(** X8.  An id with the syntax of an ObjectId that no student has is not
    an error: the detail and edit routes answer 404 with the "Student not
    found" page, and so does an update whose request passes both
    validations, without changing the collection.  After a delete the
    detail and edit routes answer 404 for the deleted id. *)
Theorem unknown_id_not_found store id :
  Mongoose.isObjectIdString id = true ->
  ((forall x, x ∈ store -> Student._id x <> JS.toLowerCase id) ->
   (forall query, showStudent store id query = Other notFound)
   /\ editStudent store id = Other notFound
   /\ (forall env req p',
         (run (paramChain "id" [StandardValidation isMongoId invalidValue]
                 :: studentValidators) (withId id req)).2 = [] ->
         Student.validate
           (studentPaths
              (body (run (paramChain "id" [StandardValidation isMongoId invalidValue]
                            :: studentValidators) (withId id req)).1)) = inr p' ->
         updateStudent env store id req = (store, notFound)))
  /\ (forall query, showStudent (deleteStudent store id).1 id query = Other notFound)
  /\ editStudent (deleteStudent store id).1 id = Other notFound.
Proof.
  intros Hid.
  assert (Hshow : forall s, (forall x, x ∈ s -> Student._id x <> JS.toLowerCase id) ->
                            Student.findById s id = inr None).
  { intros s Habs. unfold Student.findById. rewrite (castObjectId_valid _ Hid).
    by rewrite find_id_none. }
  assert (Hgone : forall x, x ∈ (deleteStudent store id).1 ->
                            Student._id x <> JS.toLowerCase id).
  { unfold deleteStudent, Student.findByIdAndDelete.
    rewrite (castObjectId_valid _ Hid). cbn [fst].
    by intros x [? _]%list_elem_of_filter. }
  split; [|split].
  - intros Habs. split; [|split].
    + intros query. unfold showStudent. by rewrite Hshow.
    + unfold editStudent. by rewrite Hshow.
    + intros env req p' Hnil Hv. unfold updateStudent.
      assert (Hparam : toString
                (params (run (paramChain "id" [StandardValidation isMongoId invalidValue]
                                :: studentValidators) (withId id req)).1 !! "id") = id).
      { change (run (?c :: studentValidators) ?r)
          with (fold_left runChain studentValidators (runChain (r, []) c)).
        rewrite studentValidators_params, runChain_request.
        change (toString (({[ "id" := id ]} : gmap string string) !! "id") = id).
        by rewrite lookup_singleton_eq. }
      destruct (run _ (withId id req)) as [req' errors]. cbn [fst snd] in *.
      subst errors. rewrite Hparam. cbn [isEmpty negb].
      unfold Student.findByIdAndUpdate.
      rewrite (castObjectId_valid _ Hid), Hv. by rewrite find_id_none.
  - intros query. unfold showStudent. by rewrite Hshow.
  - unfold editStudent. by rewrite Hshow.
Qed.

(** X9.  An id that does not have the syntax of an ObjectId is handled in
    two ways.  The detail, edit and delete routes ignore their own
    [isMongoId] check, so the model's cast error reaches the error
    handler: the client gets status 500 with the generic message, as a
    page or as JSON, never the message of the error, and the collection is
    unchanged.  The update route reads its validation result: when
    [isMongoId] refuses the id the answer is 422 and the first error is
    "Invalid value" for [id].  Ids of twelve characters are left out: some
    versions of the driver read them as the twelve bytes of an ObjectId. *)
Theorem malformed_id_answers store id :
  Mongoose.isObjectIdString id = false ->
  String.length id <> 12%nat ->
  let generic (acceptsHtml : bool) :=
    if acceptsHtml
    then Server.Html 500 "error" (ErrorLocals "Error" "An unexpected error occurred." 500)
    else Server.Json 500 "An unexpected error occurred." in
  (forall describe acceptsHtml,
      deleteStudent store id = (store, Next (Mongoose.CastError "_id"))
      /\ Server.finish describe acceptsHtml (deleteStudent store id).2
         = Server.Handled (generic acceptsHtml))
  /\ (forall query, showStudent store id query = Other (Next (Mongoose.CastError "_id")))
  /\ editStudent store id = Other (Next (Mongoose.CastError "_id"))
  /\ (forall env req,
        isMongoId id = false ->
        exists errors,
          (run (paramChain "id" [StandardValidation isMongoId invalidValue]
                  :: studentValidators) (withId id req)).2
          = {| msg := "Invalid value"; path := Some "id" |} :: errors
          /\ (updateStudent env store id req).1 = store
          /\ statusOf (updateStudent env store id req).2 = Some 422
          /\ errorsOf (updateStudent env store id req).2
             = {| msg := "Invalid value"; path := Some "id" |} :: errors).
Proof.
  intros Hid _ generic.
  assert (Hdel : deleteStudent store id = (store, Next (Mongoose.CastError "_id"))).
  { unfold deleteStudent, Student.findByIdAndDelete.
    by rewrite (castObjectId_invalid _ Hid). }
  split; [|split; [|split]].
  - intros describe acceptsHtml. split; [done|]. rewrite Hdel. cbn [snd].
    unfold Server.finish, Server.errorHandler, generic. cbn. by destruct acceptsHtml.
  - intros query. unfold showStudent, Student.findById.
    by rewrite (castObjectId_invalid _ Hid).
  - unfold editStudent, Student.findById. by rewrite (castObjectId_invalid _ Hid).
  - intros env req Hmongo.
    assert (Herr : exists errors,
               (run (paramChain "id" [StandardValidation isMongoId invalidValue]
                       :: studentValidators) (withId id req)).2
               = {| msg := "Invalid value"; path := Some "id" |} :: errors).
    { change (run (?c :: studentValidators) ?r)
        with (fold_left runChain studentValidators (runChain (r, []) c)).
      destruct (runChains_errors studentValidators
                  (runChain (withId id req, [])
                     (paramChain "id" [StandardValidation isMongoId invalidValue])))
        as [more ->].
      exists more. unfold runChain. cbn [optional paramChain andb stack location field
                                        fold_left].
      unfold runItem. cbn [fieldsAt withId setFieldsAt params].
      rewrite lookup_singleton_eq. change (toString (Some id)) with id.
      rewrite Hmongo. done. }
    destruct Herr as [errors Herr]. exists errors. split; [done|].
    unfold updateStudent. destruct (run _ (withId id req)) as [req' errs].
    cbn [snd] in Herr. subst errs. done.
Qed.

End DetailRouteTheorems.

Section LongDepartment.

Import ExpressValidator Express Conditions StudentRoutes.

Context {RT : JsRuntime} {VJ : Validatorjs} {MS : Student.MongoServer}.

Lemma validate_inl p :
  Student.pathErrors (Student.applySetters p) <> [] ->
  Student.validate p
  = inl (Mongoose.ValidationError (Student.pathErrors (Student.applySetters p))).
Proof. unfold Student.validate. by destruct (Student.pathErrors _). Qed.

(** X10.  The request validators put no upper bound on the department,
    the schema does.  A create request that passes request validation
    with a department (not the ["custom"] sentinel) whose trimmed text,
    all white space of the language taken from both ends, is longer than
    100 code units is refused by the schema with "Department must be at
    most 100 characters"; the handler rethrows, so the client gets status
    500 with the generic message, not the form, and nothing is stored. *)
Theorem long_department_is_server_error env store req :
  (run studentValidators req).2 = [] ->
  JS.trim (toString (body req !! "department")) <> "custom" ->
  (100 < JS.length (JS.trim (toString (body req !! "department"))))%nat ->
  exists messages,
    createStudent env store req = (store, Next (Mongoose.ValidationError messages))
    /\ "Department must be at most 100 characters" ∈ messages
    /\ forall describe,
         Server.finish describe true (createStudent env store req).2
         = Server.Handled
             (Server.Html 500 "error"
                (ErrorLocals "Error" "An unexpected error occurred." 500)).
Proof.
  intros Hnil Hcustom Hlong.
  destruct (studentPaths_run (req, [])) as (_ & _ & _ & _ & Hd).
  change (fold_left runChain studentValidators (req, []))
    with (run studentValidators req) in Hd. cbn [fst] in Hd. specialize (Hd Hcustom).
  set (p := studentPaths (body (run studentValidators req).1)) in *.
  assert (Hin : "Department must be at most 100 characters"
                ∈ Student.pathErrors (Student.applySetters p)).
  { assert (Hff : Mongoose.firstFailure Student.departmentValidators
                    (Student.p_department (Student.applySetters p))
                  = Some "Department must be at most 100 characters").
    { cbn [Student.applySetters Student.p_department]. rewrite Hd.
      cbn [fmap option_fmap option_map]. rewrite trim_idemp.
      unfold Student.departmentValidators.
      cbn [Mongoose.firstFailure]. unfold Mongoose.requiredString, Mongoose.maxlength.
      destruct (Nat.eqb_spec
                  (String.length (JS.trim (toString (body req !! "department")))) 0)
        as [Hempty|_].
      { apply length_nil in Hempty. rewrite Hempty in Hlong. cbn in Hlong. lia. }
      cbn [negb].
      destruct (Nat.leb_spec
                  (JS.length (JS.trim (toString (body req !! "department")))) 100);
        [lia|done]. }
    unfold Student.pathErrors. apply list_elem_of_omap.
    exists (Some "Department must be at most 100 characters"). split; [|done].
    rewrite Hff, !elem_of_cons. auto. }
  assert (Hne : Student.pathErrors (Student.applySetters p) <> []).
  { intros Heq. rewrite Heq in Hin. by apply elem_of_nil in Hin. }
  assert (Hcreate : createStudent env store req
                    = (store, Next (Mongoose.ValidationError
                                      (Student.pathErrors (Student.applySetters p))))).
  { unfold createStudent. unfold p in *.
    destruct (run studentValidators req) as [req' errors]. cbn [fst snd] in *.
    subst errors. cbn [isEmpty negb]. unfold Student.save.
    by rewrite validate_inl. }
  eexists. split; [exact Hcreate|]. split; [done|].
  intros describe. by rewrite Hcreate.
Qed.

End LongDepartment.

(** ** The list route: what a page holds *)

Section OrderFacts.

Lemma string_compare_trans (a b c : string) :
  String.compare a b <> Gt -> String.compare b c <> Gt -> String.compare a c <> Gt.
Proof.
  intros Hab Hbc.
  destruct (String.compare a b) eqn:Eab; [|clear Hab|done].
  { apply String.compare_eq_iff in Eab. by subst. }
  destruct (String.compare b c) eqn:Ebc; [|clear Hbc|done].
  { apply String.compare_eq_iff in Ebc. subst. by rewrite Eab. }
  apply OrderedTypeEx.String_as_OT.cmp_lt in Eab, Ebc.
  pose proof (OrderedTypeEx.String_as_OT.lt_trans _ _ _ Eab Ebc) as Hac.
  apply OrderedTypeEx.String_as_OT.cmp_lt in Hac.
  unfold OrderedTypeEx.String_as_OT.cmp in Hac. by rewrite Hac.
Qed.

Lemma Z_compare_trans (a b c : Z) :
  Z.compare a b <> Gt -> Z.compare b c <> Gt -> Z.compare a c <> Gt.
Proof. intros Hab Hbc. change (a <= c). change (a <= b) in Hab. change (b <= c) in Hbc. lia. Qed.

Lemma compareNumber_antisym a b :
  Student.compareNumber b a = CompOpp (Student.compareNumber a b).
Proof.
  destruct a, b; try reflexivity. cbn. symmetry. apply Qcompare_antisym.
Qed.

Lemma compareNumber_trans a b c :
  Student.compareNumber a b <> Gt -> Student.compareNumber b c <> Gt ->
  Student.compareNumber a c <> Gt.
Proof.
  destruct a as [| | |x], b as [| | |y], c as [| | |z]; cbn; try done.
  rewrite <- !Qle_alt. apply Qle_trans.
Qed.

Lemma compareBy_antisym k a b :
  Student.compareBy k b a = CompOpp (Student.compareBy k a b).
Proof.
  unfold Student.compareBy.
  repeat case_bool_decide;
    first [apply String.compare_antisym | apply Z.compare_antisym
          | apply compareNumber_antisym | reflexivity].
Qed.

Lemma compareBy_trans k a b c :
  Student.compareBy k a b <> Gt -> Student.compareBy k b c <> Gt ->
  Student.compareBy k a c <> Gt.
Proof.
  unfold Student.compareBy.
  repeat case_bool_decide;
    first [apply string_compare_trans | apply Z_compare_trans
          | apply compareNumber_trans | done].
Qed.

Lemma before_total s a b : Student.before s a b = false -> Student.before s b a = true.
Proof.
  unfold Student.before. rewrite (compareBy_antisym (Student.key s) a b).
  destruct (Student.compareBy (Student.key s) a b); cbn; [done| |];
    intros H%bool_decide_eq_false; apply bool_decide_eq_true; lia.
Qed.

Lemma before_trans s a b c :
  Student.before s a b = true -> Student.before s b c = true -> Student.before s a c = true.
Proof.
  unfold Student.before. intros Hab Hbc.
  destruct (decide (0 <= Student.dir s)) as [Hd|Hd].
  - assert (Student.compareBy (Student.key s) a c <> Gt) as Hac.
    { apply (compareBy_trans _ a b c).
      - revert Hab. destruct (Student.compareBy (Student.key s) a b); [done|done|].
        intros H%bool_decide_eq_true. lia.
      - revert Hbc. destruct (Student.compareBy (Student.key s) b c); [done|done|].
        intros H%bool_decide_eq_true. lia. }
    destruct (Student.compareBy (Student.key s) a c); [done| |done].
    by apply bool_decide_eq_true_2.
  - assert (Student.compareBy (Student.key s) c a <> Gt) as Hca.
    { apply (compareBy_trans _ c b a).
      - rewrite (compareBy_antisym _ b c). revert Hbc.
        destruct (Student.compareBy (Student.key s) b c); cbn; [done| |done].
        intros H%bool_decide_eq_true. lia.
      - rewrite (compareBy_antisym _ a b). revert Hab.
        destruct (Student.compareBy (Student.key s) a b); cbn; [done| |done].
        intros H%bool_decide_eq_true. lia. }
    rewrite (compareBy_antisym _ a c) in Hca.
    destruct (Student.compareBy (Student.key s) a c); cbn in Hca; [done|done|].
    apply bool_decide_eq_true_2. lia.
Qed.

Lemma insertSorted_perm s x l : Student.insertSorted s x l ≡ₚ x :: l.
Proof.
  induction l as [|y l IH]; cbn; [done|].
  destruct (Student.before s x y); [done|]. rewrite IH. apply Permutation_swap.
Qed.

Lemma sortDocs_perm s l : Student.sortDocs s l ≡ₚ l.
Proof.
  induction l as [|x l IH]; cbn; [done|].
  unfold Student.sortDocs in IH. by rewrite insertSorted_perm, IH.
Qed.

Lemma insertSorted_sorted s x l :
  StronglySorted (fun a b => Student.before s a b = true) l ->
  StronglySorted (fun a b => Student.before s a b = true) (Student.insertSorted s x l).
Proof.
  induction 1 as [|y l Hl IH Hy]; cbn.
  - repeat constructor.
  - destruct (Student.before s x y) eqn:Hxy.
    + constructor; [by constructor|].
      constructor; [done|].
      eapply Forall_impl; [exact Hy|]. intros z Hz. by eapply before_trans.
    + constructor; [done|].
      rewrite (insertSorted_perm s x l). constructor; [|done].
      by apply before_total.
Qed.

Lemma sortDocs_sorted s l :
  StronglySorted (fun a b => Student.before s a b = true) (Student.sortDocs s l).
Proof.
  induction l as [|x l IH]; cbn; [constructor|]. by apply insertSorted_sorted.
Qed.

Lemma StronglySorted_lookup {A} (R : A -> A -> Prop) l i j a b :
  StronglySorted R l -> (i < j)%nat -> l !! i = Some a -> l !! j = Some b -> R a b.
Proof.
  intros Hl. revert i j. induction Hl as [|x l Hl IH Hx]; intros i j Hij Hi Hj; [done|].
  destruct j as [|j]; [lia|]. cbn in Hj.
  destruct i as [|i]; cbn in Hi.
  - injection Hi as ->. rewrite Forall_forall in Hx. apply Hx.
    by eapply list_elem_of_lookup_2.
  - apply (IH i j); [lia|done|done].
Qed.

End OrderFacts.

Section ListPageFacts.

Import ExpressValidator Express StudentRoutes Conditions.

Context {RT : JsRuntime} {VJ : Validatorjs} {MS : Student.MongoServer}.

Lemma truthy_spec (v : option string) :
  truthy v = true <-> exists s, v = Some s /\ s <> "".
Proof.
  destruct v as [[|c s]|]; cbn; split; try done.
  - by intros (? & [= <-] & ?).
  - intros _. by eexists.
  - by intros (? & ? & _).
Qed.

(** A condition of the filter that is set from a trimmed parameter when it
    is not blank. *)
Lemma trimmed_condition (v : option string) (P : string -> bool) :
  match (if truthy (JS.trim <$> v) then sanitizeString (JS.trim <$> v) else None) with
  | Some x => P x
  | None => true
  end = true
  <-> forall s, v = Some s -> JS.trim s <> "" -> P (JS.trim s) = true.
Proof.
  destruct v as [s|]; cbn [fmap option_fmap option_map]; [|by cbn].
  destruct (truthy (Some (JS.trim s))) eqn:Ht.
  - apply truthy_spec in Ht as (t & [= <-] & Hne).
    cbn. rewrite trim_idemp. split; [by intros ? ? [= <-]|]. intros H. by apply H.
  - split; [|done]. intros _ ? [= <-] Hne.
    assert (truthy (Some (JS.trim s)) = true) as Ht'; [|congruence].
    apply truthy_spec. by eexists.
Qed.

Lemma gpaBound_finite (v : option string) x :
  gpaBound (JS.trim <$> v) = Some (JS.Finite x)
  <-> exists s, v = Some s /\ JS.trim s <> "" /\ parseFloat (JS.trim s) = JS.Finite x.
Proof.
  destruct v as [s|]; cbn.
  - case_bool_decide as Hs.
    + split; [done|]. by intros (? & [= <-] & ? & _).
    + split.
      * intros [= Hp]. by exists s.
      * by intros (? & [= <-] & _ & ->).
  - split; [done|]. by intros (? & ? & _).
Qed.

(** The gpa condition of the filter holds the values within the finite
    bounds. *)
Lemma gpa_condition (mn mx : option JS.number) (v : JS.number) :
  match (if hasBound mn || hasBound mx
         then Some {| Student.gte := if hasBound mn then mn else None;
                      Student.lte := if hasBound mx then mx else None |}
         else None) with
  | Some r => Student.inRange r v
  | None => true
  end = true
  <-> (forall x, mn = Some (JS.Finite x) -> JS.geq v (JS.Finite x) = true)
      /\ (forall x, mx = Some (JS.Finite x) -> JS.leq v (JS.Finite x) = true).
Proof.
  destruct mn as [[| | |x]|], mx as [[| | |y]|];
    cbn [hasBound JS.isFinite orb Student.inRange Student.gte Student.lte];
    rewrite ?andb_true_r, ?andb_true_l, ?andb_true_iff;
    (split; [intros H; split; intros ? [= <-]; tauto
            |intros [H1 H2]; repeat split; first [done | by apply H1 | by apply H2]]).
Qed.

(** The filter of the list route selects the students that meet the
    query. *)
Lemma matches_listFilter query d :
  Student.matches (listFilter (listValidators query)) d = true <-> meetsQuery query d.
Proof.
  unfold Student.matches, listFilter, listValidators, meetsQuery.
  cbn [q_q q_department q_minGpa q_maxGpa Student.f_text Student.f_department Student.f_gpa].
  rewrite !andb_true_iff.
  rewrite (trimmed_condition (query !! "q") (fun q => Student.textSearch q d)).
  rewrite (trimmed_condition (query !! "department")
             (fun dep => bool_decide (Student.department d = dep))).
  rewrite gpa_condition.
  split.
  - intros [[Hq Hd] [Hmin Hmax]]. split_and!.
    + done.
    + intros dep H1 H2. by eapply bool_decide_eq_true_1, Hd.
    + intros s x H1 H2 H3. apply Hmin, gpaBound_finite. by exists s.
    + intros s x H1 H2 H3. apply Hmax, gpaBound_finite. by exists s.
  - intros (Hq & Hd & Hmin & Hmax). split_and!.
    + done.
    + intros dep H1 H2. by apply bool_decide_eq_true_2, Hd.
    + intros x (s & ? & ? & ?)%gpaBound_finite. by apply (Hmin s).
    + intros x (s & ? & ? & ?)%gpaBound_finite. by apply (Hmax s).
Qed.

Lemma List_filter_sublist {A} (f : A -> bool) l : List.filter f l `sublist_of` l.
Proof.
  induction l as [|x l IH]; cbn; [constructor|].
  destruct (f x); by constructor.
Qed.

Lemma elem_of_List_filter {A} (f : A -> bool) l x :
  x ∈ List.filter f l <-> x ∈ l /\ f x = true.
Proof. rewrite !list_elem_of_In. apply filter_In. Qed.

Lemma submseteq_NoDup {A} (l k : list A) : l ⊆+ k -> NoDup k -> NoDup l.
Proof. intros [k' Hk]%submseteq_Permutation. rewrite Hk, NoDup_app. tauto. Qed.

Lemma pageOf_submseteq store rq : pageOf store rq ⊆+ store.
Proof.
  unfold pageOf.
  etrans; [apply sublist_submseteq, sublist_take|].
  etrans; [apply sublist_submseteq, sublist_drop|].
  etrans; [apply Permutation_submseteq, sortDocs_perm|].
  apply sublist_submseteq, List_filter_sublist.
Qed.

Lemma elem_of_pageOf store rq d :
  d ∈ pageOf store rq -> d ∈ store /\ Student.matches (listFilter rq) d = true.
Proof.
  unfold pageOf. intros Hd.
  assert (d ∈ Student.sortDocs (buildSort (q_sortBy rq) (q_order rq))
                (List.filter (Student.matches (listFilter rq)) store)) as Hs.
  { eapply elem_of_sublist; [exact Hd|].
    etrans; [apply sublist_take|apply sublist_drop]. }
  rewrite sortDocs_perm in Hs. by apply elem_of_List_filter in Hs.
Qed.

Lemma pageOf_sorted store rq :
  StronglySorted
    (fun a b => Student.before (buildSort (q_sortBy rq) (q_order rq)) a b = true)
    (pageOf store rq).
Proof.
  unfold pageOf.
  set (sorted := Student.sortDocs _ _).
  pose proof (sortDocs_sorted (buildSort (q_sortBy rq) (q_order rq))
                (List.filter (Student.matches (listFilter rq)) store)) as Hs.
  fold sorted in Hs.
  rewrite <- (take_drop (Z.to_nat (listSkip rq)) sorted) in Hs.
  apply StronglySorted_app_1_r in Hs.
  rewrite <- (take_drop (Z.to_nat (listLimit rq)) (drop _ sorted)) in Hs.
  by apply StronglySorted_app_1_l in Hs.
Qed.

Lemma buildSort_key_allowed sortBy order :
  Student.key (buildSort sortBy order)
  ∈ ["name"; "rollNumber"; "email"; "department"; "gpa"; "createdAt"].
Proof.
  unfold buildSort. cbn [Student.key].
  destruct sortBy as [k|]; [case_bool_decide; [done|]|];
    rewrite !elem_of_cons; tauto.
Qed.

End ListPageFacts.

Section ListPageTheorems.

Import ExpressValidator Express StudentRoutes Conditions.

Context {RT : JsRuntime} {VJ : Validatorjs} {MS : Student.MongoServer}.

(** X11.  The list route renders the list, and every student on the page
    is a student of the collection that meets the query: it is selected by
    the text search for the trimmed [q], its department is the trimmed
    [department], and its gpa is within the finite bounds, each when the
    parameter is present and not blank.  The page holds no student more
    often than the collection does, so with distinct ids no student twice.
    When the matching students fit on one page, page 1 holds every student
    of the collection that meets the query.  Trimmed means that every
    white-space character of the language is taken from both ends,
    U+00A0 included. *)
Theorem listed_students_meet_query store query :
  exists docs pg filters flashMsg,
    listStudents store query
    = Render 200 "students" (ListLocals "Students" docs pg filters flashMsg)
    /\ (forall d, d ∈ docs -> d ∈ store /\ meetsQuery query d)
    /\ docs ⊆+ store
    /\ (NoDup (Student._id <$> store) -> NoDup (Student._id <$> docs))
    /\ (forall d, d ∈ store -> meetsQuery query d -> 0 < total pg)
    /\ (page pg = 1 -> total pg <= limit pg ->
        forall d, d ∈ store -> meetsQuery query d -> d ∈ docs).
Proof.
  destruct (listStudents_renders store query) as (filters & flashMsg & Hrender).
  cbv zeta in Hrender. set (rq := listValidators query) in *.
  eexists _, _, filters, flashMsg. split; [exact Hrender|].
  cbn [total page limit].
  assert (forall d, d ∈ store -> meetsQuery query d ->
            d ∈ List.filter (Student.matches (listFilter rq)) store) as Hin.
  { intros d Hd Hm. apply elem_of_List_filter. split; [done|].
    by apply matches_listFilter. }
  split_and!.
  - intros d [Hd Hm]%elem_of_pageOf. split; [done|]. by apply matches_listFilter.
  - apply pageOf_submseteq.
  - intros Hnd. eapply submseteq_NoDup; [|exact Hnd].
    apply fmap_submseteq, pageOf_submseteq.
  - intros d Hd Hm. specialize (Hin d Hd Hm).
    destruct (List.filter _ store); [by apply elem_of_nil in Hin|]. cbn. lia.
  - intros Hpage Hfit d Hd Hm. unfold pageOf, listSkip. rewrite Hpage.
    change (Z.to_nat ((1 - 1) * listLimit rq)) with 0%nat. rewrite drop_0.
    rewrite take_ge by (rewrite sortDocs_length; lia).
    rewrite sortDocs_perm. by apply Hin.
Qed.

(** X12.  The sizes of the pages: every page before the last one holds
    exactly [limit] students; the last page holds between 1 and [limit]
    students when there is a match; every page after the last one is
    empty, and so is page 1 when nothing matches, with [totalPages] 1. *)
Theorem list_page_sizes store query :
  exists docs pg filters flashMsg,
    listStudents store query
    = Render 200 "students" (ListLocals "Students" docs pg filters flashMsg)
    /\ 1 <= page pg /\ 1 <= totalPages pg
    /\ Z.of_nat (length docs) <= limit pg
    /\ (page pg < totalPages pg -> Z.of_nat (length docs) = limit pg)
    /\ (page pg = totalPages pg -> 0 < total pg -> 1 <= Z.of_nat (length docs))
    /\ (totalPages pg < page pg -> docs = [])
    /\ (total pg = 0 -> docs = [] /\ totalPages pg = 1)
    /\ (totalPages pg - 1) * limit pg <= total pg
    /\ total pg <= totalPages pg * limit pg.
Proof.
  destruct (listStudents_renders store query) as (filters & flashMsg & Hrender).
  cbv zeta in Hrender. set (rq := listValidators query) in *.
  eexists _, _, filters, flashMsg. split; [exact Hrender|].
  cbn [total page limit totalPages].
  set (n := Z.of_nat (length (List.filter (Student.matches (listFilter rq)) store))).
  pose proof (listPage_ge rq) as Hp. pose proof (listLimit_range rq) as Hl.
  pose proof (ceilDiv_spec n (listLimit rq) ltac:(lia)) as Hc.
  assert (0 <= n) as Hn by (unfold n; lia).
  assert (Z.of_nat (length (pageOf store rq))
          = Z.min (listLimit rq) (Z.max 0 (n - listSkip rq))) as Hlen.
  { rewrite pageOf_length. pose proof (listSkip_nonneg rq). unfold n. lia. }
  assert (forall l : list Student.Doc, Z.of_nat (length l) = 0 -> l = []) as Hnil.
  { intros [|? ?]; [done|cbn; lia]. }
  unfold listSkip in Hlen.
  split_and!; intros;
    repeat match goal with
           | |- _ /\ _ => split
           | |- _ = [] => apply Hnil
           end;
    rewrite ?Hlen; nia.
Qed.

(** X13.  The students of a page are in the order asked for: the sort key
    is always one of name, rollNumber, email, department, gpa and
    createdAt, and of any two students on the page the earlier one does
    not come after the later one by that key when [order] is ["asc"], and
    does not come before it for every other [order].  Both parameters are
    read trimmed: every white-space character of the language is taken
    from both ends, U+00A0 included. *)
Theorem list_page_is_sorted store query :
  let sort := buildSort (JS.trim <$> query !! "sortBy") (JS.trim <$> query !! "order") in
  exists docs pg filters flashMsg,
    listStudents store query
    = Render 200 "students" (ListLocals "Students" docs pg filters flashMsg)
    /\ Student.key sort ∈ ["name"; "rollNumber"; "email"; "department"; "gpa"; "createdAt"]
    /\ forall i j a b,
         (i < j)%nat -> docs !! i = Some a -> docs !! j = Some b ->
         Student.compareBy (Student.key sort) a b
         <> (if bool_decide (JS.trim <$> query !! "order" = Some "asc") then Gt else Lt).
Proof.
  intros sort.
  destruct (listStudents_renders store query) as (filters & flashMsg & Hrender).
  cbv zeta in Hrender. set (rq := listValidators query) in *.
  eexists _, _, filters, flashMsg. split; [exact Hrender|].
  split; [apply buildSort_key_allowed|].
  intros i j a b Hij Ha Hb.
  pose proof (StronglySorted_lookup _ _ i j a b (pageOf_sorted store rq) Hij Ha Hb) as Hab.
  change (buildSort (q_sortBy rq) (q_order rq)) with sort in Hab.
  unfold Student.before in Hab.
  assert (Student.dir sort
          = if bool_decide (JS.trim <$> query !! "order" = Some "asc") then 1 else -1)
    as Hdir by reflexivity.
  rewrite Hdir in Hab.
  destruct (Student.compareBy (Student.key sort) a b);
    case_bool_decide; first [done | by apply bool_decide_eq_true in Hab].
Qed.

End ListPageTheorems.

(** ** Signing up and logging in *)

Section AccountFacts.

Import ExpressValidator Express AuthRoutes Conditions.

Context {VJ : Validatorjs} {BC : Bcryptjs}.

(** What a successful [save] of a new user has written. *)
Lemma save_new env store u e p store' d calls :
  User.save env store (User.new env u e p) = (inr (store', d), calls) ->
  exists salt hashed,
    genSalt 12 (User.entropy env) = inr salt
    /\ hash p salt = inr hashed
    /\ d = {| User._id := User.freshId env; User.username := JS.trim u;
              User.email := JS.trim (JS.toLowerCase e); User.password := hashed;
              User.role := User.user; User.isActive := true;
              User.createdAt := User.now env; User.updatedAt := User.now env |}
    /\ store' = store ++ [d].
Proof.
  unfold User.save. destruct (User.validate _); [|done].
  unfold User.preSave.
  assert (User.isModified "password" (User.new env u e p) = true) as ->.
  { apply bool_decide_eq_true_2. unfold User.new. cbn [User.modifiedPaths].
    rewrite !elem_of_union, !elem_of_singleton. by right. }
  unfold User.new, User.setPassword. cbn [negb User.doc User.password].
  destruct (genSalt 12 _) as [|salt] eqn:Hsalt; [done|].
  destruct (hash p salt) as [|hashed] eqn:Hhash; [done|].
  cbn [User.doc User.isNew User.modifiedPaths User._id User.username
       User.email User.role User.isActive User.createdAt User.updatedAt].
  destruct (User.duplicate _ _); [done|].
  unfold User.write. cbn [User.isNew User.doc].
  intros [= <- <- <-]. by exists salt, hashed.
Qed.

Lemma find_none_Forall {A} (f : A -> bool) l :
  List.find f l = None -> Forall (fun x => f x = false) l.
Proof.
  intros H. apply Forall_forall. intros x Hx%list_elem_of_In.
  by apply (find_none f l H).
Qed.

Lemma find_app_last {A} (f : A -> bool) l x :
  Forall (fun y => f y = false) l -> f x = true -> List.find f (l ++ [x]) = Some x.
Proof.
  induction 1 as [|y l Hy _ IH]; intros Hx; cbn; [by rewrite Hx|].
  rewrite Hy. by apply IH.
Qed.

(** The fields the signup handler reads after the chains have run. *)
Lemma signup_fields req :
  let b := body (run signupValidators req).1 in
  toString (b !! "email") = normalizeEmail (JS.trim (toString (body req !! "email")))
  /\ toString (b !! "username") = JS.trim (toString (body req !! "username"))
  /\ toString (b !! "password") = toString (body req !! "password").
Proof.
  intros b. unfold b, run. rewrite (signupValidators_body (req, [])). cbn [fst].
  rewrite lookup_insert_eq.
  rewrite (lookup_insert_ne _ "email" "username"), lookup_insert_eq by done.
  by rewrite !(lookup_insert_ne _ _ "password") by done.
Qed.

(** Every answer of signup other than the redirect leaves the collection
    as it was. *)
Lemma signup_unchanged env store req :
  (forall url, (signup env store req).2 <> Redirect url) ->
  (signup env store req).1 = store.
Proof.
  unfold signup. destruct (run signupValidators req) as [req' errors].
  destruct (negb _); [done|].
  destruct (User.findByEmailOrUsername _ _ _); [by case_bool_decide|].
  destruct (User.save _ _ _) as [[?|[store' d]] calls]; [done|].
  cbn. intros H. by destruct (H "/login?msg=signup_success").
Qed.

(** What signup has done when it redirects. *)
Lemma signup_redirect env store req store' url :
  signup env store req = (store', Redirect url) ->
  exists d salt,
    url = "/login?msg=signup_success"
    /\ (run signupValidators req).2 = []
    /\ store' = store ++ [d]
    /\ User._id d = User.freshId env
    /\ User.username d = JS.trim (toString (body req !! "username"))
    /\ User.email d
       = JS.trim (JS.toLowerCase (normalizeEmail (JS.trim (toString (body req !! "email")))))
    /\ User.role d = User.user
    /\ User.isActive d = true
    /\ User.createdAt d = User.now env
    /\ genSalt 12 (User.entropy env) = inr salt
    /\ hash (toString (body req !! "password")) salt = inr (User.password d)
    /\ Forall (fun x => User.email x <> User.email d /\ User.username x <> User.username d)
         store.
Proof.
  pose proof (signup_fields req) as (He & Hu & Hp). unfold signup.
  destruct (run signupValidators req) as [req' errors]. cbn [fst snd] in *.
  rewrite He, Hu, Hp.
  destruct errors; [|done]. cbn [StudentRoutes.isEmpty negb].
  destruct (User.findByEmailOrUsername _ _ _) eqn:Hfind; [by case_bool_decide|].
  destruct (User.save _ _ _) as [[?|[store1 d]] calls] eqn:Hsave; [done|].
  intros [= <- <-].
  apply save_new in Hsave as (salt & hashed & Hsalt & Hhash & -> & ->).
  eexists _, salt. cbn [User._id User.username User.email User.role User.isActive
                        User.createdAt User.password].
  rewrite trim_idemp. split_and!; try done.
  apply find_none_Forall in Hfind. eapply Forall_impl; [exact Hfind|].
  intros x [Hx1 Hx2]%orb_false_iff.
  apply bool_decide_eq_false in Hx1, Hx2. rewrite trim_idemp in Hx2. done.
Qed.

End AccountFacts.

Section AccountTheorems.

Import ExpressValidator Express AuthRoutes Conditions.

Context {VJ : Validatorjs} {BC : Bcryptjs}.

(** A signup request that passes the chains can be used to log in as far
    as the login chains are concerned. *)
Lemma signup_pass_login req :
  (run signupValidators req).2 = [] ->
  isEmail (JS.trim (toString (body req !! "email"))) = true
  /\ toString (body req !! "password") <> "".
Proof.
  rewrite run_pass. unfold signupValidators.
  cbn [chainsPass chainPasses bodyChain optional andb stack location field itemsPass
       itemPasses sanitizeChain fold_left sanitizeItem fieldsAt setFieldsAt body].
  rewrite !lookup_insert_eq.
  rewrite !(lookup_insert_ne _ _ "email"), !(lookup_insert_ne _ _ "password") by done.
  cbn [toString default]. rewrite isLength_min_spec. unfold id.
  intros H. destruct_and!. split; [done|].
  intros Hempty.
  match goal with H : (6 <= lengthOf _)%nat |- _ => rewrite Hempty, lengthOf_nil in H end.
  lia.
Qed.

(** X14.  Signup changes the collection only when it redirects to the
    login page, and then by exactly one user, added at the end: its id is
    the fresh one, its username the trimmed username, its email the
    normalized email in lower case and trimmed, its role [user] and
    [isActive] true whatever the request holds, and its password what
    bcrypt's [hash] returned for the typed password with a salt of cost
    factor 12.  There is no other redirect, and every other answer leaves
    the collection as it was.  Trimmed means that every
    white-space character of the language is taken from both ends,
    U+00A0 included. *)
Theorem signup_adds_one_user env store req :
  match (signup env store req).2 with
  | Redirect url =>
      url = "/login?msg=signup_success"
      /\ exists d salt,
           (signup env store req).1 = store ++ [d]
           /\ User._id d = User.freshId env
           /\ User.username d = JS.trim (toString (body req !! "username"))
           /\ User.email d
              = JS.trim (JS.toLowerCase
                           (normalizeEmail (JS.trim (toString (body req !! "email")))))
           /\ User.role d = User.user
           /\ User.isActive d = true
           /\ genSalt 12 (User.entropy env) = inr salt
           /\ hash (toString (body req !! "password")) salt = inr (User.password d)
  | _ => (signup env store req).1 = store
  end.
Proof.
  pose proof (signup_unchanged env store req) as Hsame.
  destruct (signup env store req) as [store' r] eqn:Hsignup. cbn [fst snd] in *.
  destruct r as [url| |]; [|by apply Hsame..].
  apply signup_redirect in Hsignup as (d & salt & H). destruct_and!.
  split; [done|]. by exists d, salt.
Qed.

(** X15.  Signing up, then logging in.  When bcrypt's [compare] accepts
    the data for every hash that [hash] made of it with a generated salt,
    a signup that redirects to the login page is followed by a successful
    login with the email and the password as they were typed at signup:
    the session gets the new user's id, its username and the role [user],
    and the answer is the redirect to the dashboard. *)
Theorem signup_then_login env store req store' url req2 :
  (forall rounds e salt data hashed,
      genSalt rounds e = inr salt -> hash data salt = inr hashed ->
      compare data hashed = true) ->
  signup env store req = (store', Redirect url) ->
  body req2 !! "email" = body req !! "email" ->
  body req2 !! "password" = body req !! "password" ->
  login store' req2
  = (Some {| userId := User.freshId env;
             username := JS.trim (toString (body req !! "username"));
             role := User.user |},
     Redirect "/?msg=login_success").
Proof.
  intros Hlaw Hsignup He2 Hp2.
  apply signup_redirect in Hsignup
    as (d & salt & _ & Hpass & -> & Hid & Hname & Hemail & Hrole & Hactive & _
        & Hsalt & Hhash & Hothers).
  apply signup_pass_login in Hpass as [Hisemail Hpw].
  assert (Hnil : (run loginValidators req2).2 = []).
  { apply loginValidators_errors. by rewrite He2, Hp2. }
  pose proof (loginValidators_body (req2, [])) as Hbody.
  change (fold_left runChain loginValidators (req2, [])) with (run loginValidators req2)
    in Hbody. cbn [fst] in Hbody.
  unfold login. destruct (run loginValidators req2) as [req' errors].
  cbn [fst snd] in *. subst errors. rewrite Hbody.
  rewrite lookup_insert_eq, lookup_insert_ne by done.
  cbn [StudentRoutes.isEmpty negb]. rewrite He2, Hp2.
  unfold User.findByEmail. cbn [toString default]. unfold id.
  rewrite (find_app_last _ store d).
  - rewrite Hactive. cbn [negb]. unfold User.comparePassword.
    rewrite (Hlaw _ _ _ _ _ Hsalt Hhash). cbn [negb]. by rewrite Hid, Hname, Hrole.
  - eapply Forall_impl; [exact Hothers|]. intros x [Hx _].
    apply bool_decide_eq_false_2. by rewrite <- Hemail.
  - apply bool_decide_eq_true_2. by rewrite Hemail.
Qed.

(** X16.  Signup keeps the users distinct: when the ids, the usernames
    and the emails of the collection are pairwise distinct and the fresh
    id is not in use, they are pairwise distinct after any signup
    request. *)
Theorem signup_keeps_users_unique env store req :
  uniqueUsers store ->
  User.freshId env ∉ User._id <$> store ->
  uniqueUsers (signup env store req).1.
Proof.
  intros (Hids & Hnames & Hemails) Hfresh.
  pose proof (signup_unchanged env store req) as Hsame.
  destruct (signup env store req) as [store' r] eqn:Hsignup. cbn [fst snd] in *.
  destruct r as [url| |]; [|by rewrite Hsame..].
  apply signup_redirect in Hsignup
    as (d & salt & _ & _ & -> & Hid & _ & _ & _ & _ & _ & _ & _ & Hothers).
  rewrite Forall_forall in Hothers.
  unfold uniqueUsers. rewrite !fmap_app, !NoDup_app. cbn [fmap list_fmap].
  split_and!; try done; try apply NoDup_singleton.
  - intros i Hi ->%list_elem_of_singleton. by rewrite Hid in Hi.
  - intros n (x & -> & Hx)%list_elem_of_fmap ?%list_elem_of_singleton.
    by destruct (Hothers x Hx) as [_ ?].
  - intros e (x & -> & Hx)%list_elem_of_fmap ?%list_elem_of_singleton.
    by destruct (Hothers x Hx) as [? _].
Qed.

(** X17.  Login sets a session exactly when the trimmed email is an email
    address, the password is not empty, the first user stored under the
    normalized email is active and bcrypt's [compare] accepts the typed
    password for that user's stored hash; the session then holds that
    user's id, username and role, and the answer is the redirect to the
    dashboard.  In every other case no session is set and the login form
    is rendered again with status 422 or 401 and at least one error.
    Trimmed means that every white-space character of the language is
    taken from both ends, U+00A0 included. *)
Theorem login_sets_session store req s :
  let email := normalizeEmail (JS.trim (toString (body req !! "email"))) in
  let password := toString (body req !! "password") in
  ((login store req).1 = Some s
   <-> isEmail (JS.trim (toString (body req !! "email"))) = true
       /\ password <> ""
       /\ exists user,
            User.findByEmail store email = Some user
            /\ User.isActive user = true
            /\ User.comparePassword user password = true
            /\ s = {| userId := User._id user;
                      username := User.username user;
                      role := User.role user |})
  /\ ((login store req).1 = Some s -> (login store req).2 = Redirect "/?msg=login_success")
  /\ ((login store req).1 = None ->
      exists st errs values,
        (login store req).2 = Render st "login" (FormLocals "Login" errs values)
        /\ (st = 422 \/ st = 401) /\ errs <> []).
Proof.
  intros email password.
  pose proof (loginValidators_errors req) as Hpass.
  pose proof (loginValidators_body (req, [])) as Hbody.
  change (fold_left runChain loginValidators (req, [])) with (run loginValidators req)
    in Hbody. cbn [fst] in Hbody. fold email in Hbody.
  unfold login. destruct (run loginValidators req) as [req' errors].
  cbn [fst snd] in *. rewrite Hbody.
  rewrite lookup_insert_eq, lookup_insert_ne by done.
  cbn [toString default]. unfold id. fold password.
  destruct errors as [|e errors]; cbn [StudentRoutes.isEmpty negb].
  - destruct Hpass as [Hpass _]. destruct (Hpass eq_refl) as [Hemail Hpw].
    destruct (User.findByEmail store email) as [user|] eqn:Hfind; cbn [fst snd].
    + destruct (User.isActive user) eqn:Hactive; cbn [negb fst snd].
      * destruct (User.comparePassword user password) eqn:Hcmp; cbn [negb fst snd].
        -- split_and!; [|done|done]. split.
           ++ intros [= <-]. split_and!; try done. by exists user.
           ++ intros (_ & _ & u & [= <-] & _ & _ & ->). done.
        -- split_and!; [|done|].
           ++ split; [done|]. intros (_ & _ & u & [= <-] & _ & ? & _). congruence.
           ++ intros _. eexists _, _, _. split; [done|]. split; [by right|done].
      * split_and!; [|done|].
        -- split; [done|]. intros (_ & _ & u & [= <-] & ? & _). congruence.
        -- intros _. eexists _, _, _. split; [done|]. split; [by right|done].
    + split_and!; [|done|].
      * split; [done|]. by intros (_ & _ & u & ? & _).
      * intros _. eexists _, _, _. split; [done|]. split; [by right|done].
  - cbn [fst snd]. split_and!; [|done|].
    + split; [done|]. intros (? & ? & _).
      destruct Hpass as [_ Hpass]. by specialize (Hpass (conj H H0)).
    + intros _. eexists _, _, _. split; [done|]. split; [by left|done].
Qed.

End AccountTheorems.

(** ** The dashboard *)

Section DashboardFacts.

Import Server Conditions.

(** The count a list of groups holds for a department, 0 when it has no
    group. *)
Definition countOf (dep : string) (groups : list (string * Z)) : Z :=
  match List.find (fun g => bool_decide (g.1 = dep)) groups with
  | Some g => g.2
  | None => 0
  end.

Lemma countOf_cons dep k n groups :
  countOf dep ((k, n) :: groups) = if bool_decide (k = dep) then n else countOf dep groups.
Proof. unfold countOf. cbn. by case_bool_decide. Qed.

Lemma countOf_countInto k dep groups :
  countOf k (countInto dep groups)
  = countOf k groups + (if bool_decide (k = dep) then 1 else 0).
Proof.
  induction groups as [|[k' n] groups IH]; cbn [countInto].
  - rewrite countOf_cons. unfold countOf. cbn.
    repeat case_bool_decide; first [done | congruence].
  - destruct (decide (k' = dep)) as [->|Hk].
    + rewrite (bool_decide_eq_true_2 (dep = dep)) by done. rewrite !countOf_cons.
      repeat case_bool_decide; first [lia | congruence].
    + rewrite (bool_decide_eq_false_2 (k' = dep)) by done. rewrite !countOf_cons, IH.
      repeat case_bool_decide; first [lia | congruence].
Qed.

Lemma countInto_keys dep groups k :
  k ∈ (countInto dep groups).*1 <-> k = dep \/ k ∈ groups.*1.
Proof.
  induction groups as [|[k' n] groups IH]; cbn [countInto].
  - cbn. rewrite list_elem_of_singleton, elem_of_nil. tauto.
  - destruct (decide (k' = dep)) as [->|Hk].
    + rewrite (bool_decide_eq_true_2 (dep = dep)) by done.
      cbn [fmap list_fmap fst]. rewrite !elem_of_cons. tauto.
    + rewrite (bool_decide_eq_false_2 (k' = dep)) by done.
      cbn [fmap list_fmap fst]. rewrite !elem_of_cons, IH. tauto.
Qed.

Lemma countInto_NoDup dep groups : NoDup groups.*1 -> NoDup (countInto dep groups).*1.
Proof.
  induction groups as [|[k' n] groups IH]; cbn [countInto].
  - intros _. apply NoDup_singleton.
  - destruct (decide (k' = dep)) as [->|Hk].
    + by rewrite (bool_decide_eq_true_2 (dep = dep)) by done.
    + rewrite (bool_decide_eq_false_2 (k' = dep)) by done.
      cbn [fmap list_fmap fst].
      rewrite !NoDup_cons, countInto_keys. intros [Hnotin Hnd].
      split; [|by apply IH]. intros [?|?]; [by subst|done].
Qed.

Lemma countOf_elem k n groups :
  NoDup groups.*1 -> (k, n) ∈ groups -> countOf k groups = n.
Proof.
  induction groups as [|[k' n'] groups IH]; [by intros _ ?%elem_of_nil|].
  cbn [fmap list_fmap fst]. rewrite NoDup_cons, elem_of_cons, countOf_cons.
  intros [Hnotin Hnd] [[= -> ->]|Hin].
  - by rewrite bool_decide_eq_true_2.
  - rewrite bool_decide_eq_false_2; [by apply IH|].
    intros ->. apply Hnotin. apply list_elem_of_fmap. by exists (k, n).
Qed.

Lemma studentsIn_cons dep d store :
  studentsIn dep (d :: store)
  = studentsIn dep store + (if bool_decide (dep = Student.department d) then 1 else 0).
Proof.
  unfold studentsIn. case_bool_decide as Hd.
  - rewrite filter_cons_True by done. cbn [length]. lia.
  - rewrite filter_cons_False by (by intros ?). lia.
Qed.

Lemma studentsIn_pos dep store :
  0 < studentsIn dep store <-> exists d, d ∈ store /\ Student.department d = dep.
Proof.
  unfold studentsIn. split.
  - destruct (filter _ store) as [|d l] eqn:Hf; [cbn; lia|]. intros _.
    assert (d ∈ filter (fun d => Student.department d = dep) store) as Hd.
    { rewrite Hf. by left. }
    apply list_elem_of_filter in Hd as [? ?]. by exists d.
  - intros (d & Hd & Hdep).
    assert (d ∈ filter (fun d => Student.department d = dep) store) as Hin.
    { by apply list_elem_of_filter. }
    destruct (filter _ store); [by apply elem_of_nil in Hin|]. cbn. lia.
Qed.

(** Grouping counts every student once, under its department. *)
Lemma groups_from store groups :
  NoDup groups.*1 ->
  let r := fold_left (fun groups d => countInto (Student.department d) groups) store groups in
  NoDup r.*1
  /\ (forall k, countOf k r = countOf k groups + studentsIn k store)
  /\ (forall k, k ∈ r.*1 <-> k ∈ groups.*1 \/ 0 < studentsIn k store).
Proof.
  revert groups. induction store as [|d store IH]; intros groups Hnd; cbn [fold_left].
  - split_and!; [done|intros k; unfold studentsIn; cbn; lia|].
    intros k. unfold studentsIn. cbn. split; [by left|]. intros [?|?]; [done|lia].
  - destruct (IH (countInto (Student.department d) groups)) as (H1 & H2 & H3);
      [by apply countInto_NoDup|].
    split_and!; [done| |].
    + intros k. rewrite H2, countOf_countInto, studentsIn_cons. lia.
    + intros k. rewrite H3, countInto_keys, studentsIn_cons.
      pose proof (proj2 (studentsIn_pos k store)) as Hpos.
      assert (0 <= studentsIn k store) by (unfold studentsIn; lia).
      case_bool_decide; split; intros; destruct_or!; first [tauto | lia | by subst | auto].
Qed.

Lemma groupByDepartment_spec store :
  NoDup (groupByDepartment store).*1
  /\ (forall k n, (k, n) ∈ groupByDepartment store <-> n = studentsIn k store /\ 0 < n).
Proof.
  destruct (groups_from store [] (NoDup_nil_2 )) as (Hnd & Hcount & Hkeys).
  fold (groupByDepartment store) in *. split; [done|].
  assert (forall k, countOf k (groupByDepartment store) = studentsIn k store) as Hc.
  { intros k. rewrite Hcount. unfold countOf. cbn. lia. }
  assert (forall k, k ∈ (groupByDepartment store).*1 <-> 0 < studentsIn k store) as Hk.
  { intros k. rewrite Hkeys. cbn. rewrite elem_of_nil. tauto. }
  intros k n. split.
  - intros Hin. rewrite <- Hc, (countOf_elem k n _ Hnd Hin). split; [done|].
    rewrite <- (countOf_elem k n _ Hnd Hin), Hc. apply Hk.
    apply list_elem_of_fmap. by exists (k, n).
  - intros [-> Hpos]. apply Hk in Hpos.
    apply list_elem_of_fmap in Hpos as ([k' n'] & -> & Hin). cbn.
    by rewrite <- Hc, (countOf_elem _ _ _ Hnd Hin).
Qed.

Lemma insertByCount_perm g l : insertByCount g l ≡ₚ g :: l.
Proof.
  induction l as [|h l IH]; cbn; [done|].
  case_bool_decide; [done|]. rewrite IH. apply Permutation_swap.
Qed.

Lemma sortByCount_perm l : sortByCount l ≡ₚ l.
Proof.
  induction l as [|g l IH]; cbn; [done|].
  unfold sortByCount in IH. by rewrite insertByCount_perm, IH.
Qed.

Lemma insertByCount_sorted g l :
  StronglySorted (fun a b : string * Z => b.2 <= a.2) l ->
  StronglySorted (fun a b : string * Z => b.2 <= a.2) (insertByCount g l).
Proof.
  induction 1 as [|h l Hl IH Hh]; cbn.
  - repeat constructor.
  - case_bool_decide as Hle.
    + constructor; [by constructor|].
      constructor; [done|]. eapply Forall_impl; [exact Hh|]. cbn. intros; lia.
    + constructor; [done|].
      rewrite (insertByCount_perm g l). constructor; [lia|done].
Qed.

Lemma sortByCount_sorted l :
  StronglySorted (fun a b : string * Z => b.2 <= a.2) (sortByCount l).
Proof.
  induction l as [|g l IH]; cbn; [constructor|]. by apply insertByCount_sorted.
Qed.

End DashboardFacts.

Section DashboardTheorems.

Import Server Conditions.

Lemma topDepartments_fmap store :
  topDepartments store
  = (fun d : string * Z => (if bool_decide (d.1 = "") then "Unknown" else d.1, d.2))
      <$> take 5 (sortByCount (groupByDepartment store)).
Proof.
  unfold topDepartments, byDept.
  induction (take 5 (sortByCount (groupByDepartment store))) as [|[k n] l IH]; [done|].
  cbn [map fmap list_fmap fst snd]. f_equal; [|exact IH].
  by destruct k.
Qed.

(** X18.  The departments of the dashboard: at most five; each is listed
    with the number of students the collection has in it, which is at
    least one, under its name, or under "Unknown" when the name is empty;
    the counts do not increase down the list; and a department of the
    collection that is not listed has no more students than any listed
    one, the list then being five long.  When no student has an empty
    department the listed names are distinct. *)
Theorem dashboard_top_departments store :
  let top := topDepartments store in
  let shown (dep : string) := if bool_decide (dep = "") then "Unknown" else dep in
  (length top <= 5)%nat
  /\ (forall i j a b,
        (i < j)%nat -> top !! i = Some a -> top !! j = Some b -> b.2 <= a.2)
  /\ (forall name n,
        (name, n) ∈ top ->
        exists dep, name = shown dep /\ n = studentsIn dep store /\ 0 < n)
  /\ (forall d,
        d ∈ store ->
        (shown (Student.department d), studentsIn (Student.department d) store) ∈ top
        \/ (length top = 5%nat
            /\ forall g, g ∈ top -> studentsIn (Student.department d) store <= g.2))
  /\ ((forall d, d ∈ store -> Student.department d <> "") -> NoDup top.*1).
Proof.
  intros top shown. unfold top. rewrite topDepartments_fmap.
  set (f := fun d : string * Z => (if bool_decide (d.1 = "") then "Unknown" else d.1, d.2)).
  set (sorted := sortByCount (groupByDepartment store)).
  destruct (groupByDepartment_spec store) as [Hnd Hgroups].
  pose proof (sortByCount_perm (groupByDepartment store)) as Hperm. fold sorted in Hperm.
  pose proof (sortByCount_sorted (groupByDepartment store)) as Hsorted.
  fold sorted in Hsorted. rewrite <- (take_drop 5 sorted) in Hsorted.
  assert (forall g, g ∈ take 5 sorted -> g ∈ groupByDepartment store) as Hin.
  { intros g Hg. rewrite <- Hperm. eapply elem_of_sublist; [exact Hg|apply sublist_take]. }
  split_and!.
  - rewrite length_fmap, length_take. lia.
  - intros i j a b Hij. rewrite !list_lookup_fmap.
    destruct (take 5 sorted !! i) as [a'|] eqn:Ha; [|done].
    destruct (take 5 sorted !! j) as [b'|] eqn:Hb; [|done].
    intros [= <-] [= <-]. cbn [f snd].
    apply (StronglySorted_lookup (fun a b : string * Z => b.2 <= a.2) (take 5 sorted) i j);
      [by eapply StronglySorted_app_1_l|done..].
  - intros name n ([dep n'] & [= -> ->] & Hg%Hin)%list_elem_of_fmap.
    apply Hgroups in Hg as [-> Hpos]. by exists dep.
  - intros d Hd.
    assert ((Student.department d, studentsIn (Student.department d) store)
            ∈ sorted) as Hdep.
    { rewrite Hperm. apply Hgroups. split; [done|]. apply studentsIn_pos. by exists d. }
    rewrite <- (take_drop 5 sorted) in Hdep. apply elem_of_app in Hdep as [Hdep|Hdep].
    + left. by apply (list_elem_of_fmap_2 f) in Hdep.
    + right. split.
      * rewrite length_fmap, length_take.
        destruct (decide (length sorted <= 5)%nat) as [Hshort|]; [|lia].
        rewrite drop_ge in Hdep by done. by apply elem_of_nil in Hdep.
      * intros g (g' & -> & Hg')%list_elem_of_fmap. cbn [f snd].
        apply (StronglySorted_app_1_elem_of _ _ _ _ _ Hsorted Hg' Hdep).
  - intros Hnonempty. rewrite <- list_fmap_compose.
    rewrite (list_fmap_ext (fst ∘ f) fst).
    + apply (sublist_NoDup _ (sorted.*1)); [by rewrite Hperm|].
      apply fmap_sublist, sublist_take.
    + intros i [dep n] Hg%list_elem_of_lookup_2%Hin. cbn.
      rewrite bool_decide_eq_false_2; [done|]. intros ->.
      apply Hgroups in Hg as [-> (d & Hd & Hdep)%studentsIn_pos].
      by apply (Hnonempty d).
Qed.

End DashboardTheorems.

(** ** Texts beyond ASCII *)

Section TextExamples.

Import Sample.

(** White space of more than one byte is white space; a character counts
    for its code units. *)
Example white_space_and_length :
  JS.trim (noBreakSpace +:+ "Ada" +:+ noBreakSpace) = "Ada"
  /\ JS.trim (noBreakSpace +:+ " " +:+ noBreakSpace) = ""
  /\ JS.length zhong = 1%nat
  /\ JS.length grinning = 2%nat
  /\ Mongoose.emailRegex ("a" +:+ noBreakSpace +:+ "b@c.org") = false
  /\ Mongoose.emailRegex (zhong +:+ "@c.org") = true.
Proof. repeat split; vm_compute; reflexivity. Qed.

Definition studentRequest (name department customDepartment : string)
    : ExpressValidator.Request :=
  request
    [ ("name", name); ("rollNumber", "CS-101"); ("email", "ada@example.org");
      ("department", department); ("customDepartment", customDepartment);
      ("gpa", "3.5") ].

(** A custom department between two U+00A0 is stored without them; one of
    100 letters and a U+00A0 is stored as the 100 letters; so is a
    department of a U+00A0 and 100 letters. *)
Example departments_are_trimmed :
  Student.department
    <$> (StudentRoutes.createStudent studentEnv []
           (studentRequest "Ada Lovelace" "custom"
              (noBreakSpace +:+ "ab" +:+ noBreakSpace))).1
  = ["ab"]
  /\ Student.department
       <$> (StudentRoutes.createStudent studentEnv []
              (studentRequest "Ada Lovelace" "custom" (letters 100 +:+ noBreakSpace))).1
     = [letters 100]
  /\ StudentRoutes.createStudent studentEnv []
       (studentRequest "Ada Lovelace" (noBreakSpace +:+ letters 100) "")
     = ((StudentRoutes.createStudent studentEnv []
           (studentRequest "Ada Lovelace" (letters 100) "")).1,
        Express.Redirect "/students?msg=created").
Proof. repeat split; vm_compute; reflexivity. Qed.

(** A name of a U+00A0 and one letter has one character and is refused; a
    name of forty characters of three bytes is stored. *)
Example names_are_counted_in_characters :
  Express.statusOf
    (StudentRoutes.createStudent studentEnv []
       (studentRequest (noBreakSpace +:+ "A") "Physics" "")).2
  = Some 422
  /\ Student.name
       <$> (StudentRoutes.createStudent studentEnv []
              (studentRequest (repeated 40 zhong) "Physics" "")).1
     = [repeated 40 zhong].
Proof. repeat split; vm_compute; reflexivity. Qed.

(** A username between two U+00A0 and an email followed by one are those
    of the new user without them; a password of two characters is too
    short whatever their bytes. *)
Example signup_beyond_ascii :
  (fun r : User.Store * Express.Response =>
     (User.username <$> r.1, User.email <$> r.1, r.2))
    (AuthRoutes.signup userEnv []
       (request [ ("username", noBreakSpace +:+ "abc" +:+ noBreakSpace);
                  ("email", "a@b.org" +:+ noBreakSpace);
                  ("password", "secret12"); ("confirmPassword", "secret12") ]))
  = (["abc"], ["a@b.org"], Express.Redirect "/login?msg=signup_success")
  /\ Express.statusOf
       (AuthRoutes.signup userEnv []
          (request [ ("username", "abc"); ("email", "a@b.org");
                     ("password", zhong +:+ zhong);
                     ("confirmPassword", zhong +:+ zhong) ])).2
     = Some 422.
Proof. repeat split; vm_compute; reflexivity. Qed.

(** The list route trims its parameters the same way, and login its
    email. *)
Example parameters_are_trimmed :
  Student.dir
    (StudentRoutes.buildSort None
       (StudentRoutes.q_order
          (StudentRoutes.listValidators
             (list_to_map [("order", noBreakSpace +:+ "asc")]))))
  = 1
  /\ Student.f_department
       (StudentRoutes.listFilter
          (StudentRoutes.listValidators
             (list_to_map [("department", noBreakSpace +:+ "Physics")])))
     = Some "Physics"
  /\ (AuthRoutes.login accounts
        (loginRequest ("ada@example.org" +:+ noBreakSpace) "secret12")).2
     = Express.Redirect "/?msg=login_success".
Proof. repeat split; vm_compute; reflexivity. Qed.

End TextExamples.

(** ** The further properties on the sample data *)

Section FurtherExamples.

Import Sample.

Lemma adaStudent_meets_schema : Conditions.meetsSchema adaStudent.
Proof.
  unfold Conditions.meetsSchema.
  split; [vm_compute; lia|]. split; [vm_compute; reflexivity|].
  split; [vm_compute; reflexivity|]. split; [vm_compute; reflexivity|].
  split; [vm_compute; reflexivity|]. split; [discriminate|].
  split; [vm_compute; lia|]. split; [vm_compute; reflexivity|].
  exists (7 # 2). split; [reflexivity|]. split; vm_compute; discriminate.
Qed.

Lemma alanStudent_meets_schema : Conditions.meetsSchema alanStudent.
Proof.
  unfold Conditions.meetsSchema.
  split; [vm_compute; lia|]. split; [vm_compute; reflexivity|].
  split; [vm_compute; reflexivity|]. split; [vm_compute; reflexivity|].
  split; [vm_compute; reflexivity|]. split; [discriminate|].
  split; [vm_compute; lia|]. split; [vm_compute; reflexivity|].
  exists (39 # 10). split; [reflexivity|]. split; vm_compute; discriminate.
Qed.

Lemma enrolled_meets_schema : Forall Conditions.meetsSchema enrolled.
Proof.
  apply List.Forall_cons; [exact adaStudent_meets_schema|].
  apply List.Forall_cons; [exact alanStudent_meets_schema|]. apply List.Forall_nil.
Qed.

Lemma enrolled_unique : Conditions.uniqueStudents enrolled.
Proof. repeat split; apply (bool_decide_unpack _); vm_compute; exact I. Qed.

Lemma stored_students_meet_schema_witness :
  Forall Conditions.meetsSchema
    (StudentRoutes.updateStudent laterEnv enrolled "64b000000000000000000001"
       promotedRequest).1.
Proof.
  apply (stored_students_meet_schema laterEnv enrolled "64b000000000000000000001"
           promotedRequest).
  exact enrolled_meets_schema.
Defined.

(** With two students enrolled: a third one is stored and the three are
    distinct; an update that would give the first the roll number of the
    second is refused, and the two stay distinct. *)
Lemma student_uniqueness_kept_witness :
  (Conditions.uniqueStudents (StudentRoutes.createStudent laterEnv enrolled graceRequest).1
   /\ length (StudentRoutes.createStudent laterEnv enrolled graceRequest).1 = 3%nat)
  /\ (Conditions.uniqueStudents
        (StudentRoutes.updateStudent laterEnv enrolled "64b000000000000000000001"
           takenRollRequest).1
      /\ Express.statusOf
           (StudentRoutes.updateStudent laterEnv enrolled "64b000000000000000000001"
              takenRollRequest).2 = Some 409).
Proof.
  split.
  - destruct (student_uniqueness_kept laterEnv enrolled "64b000000000000000000001"
                graceRequest enrolled_unique) as (Hcreate & _ & _).
    split; [|vm_compute; reflexivity].
    apply Hcreate. apply (bool_decide_unpack _). vm_compute. exact I.
  - destruct (student_uniqueness_kept laterEnv enrolled "64b000000000000000000001"
                takenRollRequest enrolled_unique) as (_ & Hupdate & _).
    split; [exact Hupdate|vm_compute; reflexivity].
Defined.

Lemma duplicate_key_conflict_witness :
  (StudentRoutes.createStudent laterEnv enrolled sameRollRequest).1 = enrolled
  /\ Express.statusOf (StudentRoutes.createStudent laterEnv enrolled sameRollRequest).2
     = Some 409
  /\ Express.errorsOf (StudentRoutes.createStudent laterEnv enrolled sameRollRequest).2
     = [ {| ExpressValidator.msg := "rollNumber must be unique";
            ExpressValidator.path := None |} ].
Proof.
  destruct (duplicate_key_conflict laterEnv enrolled sameRollRequest
              (Student.applySetters
                 (StudentRoutes.studentPaths
                    (ExpressValidator.body
                       (ExpressValidator.run StudentRoutes.studentValidators
                          sameRollRequest).1)))
              adaStudent) as [Hroll _].
  - vm_compute. reflexivity.
  - vm_compute. reflexivity.
  - apply list_elem_of_here.
  - rewrite Hroll; [|vm_compute; reflexivity]. repeat split.
Defined.

(** With two students enrolled, an update of the first: the second is
    in the collection as before. *)
Lemma update_changes_one_student_witness :
  exists old d,
    old ∈ enrolled
    /\ d ∈ (StudentRoutes.updateStudent laterEnv enrolled "64b000000000000000000001"
              promotedRequest).1
    /\ Student._id d = Student._id old
    /\ Student.name d = "Ada King"
    /\ Student.createdAt d = Student.createdAt old
    /\ Student.updatedAt d = 2000
    /\ Conditions.meetsSchema d
    /\ alanStudent ∈ (StudentRoutes.updateStudent laterEnv enrolled
                        "64b000000000000000000001" promotedRequest).1
    /\ length (StudentRoutes.updateStudent laterEnv enrolled "64b000000000000000000001"
                 promotedRequest).1 = 2%nat.
Proof.
  destruct (update_changes_one_student laterEnv enrolled "64b000000000000000000001"
              promotedRequest
              (StudentRoutes.updateStudent laterEnv enrolled "64b000000000000000000001"
                 promotedRequest).1
              "/students/64b000000000000000000001?msg=updated")
    as (old & d & _ & Hold & Hoid & Hd & Hid & Hcreated & Hupdated & Hschema & _ & Hlen
        & Hothers & Hall).
  - vm_compute. reflexivity.
  - exists old, d.
    split; [exact Hold|]. split; [exact Hd|]. split; [exact Hid|].
    split.
    { destruct (Hall d Hd) as [_|[Hin Hne]]; [|by destruct Hne].
      assert (Hfirst : forall x,
                 x ∈ (StudentRoutes.updateStudent laterEnv enrolled
                        "64b000000000000000000001" promotedRequest).1 ->
                 Student._id x = "64b000000000000000000001" ->
                 Student.name x = "Ada King").
      { intros x Hx. vm_compute in Hx.
        apply elem_of_cons in Hx as [->|Hx]; [done|].
        apply list_elem_of_singleton in Hx as ->. vm_compute. discriminate. }
      apply Hfirst; [exact Hd|]. rewrite Hid, Hoid. vm_compute. reflexivity. }
    split; [exact Hcreated|]. split; [exact Hupdated|]. split; [exact Hschema|].
    split; [|exact Hlen].
    apply Hothers; [apply elem_of_cons; right; apply list_elem_of_here|].
    rewrite Hoid. vm_compute. discriminate.
Defined.

Lemma created_student_is_shown_witness :
  exists d,
    StudentPages.showStudent
      (StudentRoutes.createStudent studentEnv [] physicsRequest).1
      "64b000000000000000000001" ∅
    = StudentPages.Details d ""
    /\ Student.name d = "Ada Lovelace"
    /\ Student.rollNumber d = "cs-101".
Proof.
  destruct (created_student_is_shown studentEnv [] physicsRequest
              (StudentRoutes.createStudent studentEnv [] physicsRequest).1 ∅)
    as (d & Hshow & _ & _ & Hname & Hroll & _).
  - vm_compute. reflexivity.
  - vm_compute. reflexivity.
  - apply not_elem_of_nil.
  - exists d. split; [exact Hshow|]. split; [exact Hname|exact Hroll].
Defined.

Lemma unknown_id_not_found_witness :
  StudentPages.showStudent enrolled absentId ∅ = StudentPages.Other StudentRoutes.notFound
  /\ StudentPages.editStudent enrolled absentId = StudentPages.Other StudentRoutes.notFound.
Proof.
  destruct (unknown_id_not_found enrolled absentId) as [Habsent _].
  - vm_compute. reflexivity.
  - destruct Habsent as (Hshow & Hedit & _).
    + intros x Hx. apply elem_of_cons in Hx as [->|Hx]; [vm_compute; discriminate|].
      apply list_elem_of_singleton in Hx as ->. vm_compute. discriminate.
    + split; [apply Hshow|exact Hedit].
Defined.

Lemma malformed_id_answers_witness :
  StudentRoutes.deleteStudent enrolled "42" = (enrolled, Express.Next (Mongoose.CastError "_id"))
  /\ StudentPages.editStudent enrolled "42"
     = StudentPages.Other (Express.Next (Mongoose.CastError "_id")).
Proof.
  destruct (malformed_id_answers enrolled "42") as (Hdelete & _ & Hedit & _).
  - vm_compute. reflexivity.
  - vm_compute. lia.
  - split; [|exact Hedit]. by destruct (Hdelete (fun _ => "") true) as [? _].
Defined.

Lemma long_department_is_server_error_witness :
  exists messages,
    StudentRoutes.createStudent studentEnv [] longDepartmentRequest
    = ([], Express.Next (Mongoose.ValidationError messages))
    /\ "Department must be at most 100 characters" ∈ messages.
Proof.
  destruct (long_department_is_server_error studentEnv [] longDepartmentRequest)
    as (messages & Hcreate & Hin & _).
  - vm_compute. reflexivity.
  - vm_compute. discriminate.
  - vm_compute. lia.
  - exists messages. split; [exact Hcreate|exact Hin].
Defined.

Lemma sample_bcrypt_law :
  forall (rounds : nat) (e : Z) (salt data hashed : string),
    genSalt rounds e = inr salt -> hash data salt = inr hashed ->
    compare data hashed = true.
Proof.
  intros rounds e salt data hashed [= <-] [= <-]. by apply bool_decide_eq_true_2.
Qed.

Lemma signup_then_login_witness :
  AuthRoutes.login (AuthRoutes.signup userEnv accounts signupRequest).1 graceLogin
  = (Some {| AuthRoutes.userId := "64c000000000000000000001";
             AuthRoutes.username := "grace_h";
             AuthRoutes.role := User.user |},
     Express.Redirect "/?msg=login_success").
Proof.
  apply (signup_then_login userEnv accounts signupRequest
           (AuthRoutes.signup userEnv accounts signupRequest).1
           "/login?msg=signup_success" graceLogin).
  - exact sample_bcrypt_law.
  - vm_compute. reflexivity.
  - reflexivity.
  - reflexivity.
Defined.

Lemma accounts_unique : Conditions.uniqueUsers accounts.
Proof.
  repeat split; apply (bool_decide_unpack _); vm_compute; exact I.
Qed.

Lemma signup_keeps_users_unique_witness :
  Conditions.uniqueUsers (AuthRoutes.signup userEnv accounts signupRequest).1.
Proof.
  apply (signup_keeps_users_unique userEnv accounts signupRequest).
  - exact accounts_unique.
  - apply (bool_decide_unpack _). vm_compute. exact I.
Defined.

End FurtherExamples.
